(** * Coin-Market-Data-Scraping: scraper, persistence gateway and orchestrator

    A shallow embedding of [scraper.py], [database.py] and [main.py].

    - Python [str] values are sequences of Unicode code points ([list N]);
      dictionaries with string keys are [gmap string _].
    - Effects (the database session, the clock, the browser, the logger)
      are threaded through one state-and-exception monad [M].
    - Everything outside the repository (the SQL server, the browser, the
      clock) is an oracle collected in the record [env]; theorems quantify
      over it. *)

From stdpp Require Import gmap strings list sorting.
From Stdlib Require Import ZArith Lia.

Local Open Scope Z_scope.

(** ** Python text *)

Module PyStr.

(** A [str] is a sequence of code points. *)
Definition str := list N.

Definition in_ranges (rs : list (N * N)) (c : N) : bool :=
  existsb (fun r => (fst r <=? c)%N && (c <=? snd r)%N) rs.

(** Code points for which [str.isspace] holds (Unicode 14, the tables of
    CPython 3.11): these are what [str.strip()] removes. *)
Definition space_ranges : list (N * N) :=
  [ (0x9, 0xd); (0x1c, 0x20); (0x85, 0x85); (0xa0, 0xa0);
    (0x1680, 0x1680); (0x2000, 0x200a); (0x2028, 0x2029);
    (0x202f, 0x202f); (0x205f, 0x205f); (0x3000, 0x3000) ]%N.

Definition isspace_char (c : N) : bool := in_ranges space_ranges c.

Fixpoint lstrip (s : str) : str :=
  match s with
  | [] => []
  | c :: s' => if isspace_char c then lstrip s' else s
  end.

Definition rstrip (s : str) : str := rev (lstrip (rev s)).

(** [s.strip()] *)
Definition strip (s : str) : str := rstrip (lstrip s).

(** Every run of ten decimal digits (general category Nd) starts at one
    of these code points, which has value 0. *)
Definition decimal_zeros : list N :=
  [ 48; 1632; 1776; 1984; 2406; 2534; 2662; 2790; 2918; 3046; 3174; 3302;
    3430; 3558; 3664; 3792; 3872; 4160; 4240; 6112; 6160; 6470; 6608;
    6784; 6800; 6992; 7088; 7232; 7248; 42528; 43216; 43264; 43472;
    43504; 43600; 44016; 65296; 66720; 68912; 69734; 69872; 69942;
    70096; 70384; 70736; 70864; 71248; 71360; 71472; 71904; 72016;
    72784; 73040; 73120; 92768; 92864; 93008; 120782; 120792; 120802;
    120812; 120822; 123200; 123632; 125264; 130032 ]%N.

(** Code points with Numeric_Type=Digit that are not decimal digits:
    superscripts, subscripts, circled and parenthesised digits... *)
Definition other_digit_ranges : list (N * N) :=
  [ (178, 179); (185, 185); (4969, 4977); (6618, 6618); (8304, 8304);
    (8308, 8313); (8320, 8329); (9312, 9320); (9332, 9340); (9352, 9360);
    (9450, 9450); (9461, 9469); (9471, 9471); (10102, 10110);
    (10112, 10120); (10122, 10130); (68160, 68163); (69216, 69224);
    (69714, 69722); (127232, 127242) ]%N.

(** The decimal value of a code point, when it is a decimal digit. *)
Definition decimal_value (c : N) : option Z :=
  match List.find (fun z => (z <=? c)%N && (c <? z + 10)%N) decimal_zeros with
  | Some z => Some (Z.of_N (c - z))
  | None => None
  end.

Definition isdecimal_char (c : N) : bool :=
  match decimal_value c with Some _ => true | None => false end.

Definition isdigit_char (c : N) : bool :=
  isdecimal_char c || in_ranges other_digit_ranges c.

(** [s.isdigit()]: non-empty and every character is a digit. *)
Definition isdigit (s : str) : bool :=
  match s with
  | [] => false
  | _ => forallb isdigit_char s
  end.

(** Base-10 value of a sequence of decimal digits, most significant
    first; [None] as soon as a character is not a decimal digit. *)
Fixpoint decimal_digits (acc : Z) (s : str) : option Z :=
  match s with
  | [] => Some acc
  | c :: s' =>
      match decimal_value c with
      | Some d => decimal_digits (10 * acc + d) s'
      | None => None
      end
  end.

(** ASCII text, for the examples. *)
Fixpoint of_string (s : string) : str :=
  match s with
  | EmptyString => []
  | String a s' => Ascii.N_of_ascii a :: of_string s'
  end.

End PyStr.
Export PyStr.

(** ** Exceptions and results *)

Inductive exn : Type :=
| PyodbcError          (* pyodbc.Error and its subclasses *)
| ValueError
| KeyError
| TypeError
| IndexError
| AttributeError
| TimeoutException     (* selenium *)
| WebDriverException   (* selenium *)
| OSError
| KeyboardInterrupt.   (* a BaseException that is not an Exception *)

#[global] Instance exn_eq_dec : EqDecision exn.
Proof. solve_decision. Defined.

(** [isinstance(e, Exception)] *)
Definition is_Exception (e : exn) : bool :=
  match e with KeyboardInterrupt => false | _ => true end.

(** [isinstance(e, pyodbc.Error)] *)
Definition is_pyodbc_Error (e : exn) : bool :=
  match e with PyodbcError => true | _ => false end.

(** The outcome of running a piece of code: it returns, it raises, or the
    loop budget given to the run was not enough to see it finish. *)
Inductive result (A : Type) : Type :=
| Ok (a : A)
| Raise (e : exn)
| OutOfFuel.
Arguments Ok {A} a.
Arguments Raise {A} e.
Arguments OutOfFuel {A}.

(** Code without effects on the state runs in [result] itself, with
    stdpp's monad notation [x ← m; k]. *)
#[global] Instance result_ret : MRet result := @Ok.
#[global] Instance result_bind : MBind result :=
  fun A B (k : A -> result B) (r : result A) =>
    match r with
    | Ok a => k a
    | Raise e => Raise e
    | OutOfFuel => OutOfFuel
    end.

(** [int(s)] for a text that passed [s.isdigit()]: the value of its
    decimal digits; [ValueError] when some character is a digit without
    being a decimal digit.  (The interpreter's limit on the number of
    digits of a literal is not part of this model.) *)
Definition py_int (s : str) : result Z :=
  match s with
  | [] => Raise ValueError
  | _ => match decimal_digits 0 s with
         | Some v => Ok v
         | None => Raise ValueError
         end
  end.

(** ** Data *)

(** One scraped record, the [Dict[str, str]] built by [parse_crypto_data]. *)
Abbreviation crypto_dict := (gmap string str).

(** A row of the storage table, as bound to the ten [?] of the INSERT
    statement (the identity column is assigned by the server and is read
    by no code here).  Timestamps count seconds. *)
Record sqlrow : Type := {
  rank : option Z;
  name : str;
  price : str;
  one_hour_change : str;
  twenty_four_hour_change : str;
  seven_day_change : str;
  market_cap : str;
  volume_24h : str;
  circulating_supply : str;
  scraped_at : Z
}.

(** A user table: its secondary indexes (index name, column) and rows. *)
Record table : Type := {
  indexes : list (string * string);
  rows : list sqlrow
}.

(** An entry of [sysobjects]: a user table ([xtype = 'U']) or an object of
    another kind (a view, a procedure, ...). *)
Inductive dbobject : Type :=
| UserTable (t : table)
| OtherObject (xtype : string).

(** The catalogue, in creation order. *)
Definition database := list (string * dbobject).

(** A cell found by [row.find_all('td')].  [Td s] has text [s]; [NoText e]
    is an element on which reading [.text] raises [e]. *)
Inductive td : Type :=
| Td (text : str)
| NoText (e : exn).

(** A [<table>] element: its CSS classes and the [<tr>] elements below it,
    each with its [<td>] cells, in document order. *)
Record html_table : Type := {
  classes : list string;
  trs : list (list td)
}.

(** The parsed document: its [<table>] elements in document order. *)
Definition soup := list html_table.

(** ** The logger *)

Inductive level : Type := INFO | WARNING | ERROR.

(** A log record: level, message template, and the numbers formatted in. *)
Record log_entry : Type := Log {
  lvl : level;
  msg : string;
  args : list Z
}.

(** ** The environment: what the repository does not control *)

(** The SQL server and the ODBC driver. *)
Record server : Type := {
  connect_fails : bool;               (* [pyodbc.connect] raises *)
  create_denied : bool;               (* CREATE TABLE is refused *)
  rejects_row : sqlrow -> bool;       (* the INSERT of this row is refused *)
  delete_denied : bool;               (* the DELETE is refused *)
  commit_refused : database -> bool;  (* COMMIT of this pending state is refused *)
  getdate : Z                         (* GETDATE(), read by the DELETE *)
}.

(** The browser driven through Selenium. *)
Record browser : Type := {
  chrome_start : option exn;          (* [webdriver.Chrome] raises *)
  navigate : option exn;              (* [driver.get] raises *)
  wait_for_table : option exn;        (* [WebDriverWait.until] raises *)
  scroll_height : nat -> Z;           (* k-th read of [document.body.scrollHeight] *)
  page_source : soup                  (* the document once scrolling is over *)
}.

Record env : Type := {
  TABLE_NAME : string;
  SCROLL_STEP : Z;
  MAX_SCROLL_ATTEMPTS : Z;
  sql : server;
  chrome : browser;
  now : nat -> Z;                     (* k-th call of [datetime.now()] *)
  logging_setup : option exn          (* [setup_logging] raises *)
}.

(** ** The state threaded through a run *)

Record world : Type := World {
  stored : database;           (* what the server has committed *)
  session : option database;   (* pending state of the open connection *)
  clock_reads : nat;           (* calls of [datetime.now()] so far *)
  height_reads : nat;          (* reads of the scroll height so far *)
  scrolled : list Z;           (* positions passed to [window.scrollTo] *)
  chrome_running : bool;
  log : list log_entry
}.

Definition with_stored (d : database) (w : world) : world :=
  World d (session w) (clock_reads w) (height_reads w) (scrolled w)
        (chrome_running w) (log w).
Definition with_session (s : option database) (w : world) : world :=
  World (stored w) s (clock_reads w) (height_reads w) (scrolled w)
        (chrome_running w) (log w).
Definition with_clock_reads (n : nat) (w : world) : world :=
  World (stored w) (session w) n (height_reads w) (scrolled w)
        (chrome_running w) (log w).
Definition with_height_reads (n : nat) (w : world) : world :=
  World (stored w) (session w) (clock_reads w) n (scrolled w)
        (chrome_running w) (log w).
Definition with_scrolled (l : list Z) (w : world) : world :=
  World (stored w) (session w) (clock_reads w) (height_reads w) l
        (chrome_running w) (log w).
Definition with_chrome_running (b : bool) (w : world) : world :=
  World (stored w) (session w) (clock_reads w) (height_reads w) (scrolled w)
        b (log w).
Definition with_log (l : list log_entry) (w : world) : world :=
  World (stored w) (session w) (clock_reads w) (height_reads w) (scrolled w)
        (chrome_running w) l.

(** ** The monad of Python code: state and exceptions *)

Definition M (A : Type) : Type := world -> result A * world.

Definition ret {A} (a : A) : M A := fun w => (Ok a, w).

Definition bind {A B} (m : M A) (k : A -> M B) : M B :=
  fun w =>
    match m w with
    | (Ok a, w') => k a w'
    | (Raise e, w') => (Raise e, w')
    | (OutOfFuel, w') => (OutOfFuel, w')
    end.

Notation "x <- m ;; k" := (bind m (fun x => k))
  (at level 100, m at next level, right associativity).
Notation "m ;; k" := (bind m (fun _ => k))
  (at level 100, right associativity).

(** [raise e] *)
Definition raise {A} (e : exn) : M A := fun w => (Raise e, w).

(** Lifting an outcome that needs no state. *)
Definition lift {A} (r : result A) : M A := fun w => (r, w).

(** [try: body  except <classes> as e: handler e].  [handler e = None]
    when no [except] clause matches [e], which then propagates. *)
Definition try_except {A} (body : M A) (handler : exn -> option (M A)) : M A :=
  fun w =>
    match body w with
    | (Raise e, w') =>
        match handler e with
        | Some h => h w'
        | None => (Raise e, w')
        end
    | r => r
    end.

(** [try: body  finally: fin].  The [finally] block runs whether [body]
    returned or raised; if it raises itself, that exception replaces the
    outcome of [body]. *)
Definition try_finally {A} (body : M A) (fin : M unit) : M A :=
  fun w =>
    match body w with
    | (OutOfFuel, w') => (OutOfFuel, w')
    | (r, w') =>
        match fin w' with
        | (Ok _, w'') => (r, w'')
        | (Raise e, w'') => (Raise e, w'')
        | (OutOfFuel, w'') => (OutOfFuel, w'')
        end
    end.

(** [logger.<level>(...)] *)
Definition logger (l : level) (m : string) (a : list Z) : M unit :=
  fun w => (Ok tt, with_log (log w ++ [Log l m a]) w).

(** [d[k]] on a dictionary *)
Definition getitem (d : crypto_dict) (k : string) : result str :=
  match d !! k with
  | Some v => Ok v
  | None => Raise KeyError
  end.

(** ** The SQL statements of [database.py] *)

Module Sql.

Definition is_user_table (o : dbobject) : bool :=
  match o with UserTable _ => true | OtherObject _ => false end.

(** [EXISTS (SELECT * FROM sysobjects WHERE name = n AND xtype = 'U')] *)
Definition exists_user_table (n : string) (d : database) : bool :=
  existsb (fun e => String.eqb (fst e) n && is_user_table (snd e)) d.

(** Some object of any kind already bears the name. *)
Definition name_taken (n : string) (d : database) : bool :=
  existsb (fun e => String.eqb (fst e) n) d.

(** The object a name resolves to. *)
Fixpoint lookup_object (n : string) (d : database) : option dbobject :=
  match d with
  | [] => None
  | (m, o) :: d' => if String.eqb m n then Some o else lookup_object n d'
  end.

(** The rows held under a name (none when it is not a user table). *)
Definition table_rows (n : string) (d : database) : list sqlrow :=
  match lookup_object n d with
  | Some (UserTable t) => rows t
  | _ => []
  end.

(** [SELECT COUNT( * ) FROM n] *)
Definition row_count (n : string) (d : database) : nat :=
  length (table_rows n d).

(** Number of catalogue entries bearing a name. *)
Definition count_named (n : string) (d : database) : nat :=
  length (List.filter (fun e => String.eqb (fst e) n) d).

(** The three inline indexes of the CREATE TABLE statement. *)
Definition crypto_indexes : list (string * string) :=
  [ ("idx_name", "name"); ("idx_rank", "rank");
    ("idx_scraped_at", "scraped_at") ]%string.

Definition empty_crypto_table : table :=
  {| indexes := crypto_indexes; rows := [] |}.

(** Replace the table a name resolves to; [None] when the name does not
    resolve to a user table. *)
Fixpoint update_table (n : string) (f : table -> table) (d : database)
  : option database :=
  match d with
  | [] => None
  | (m, o) :: d' =>
      if String.eqb m n then
        match o with
        | UserTable t => Some ((m, UserTable (f t)) :: d')
        | OtherObject _ => None
        end
      else
        match update_table n f d' with
        | Some d'' => Some ((m, o) :: d'')
        | None => None
        end
  end.

Definition append_row (r : sqlrow) (t : table) : table :=
  {| indexes := indexes t; rows := rows t ++ [r] |}.

(** [INSERT INTO n (...) VALUES (...)] *)
Definition insert_into (n : string) (r : sqlrow) (d : database)
  : option database :=
  update_table n (append_row r) d.

(** [DATEADD(day, k, t)] *)
Definition dateadd_day (k : Z) (t : Z) : Z := t + 86400 * k.

Definition keep_rows (keep : sqlrow -> bool) (t : table) : table :=
  {| indexes := indexes t; rows := List.filter keep (rows t) |}.

(** [DELETE FROM n WHERE scraped_at < cutoff]: the new catalogue and the
    number of rows removed. *)
Definition delete_before (n : string) (cutoff : Z) (d : database)
  : option (database * Z) :=
  match update_table n (keep_rows (fun r => negb (scraped_at r <? cutoff))) d with
  | Some d' =>
      Some (d', Z.of_nat (row_count n d) - Z.of_nat (row_count n d'))
  | None => None
  end.

End Sql.

(** ** The driver: [pyodbc] connections and cursors *)

Section Driver.

Variable E : env.

(** The pending state of the open connection; using a connection that
    is not open is a [pyodbc.Error]. *)
Definition pending : M database :=
  fun w =>
    match session w with
    | Some d => (Ok d, w)
    | None => (Raise PyodbcError, w)
    end.

Definition set_pending (d : database) : M unit :=
  fun w => (Ok tt, with_session (Some d) w).

(** [pyodbc.connect(conn_str)]: transactions are explicit (autocommit is
    off by default), so the connection starts from the committed state. *)
Definition pyodbc_connect : M unit :=
  fun w =>
    if connect_fails (sql E) then (Raise PyodbcError, w)
    else (Ok tt, with_session (Some (stored w)) w).

(** [connection.close()]: pending work is discarded. *)
Definition connection_close : M unit :=
  fun w => (Ok tt, with_session None w).

(** [connection.commit()] *)
Definition connection_commit : M unit :=
  d <- pending ;;
  if commit_refused (sql E) d then raise PyodbcError
  else fun w => (Ok tt, with_stored d w).

(** [connection.rollback()] *)
Definition connection_rollback : M unit :=
  _ <- pending ;;
  fun w => (Ok tt, with_session (Some (stored w)) w).

(** [cursor.execute(create_table_query)]: the guarded CREATE TABLE. *)
Definition execute_create_table_query : M unit :=
  d <- pending ;;
  if Sql.exists_user_table (TABLE_NAME E) d then ret tt
  else if create_denied (sql E) || Sql.name_taken (TABLE_NAME E) d
       then raise PyodbcError
       else set_pending (d ++ [(TABLE_NAME E, UserTable Sql.empty_crypto_table)]).

(** One execution of the INSERT statement. *)
Definition execute_insert (r : sqlrow) : M unit :=
  d <- pending ;;
  if rejects_row (sql E) r then raise PyodbcError
  else match Sql.insert_into (TABLE_NAME E) r d with
       | Some d' => set_pending d'
       | None => raise PyodbcError
       end.

Fixpoint execute_each (rs : list sqlrow) : M unit :=
  match rs with
  | [] => ret tt
  | r :: rs' => execute_insert r ;; execute_each rs'
  end.

(** [cursor.executemany(insert_query, rows)]: the statement is executed
    once per parameter row, in order; an empty parameter sequence is a
    [pyodbc.ProgrammingError]. *)
Definition cursor_executemany (rs : list sqlrow) : M unit :=
  match rs with
  | [] => raise PyodbcError
  | _ => execute_each rs
  end.

(** [cursor.execute(delete_query, k)] followed by [cursor.rowcount]. *)
Definition execute_delete_query (k : Z) : M Z :=
  d <- pending ;;
  if delete_denied (sql E) then raise PyodbcError
  else match Sql.delete_before (TABLE_NAME E)
               (Sql.dateadd_day k (getdate (sql E))) d with
       | Some (d', n) => set_pending d' ;; ret n
       | None => raise PyodbcError
       end.

(** [cursor.close()] *)
Definition cursor_close : M unit := ret tt.

(** [datetime.now()] *)
Definition datetime_now : M Z :=
  fun w => (Ok (now E (clock_reads w)), with_clock_reads (S (clock_reads w)) w).

End Driver.

(** ** [database.py] *)

Section Database.

Variable E : env.

(** [with get_sql_connection() as connection: body].  The local
    [connection] holds the outcome of [pyodbc.connect]: the [finally]
    block closes the connection only when the call had returned one. *)
Definition get_sql_connection {A} (body : M A) : M A :=
  fun w =>
    let '(connection, w1) := pyodbc_connect E w in
    try_finally
      (try_except
         (lift connection ;;
          logger INFO "Database connection established" [] ;;
          body)
         (fun e =>
            if is_pyodbc_Error e
            then Some (logger ERROR "Database connection error" [] ;; raise e)
            else None))
      (* finally: if connection: ... *)
      (match connection with
       | Ok _ => connection_close ;; logger INFO "Database connection closed" []
       | _ => ret tt
       end)
      w1.

Definition create_crypto_table : M unit :=
  execute_create_table_query E ;;
  logger INFO "Table created or already exists" [].

(** The tuple built for one record in the [for] loop. *)
Definition make_row (current_time : Z) (crypto : crypto_dict) : result sqlrow :=
  rank_text ← getitem crypto "rank";
  r ← (if isdigit rank_text
       then rank_text' ← getitem crypto "rank";
            v ← py_int rank_text';
            mret (Some v)
       else mret None);
  n ← getitem crypto "name";
  p ← getitem crypto "price";
  h1 ← getitem crypto "1h_change";
  h24 ← getitem crypto "24h_change";
  d7 ← getitem crypto "7d_change";
  mc ← getitem crypto "market_cap";
  vol ← getitem crypto "24h_volume";
  cs ← getitem crypto "circulating_supply";
  mret {| rank := r; name := n; price := p; one_hour_change := h1;
          twenty_four_hour_change := h24; seven_day_change := d7;
          market_cap := mc; volume_24h := vol; circulating_supply := cs;
          scraped_at := current_time |}.

(** [for crypto in crypto_data: ... rows_to_insert.append(row)] *)
Fixpoint make_rows (current_time : Z) (crypto_data : list crypto_dict)
  : result (list sqlrow) :=
  match crypto_data with
  | [] => mret []
  | crypto :: rest =>
      row ← make_row current_time crypto;
      rows_to_insert ← make_rows current_time rest;
      mret (row :: rows_to_insert)
  end.

(** [insert_crypto_data(connection, crypto_data)]; the connection is the
    open session of the world. *)
Definition insert_crypto_data (crypto_data : list crypto_dict) : M Z :=
  try_finally
    (try_except
       (create_crypto_table ;;
        connection_commit E ;;
        current_time <- datetime_now E ;;
        rows_to_insert <- lift (make_rows current_time crypto_data) ;;
        cursor_executemany E rows_to_insert ;;
        connection_commit E ;;
        let rows_inserted := Z.of_nat (length rows_to_insert) in
        logger INFO "Successfully inserted {rows_inserted} records into database"
               [rows_inserted] ;;
        ret rows_inserted)
       (fun e =>
          if is_pyodbc_Error e
          then Some (connection_rollback ;;
                     logger ERROR "Error inserting data" [] ;;
                     raise e)
          else None))
    cursor_close.

Definition save_to_sql_server (crypto_data : list crypto_dict) : M bool :=
  match crypto_data with
  | [] => logger WARNING "No data to save" [] ;; ret false
  | _ =>
      try_except
        (get_sql_connection
           (rows_inserted <- insert_crypto_data crypto_data ;;
            logger INFO "Data save completed: {rows_inserted} rows"
                   [rows_inserted] ;;
            ret true))
        (fun e =>
           if is_Exception e
           then Some (logger ERROR "Failed to save data to SQL Server" [] ;;
                      ret false)
           else None)
  end.

(** The body of the [try] statement of [delete_old_data]. *)
Definition delete_old_data_try (days : Z) : M Z :=
  get_sql_connection
    (rows_deleted <- execute_delete_query E (- days) ;;
     connection_commit E ;;
     cursor_close ;;
     logger INFO "Deleted {rows_deleted} old records" [rows_deleted] ;;
     ret rows_deleted).

Definition delete_old_data (days : Z) : M Z :=
  try_except
    (delete_old_data_try days)
    (fun e =>
       if is_Exception e
       then Some (logger ERROR "Error deleting old data" [] ;; ret 0)
       else None).

End Database.

(** ** [scraper.py] *)

(** [list(range(start, stop, step))] *)
Definition py_range (start stop step : Z) : result (list Z) :=
  if step =? 0 then Raise ValueError
  else
    let n := if 0 <? step
             then (stop - start + step - 1) / step
             else (start - stop - step - 1) / (- step) in
    Ok (map (fun k => start + Z.of_nat k * step) (seq 0 (Z.to_nat n))).

Section Scraper.

Variable E : env.

(** [driver.execute_script("return document.body.scrollHeight")] *)
Definition read_scroll_height : M Z :=
  fun w => (Ok (scroll_height (chrome E) (height_reads w)),
            with_height_reads (S (height_reads w)) w).

(** [driver.execute_script(f"window.scrollTo(0, {i});")] *)
Definition scroll_to (i : Z) : M unit :=
  fun w => (Ok tt, with_scrolled (scrolled w ++ [i]) w).

(** The inner [for i in range(0, last_height, SCROLL_STEP)] loop (the
    pauses between steps leave no trace in the state). *)
Fixpoint smooth_scroll (positions : list Z) : M unit :=
  match positions with
  | [] => ret tt
  | i :: rest => scroll_to i ;; smooth_scroll rest
  end.

(** The [while scroll_attempts < max_scrolls] loop, with a budget of
    [fuel] passes.  It yields the final value of [scroll_attempts] and
    whether it left through [break]. *)
Fixpoint scroll_loop (fuel : nat) (max_scrolls scroll_attempts last_height : Z)
  : M (Z * bool) :=
  if scroll_attempts <? max_scrolls then
    match fuel with
    | O => fun w => (OutOfFuel, w)
    | S fuel' =>
        positions <- lift (py_range 0 last_height (SCROLL_STEP E)) ;;
        smooth_scroll positions ;;
        new_height <- read_scroll_height ;;
        if new_height =? last_height then
          logger INFO "Reached end of page" [] ;;
          ret (scroll_attempts, true)
        else
          let last_height := new_height in
          let scroll_attempts := scroll_attempts + 1 in
          logger INFO "Scroll attempt {scroll_attempts}/{max_scrolls}"
                 [scroll_attempts; max_scrolls] ;;
          scroll_loop fuel' max_scrolls scroll_attempts last_height
    end
  else ret (scroll_attempts, false).

Definition scroll_to_load_content (fuel : nat) (max_scrolls : Z) : M unit :=
  let scroll_attempts := 0 in
  last_height <- read_scroll_height ;;
  logger INFO "Starting page scroll to load dynamic content" [] ;;
  _ <- scroll_loop fuel max_scrolls scroll_attempts last_height ;;
  logger INFO "Finished scrolling" [].

(** [soup.find('table', {'class': 'cmc-table'})] *)
Definition find_cmc_table (s : soup) : option html_table :=
  List.find (fun t => existsb (String.eqb "cmc-table") (classes t)) s.

(** [cols[i].text.strip()] *)
Definition cell_text (cols : list td) (i : nat) : result str :=
  match cols !! i with
  | None => Raise IndexError
  | Some (Td s) => Ok (strip s)
  | Some (NoText e) => Raise e
  end.

(** The dictionary literal of the loop body. *)
Definition crypto_info_of (cols : list td) : result crypto_dict :=
  c1 ← cell_text cols 1;
  c2 ← cell_text cols 2;
  c3 ← cell_text cols 3;
  c4 ← cell_text cols 4;
  c5 ← cell_text cols 5;
  c6 ← cell_text cols 6;
  c7 ← cell_text cols 7;
  c8 ← cell_text cols 8;
  c9 ← cell_text cols 9;
  mret (<["rank" := c1]> (<["name" := c2]> (<["price" := c3]>
       (<["1h_change" := c4]> (<["24h_change" := c5]>
       (<["7d_change" := c6]> (<["market_cap" := c7]>
       (<["24h_volume" := c8]> (<["circulating_supply" := c9]>
       (∅ : crypto_dict)))))))))).

(** [except (IndexError, AttributeError)] *)
Definition is_row_error (e : exn) : bool :=
  match e with IndexError | AttributeError => true | _ => false end.

(** [for row in rows[1:]] with [crypto_data] as accumulator. *)
Fixpoint parse_rows (rows : list (list td)) (crypto_data : list crypto_dict)
  : M (list crypto_dict) :=
  match rows with
  | [] => ret crypto_data
  | cols :: rest =>
      if (10 <=? length cols)%nat then
        crypto_data' <-
          try_except
            (crypto_info <- lift (crypto_info_of cols) ;;
             ret (crypto_data ++ [crypto_info]))
            (fun e =>
               if is_row_error e
               then Some (logger WARNING "Error parsing row" [] ;;
                          ret crypto_data)
               else None) ;;
        parse_rows rest crypto_data'
      else parse_rows rest crypto_data
  end.

Definition parse_crypto_data (s : soup) : M (list crypto_dict) :=
  match find_cmc_table s with
  | None =>
      logger ERROR "Could not find cryptocurrency table" [] ;;
      ret []
  | Some table =>
      let rows := trs table in
      logger INFO "Found {len(rows)-1} cryptocurrency rows (excluding header)"
             [Z.of_nat (length rows) - 1] ;;
      parse_rows (drop 1 rows) []
  end.

Definition oracle (o : option exn) : M unit :=
  match o with
  | Some e => raise e
  | None => ret tt
  end.

(** [webdriver.Chrome(options=options)] followed by
    [driver.implicitly_wait(5)] *)
Definition webdriver_Chrome : M unit :=
  oracle (chrome_start (chrome E)) ;;
  fun w => (Ok tt, with_chrome_running true w).

(** [driver.quit()] *)
Definition driver_quit : M unit :=
  fun w => (Ok tt, with_chrome_running false w).

(** [with get_chrome_driver() as driver: body].  The local [driver]
    holds the outcome of starting the browser: the [finally] block quits
    it only when there is one. *)
Definition get_chrome_driver {A} (body : M A) : M A :=
  fun w =>
    let '(driver, w1) := webdriver_Chrome w in
    try_finally
      (try_except
         (lift driver ;;
          logger INFO "Chrome WebDriver initialized successfully" [] ;;
          body)
         (fun e =>
            if is_Exception e
            then Some (logger ERROR "Error initializing WebDriver" [] ;; raise e)
            else None))
      (* finally: if driver: ... *)
      (match driver with
       | Ok _ => driver_quit ;; logger INFO "Browser closed successfully" []
       | _ => ret tt
       end)
      w1.

(** [scrape_coinmarketcap()].  The [with] block yields the parsed page,
    or [None] where the source leaves it through [return []].  The
    scroll loop runs with the budget [MAX_SCROLL_ATTEMPTS]. *)
Definition scrape_coinmarketcap : M (list crypto_dict) :=
  try_except
    (page <-
       get_chrome_driver
         (logger INFO "Navigating to {COINMARKETCAP_URL}" [] ;;
          oracle (navigate (chrome E)) ;;
          timed_out <-
            try_except
              (oracle (wait_for_table (chrome E)) ;;
               logger INFO "Table loaded successfully" [] ;;
               ret false)
              (fun e =>
                 match e with
                 | TimeoutException =>
                     Some (logger ERROR "Timeout waiting for table to load" [] ;;
                           ret true)
                 | _ => None
                 end) ;;
          if timed_out : bool then ret None
          else
            scroll_to_load_content (Z.to_nat (MAX_SCROLL_ATTEMPTS E))
                                   (MAX_SCROLL_ATTEMPTS E) ;;
            ret (Some (page_source (chrome E)))) ;;
     match page with
     | None => ret []
     | Some s =>
         crypto_data <- parse_crypto_data s ;;
         logger INFO "Successfully scraped {len(crypto_data)} cryptocurrencies"
                [Z.of_nat (length crypto_data)] ;;
         ret crypto_data
     end)
    (fun e =>
       if is_Exception e
       then Some (logger ERROR "Error during scraping" [] ;; ret [])
       else None).

End Scraper.

(** ** [main.py] *)

Section Main.

Variable E : env.

Definition setup_logging : M unit := oracle (logging_setup E).

Definition main : M unit :=
  setup_logging ;;
  try_except
    (logger INFO "Starting cryptocurrency scraping..." [] ;;
     crypto_data <- scrape_coinmarketcap E ;;
     match crypto_data with
     | [] => logger ERROR "Failed to scrape data" []
     | _ =>
         logger INFO "Successfully scraped {len(crypto_data)} cryptocurrencies"
                [Z.of_nat (length crypto_data)] ;;
         logger INFO "Saving data to SQL Server..." [] ;;
         saved <- save_to_sql_server E crypto_data ;;
         if saved : bool then
           logger INFO "Successfully saved {len(crypto_data)} records to database"
                  [Z.of_nat (length crypto_data)]
         else
           logger ERROR "Failed to save data to database" []
     end)
    (fun e =>
       match e with
       | KeyboardInterrupt =>
           Some (logger INFO "Operation cancelled by user" [])
       | _ =>
           if is_Exception e
           then Some (logger ERROR "Application error" [])
           else None
       end).

End Main.

(** ** Vocabulary of the statements *)

(** The server takes the INSERT of this row. *)
Definition accepted (E : env) (r : sqlrow) : Prop :=
  rejects_row (sql E) r = false.

(** What a batch insert started at [w] can end in: either it raises and
    the committed rows are those of [w], or it returns the number of rows
    it prepared and exactly those rows were appended and committed. *)
Inductive insert_outcome (E : env) (data : list crypto_dict) (w : world)
  : result Z -> world -> Prop :=
| insert_failed e w' :
    Sql.table_rows (TABLE_NAME E) (stored w')
    = Sql.table_rows (TABLE_NAME E) (stored w) ->
    session w' = Some (stored w') ->
    (clock_reads w' <= S (clock_reads w))%nat ->
    (e = PyodbcError \/ make_rows (now E (clock_reads w)) data = Raise e) ->
    insert_outcome E data w (Raise e) w'
| insert_done rs w' :
    make_rows (now E (clock_reads w)) data = Ok rs ->
    Sql.table_rows (TABLE_NAME E) (stored w')
    = Sql.table_rows (TABLE_NAME E) (stored w) ++ rs ->
    Forall (accepted E) rs ->
    commit_refused (sql E) (stored w') = false ->
    session w' = Some (stored w') ->
    clock_reads w' = S (clock_reads w) ->
    insert_outcome E data w (Ok (Z.of_nat (length rs))) w'.

(** The database and the clock are as they were. *)
Definition db_same (w w' : world) : Prop :=
  stored w' = stored w /\ session w' = session w
  /\ clock_reads w' = clock_reads w.

(** [m] finishes within its loop budget, relates the worlds before and
    after it by [Inv], and raises only exceptions in [Good]. *)
Definition respects (Inv : world -> world -> Prop) (Good : exn -> Prop)
  {A} (m : M A) : Prop :=
  forall w,
    match m w with
    | (Ok _, w') => Inv w w'
    | (Raise e, w') => Inv w w' /\ Good e
    | (OutOfFuel, _) => False
    end.

(** A pure computation finishes and raises only exceptions in [Good]. *)
Definition raises_only {A} (Good : exn -> Prop) (r : result A) : Prop :=
  match r with
  | Ok _ => True
  | Raise e => Good e
  | OutOfFuel => False
  end.

(** The exceptions of a dictionary lookup and of [int]. *)
Definition lookup_or_value (e : exn) : Prop := e = KeyError \/ e = ValueError.

(** Database code: it finishes, and what it raises is an [Exception]. *)
Definition db_safe {A} (m : M A) : Prop :=
  respects (fun _ _ => True) (fun e => is_Exception e = true) m.

(** Scraper code: it finishes and leaves the database and the clock alone. *)
Definition leaves_db {A} (m : M A) : Prop :=
  respects db_same (fun _ => True) m.

(** Every value [m] can return satisfies [P]. *)
Definition returns_only {A} (P : A -> Prop) (m : M A) : Prop :=
  forall w a w', m w = (Ok a, w') -> P a.

(** What the loop body of [parse_crypto_data] makes of one row: a record,
    or nothing when the row is short or a field access raises. *)
Definition row_record (cols : list td) : option crypto_dict :=
  if (10 <=? length cols)%nat then
    match crypto_info_of cols with
    | Ok d => Some d
    | _ => None
    end
  else None.

(** The rows that yield no record. *)
Definition skipped_rows (rows : list (list td)) : nat :=
  length (List.filter (fun cols => negb (bool_decide (is_Some (row_record cols)))) rows).

(** A record whose name and price are both present and non-empty. *)
Definition has_name_and_price (d : crypto_dict) : Prop :=
  exists n p, d !! "name"%string = Some n /\ n <> []
              /\ d !! "price"%string = Some p /\ p <> [].

(** The numbers a log carries. *)
Definition logged_numbers (l : list log_entry) : list Z := flat_map args l.

(** ** Sample data *)

Module Sample.

Definition quiet_server : server :=
  {| connect_fails := false; create_denied := false;
     rejects_row := fun _ => false; delete_denied := false;
     commit_refused := fun _ => false; getdate := 1700000000 |}.

(** A server that refuses rows whose name is longer than the column
    ([NVARCHAR(100)]). *)
Definition strict_server : server :=
  {| connect_fails := false; create_denied := false;
     rejects_row := fun r => (100 <? length (name r))%nat;
     delete_denied := false;
     commit_refused := fun _ => false; getdate := 1700000000 |}.

Definition unreachable_server : server :=
  {| connect_fails := true; create_denied := false;
     rejects_row := fun _ => false; delete_denied := false;
     commit_refused := fun _ => false; getdate := 1700000000 |}.

Definition cell (s : string) : td := Td (of_string s).

Definition full_row (r n p : string) : list td :=
  [ cell ""; cell r; cell n; cell p; cell "0.1%"; cell "1.2%";
    cell "3.4%"; cell "$1B"; cell "$2M"; cell " 19M BTC "; cell "" ].

Definition header : list td := [].

(** Header, one good row, two rows that are too short. *)
Definition table_short_rows : html_table :=
  {| classes := ["cmc-table"]%string;
     trs := [ header; full_row "1" "Bitcoin" "$1"; [cell "ad"];
              [cell ""; cell "2"; cell "Ether"] ] |}.

Definition page_short_rows : soup := [table_short_rows].

(** Header and one row of eleven cells without any text. *)
Definition page_blank_row : soup :=
  [ {| classes := ["cmc-table"]%string;
       trs := [ header; full_row "" "" "" ] |} ].

(** Header, a row whose third cell has no [.text], and a good row. *)
Definition table_broken_cell : html_table :=
  {| classes := ["cmc-table"]%string;
     trs := [ header;
              [ cell ""; cell "1"; NoText AttributeError; cell "";
                cell ""; cell ""; cell ""; cell ""; cell ""; cell "" ];
              full_row "2" "Ether" "$2" ] |}.

Definition page_broken_cell : soup := [table_broken_cell].

Definition growing_page (k : nat) : Z := 1000 * Z.of_nat (S k).

Definition browser_of (heights : nat -> Z) (page : soup) : browser :=
  {| chrome_start := None; navigate := None; wait_for_table := None;
     scroll_height := heights; page_source := page |}.

Definition env_of (s : server) (b : browser) : env :=
  {| TABLE_NAME := "CryptoCurrency"; SCROLL_STEP := 400;
     MAX_SCROLL_ATTEMPTS := 3; sql := s; chrome := b;
     now := fun k => 1700000000 + Z.of_nat k; logging_setup := None |}.

(** A browser in which the table never appears. *)
Definition stalled_browser : browser :=
  {| chrome_start := None; navigate := None;
     wait_for_table := Some TimeoutException;
     scroll_height := growing_page; page_source := [] |}.

Definition stalled_env : env := env_of quiet_server stalled_browser.

Definition demo_env : env :=
  env_of quiet_server (browser_of growing_page page_short_rows).

Definition strict_env : env :=
  env_of strict_server (browser_of growing_page page_short_rows).

Definition offline_env : env :=
  env_of unreachable_server (browser_of growing_page page_short_rows).

Definition record_of (r n p : string) : crypto_dict :=
  <["rank" := of_string r]> (<["name" := of_string n]>
  (<["price" := of_string p]> (<["1h_change" := of_string "0.1%"]>
  (<["24h_change" := of_string "1.2%"]> (<["7d_change" := of_string "3.4%"]>
  (<["market_cap" := of_string "$1B"]> (<["24h_volume" := of_string "$2M"]>
  (<["circulating_supply" := of_string "19M BTC"]> ∅)))))))).

(** A record whose rank is U+00B2 SUPERSCRIPT TWO. *)
Definition record_superscript_rank : crypto_dict :=
  <["rank" := [178%N]]> (record_of "" "Squared" "$2").

Definition long_name : str := repeat 65%N 101.

Definition record_long_name : crypto_dict :=
  <["name" := long_name]> (record_of "3" "" "$3").

Definition old_row : sqlrow :=
  {| rank := Some 1; name := of_string "Bitcoin"; price := of_string "$1";
     one_hour_change := []; twenty_four_hour_change := [];
     seven_day_change := []; market_cap := []; volume_24h := [];
     circulating_supply := []; scraped_at := 1600000000 |}.

(** Scraped five days before the server's [GETDATE()]. *)
Definition recent_row : sqlrow :=
  {| rank := Some 2; name := of_string "Ether"; price := of_string "$2";
     one_hour_change := []; twenty_four_hour_change := [];
     seven_day_change := []; market_cap := []; volume_24h := [];
     circulating_supply := []; scraped_at := 1700000000 - 5 * 86400 |}.

Definition recent_row_db : database :=
  [ ("CryptoCurrency"%string,
     UserTable {| indexes := Sql.crypto_indexes; rows := [recent_row] |}) ].

Definition one_row_db : database :=
  [ ("CryptoCurrency"%string,
     UserTable {| indexes := Sql.crypto_indexes; rows := [old_row] |}) ].

(** A record whose rank is U+2014 EM DASH. *)
Definition record_dash_rank : crypto_dict :=
  <["rank" := [8212%N]]> (record_of "" "Ether" "$2").

Definition good_batch : list crypto_dict :=
  [ record_of "1" "Bitcoin" "$1"; record_dash_rank ].

Definition batch_with_long_name : list crypto_dict :=
  [ record_of "1" "Bitcoin" "$1"; record_long_name ].

Definition batch_with_superscript_rank : list crypto_dict :=
  [ record_of "1" "Bitcoin" "$1"; record_superscript_rank ].

(** The rows prepared from a batch at the first clock reading. *)
Definition rows_of (E : env) (batch : list crypto_dict) : list sqlrow :=
  match make_rows (now E 0) batch with
  | Ok rs => rs
  | _ => []
  end.

(** No connection open, nothing logged yet. *)
Definition idle (d : database) : world := World d None 0 0 [] false [].

(** A connection just opened on [d]. *)
Definition connected (d : database) : world :=
  World d (Some d) 0 0 [] false [].

End Sample.

(** ** [database.py]: reading back *)

Module SqlRead.

(** [r1] may come before [r2] under ORDER BY scraped_at DESC. *)
Definition newer_or_same : relation sqlrow :=
  fun r1 r2 => scraped_at r2 <= scraped_at r1.

#[global] Instance newer_or_same_dec r1 r2 : Decision (newer_or_same r1 r2).
Proof. unfold newer_or_same. apply Z_le_dec. Defined.

(** ORDER BY scraped_at DESC.  SQL leaves the order of rows with equal
    timestamps open; the merge sort settles it one way. *)
Definition order_by_scraped_at_desc (rs : list sqlrow) : list sqlrow :=
  merge_sort newer_or_same rs.

(** [SELECT TOP (k) rank, ..., scraped_at FROM n ORDER BY scraped_at DESC];
    a negative [k] is an error, and so is a name that is no user table. *)
Definition select_top (n : string) (k : Z) (d : database)
  : option (list sqlrow) :=
  match Sql.lookup_object n d with
  | Some (UserTable t) =>
      if k <? 0 then None
      else Some (take (Z.to_nat k) (order_by_scraped_at_desc (rows t)))
  | _ => None
  end.

End SqlRead.

Section ReadBack.

Variable E : env.

(** The server refuses the SELECT (no permission, a time-out, a lost
    connection). *)
Variable select_denied : bool.

(** [cursor.execute(query, limit)] followed by [cursor.fetchall()]. *)
Definition execute_select_query (limit : Z) : M (list sqlrow) :=
  d <- pending ;;
  if select_denied then raise PyodbcError
  else match SqlRead.select_top (TABLE_NAME E) limit d with
       | Some results => ret results
       | None => raise PyodbcError
       end.

(** [get_recent_data(limit)]; [None] is Python's [None]. *)
Definition get_recent_data (limit : Z) : M (option (list sqlrow)) :=
  try_except
    (get_sql_connection E
       (results <- execute_select_query limit ;;
        cursor_close ;;
        ret (Some results)))
    (fun e =>
       if is_Exception e
       then Some (logger ERROR "Error retrieving data" [] ;; ret None)
       else None).

End ReadBack.

(** ** Vocabulary of the further statements *)

(** Only the log, the scroll position and the count of height reads
    differ: what browsing and parsing may change. *)
Definition only_browsing (w w' : world) : Prop :=
  stored w' = stored w /\ session w' = session w
  /\ clock_reads w' = clock_reads w
  /\ chrome_running w' = chrome_running w.

(** The browser is as it was: what database code guarantees. *)
Definition browser_same (w w' : world) : Prop :=
  chrome_running w' = chrome_running w
  /\ height_reads w' = height_reads w
  /\ scrolled w' = scrolled w.

(** Nothing that was released has been acquired and kept. *)
Definition released (w w' : world) : Prop :=
  (session w = None -> session w' = None)
  /\ (chrome_running w = false -> chrome_running w' = false).

(** A text that neither starts nor ends with white space. *)
Definition trimmed (s : str) : Prop :=
  match s with [] => True | c :: _ => isspace_char c = false end
  /\ match rev s with [] => True | c :: _ => isspace_char c = false end.

(** The timestamp before which [delete_old_data days] deletes. *)
Definition prune_cutoff (E : env) (days : Z) : Z :=
  Sql.dateadd_day (- days) (getdate (sql E)).

(** A row that [delete_old_data days] keeps. *)
Definition kept (E : env) (days : Z) (r : sqlrow) : bool :=
  negb (scraped_at r <? prune_cutoff E days).

(** What [delete_old_data] returns and commits, as a function of the
    committed database. *)
Definition delete_result (E : env) (days : Z) (d : database) : Z * database :=
  if connect_fails (sql E) then (0, d)
  else if delete_denied (sql E) then (0, d)
  else match Sql.delete_before (TABLE_NAME E) (prune_cutoff E days) d with
       | Some (d', n) => if commit_refused (sql E) d' then (0, d) else (n, d')
       | None => (0, d)
       end.

(** Browsing code: it finishes and changes nothing but the log, the
    scroll position and the count of height reads. *)
Definition browses {A} (m : M A) : Prop :=
  respects only_browsing (fun _ => True) m.

(** Code that finishes and leaves the browser as it was. *)
Definition keeps_browser {A} (m : M A) : Prop :=
  respects browser_same (fun _ => True) m.

(** The database and the clock are as they were, and a browser that was
    not running is not running. *)
Definition browser_quit (w w' : world) : Prop :=
  db_same w w' /\ (chrome_running w = false -> chrome_running w' = false).

(** Code that finishes and keeps nothing it acquired. *)
Definition tidy {A} (m : M A) : Prop :=
  respects released (fun _ => True) m.

(** The positions of one smooth scroll over a page of height [h]:
    [range(0, h, SCROLL_STEP)]. *)
Definition positions_of (E : env) (h : Z) : list Z :=
  match py_range 0 h (SCROLL_STEP E) with
  | Ok positions => positions
  | _ => []
  end.

(** The value of [last_height] at the start of pass [j] of the loop that
    was entered in [w] with [last_height = h]. *)
Definition height_before (E : env) (w : world) (h : Z) (j : nat) : Z :=
  match j with
  | O => h
  | S i => scroll_height (chrome E) (height_reads w + i)
  end.

(** A [<table>] element that the extractor's search accepts. *)
Definition is_cmc_table (t : html_table) : Prop :=
  "cmc-table"%string ∈ classes t.

(** The pending catalogue of the open connection, if any, agrees with the
    committed one on every name but the table's. *)
Definition coherent (E : env) (w : world) : Prop :=
  forall d m, session w = Some d -> m <> TABLE_NAME E ->
    Sql.lookup_object m d = Sql.lookup_object m (stored w).

(** What database code may change: not the browser, and no catalogue
    object under another name than the table's. *)
Definition own_table_only (E : env) (w w' : world) : Prop :=
  browser_same w w'
  /\ (coherent E w ->
      coherent E w'
      /\ forall m, m <> TABLE_NAME E ->
           Sql.lookup_object m (stored w') = Sql.lookup_object m (stored w)).

(** Database code: it finishes and changes only its own table. *)
Definition db_code (E : env) {A} (m : M A) : Prop :=
  respects (own_table_only E) (fun _ => True) m.

(** The records the extractor makes of a document. *)
Definition records_of_page (s : soup) (data : list crypto_dict) : Prop :=
  exists table,
    find_cmc_table s = Some table
    /\ data = omap row_record (drop 1 (trs table)).

(** Relative to a committed state [d0]: the committed catalogue is [d0]
    or has the table, and so has the pending one. *)
Definition table_or_nothing (E : env) (d0 : database) (w : world) : Prop :=
  (stored w = d0 \/ Sql.exists_user_table (TABLE_NAME E) (stored w) = true)
  /\ forall d, session w = Some d ->
       d = d0 \/ Sql.exists_user_table (TABLE_NAME E) d = true.

(** Code that never takes the table away once it is there. *)
Definition keeps_table (E : env) (w w' : world) : Prop :=
  forall d0, table_or_nothing E d0 w -> table_or_nothing E d0 w'.

(** * Properties *)

(** ** The text functions on concrete inputs *)

Example strip_trims_both_ends :
  strip (of_string "  19M BTC  ") = of_string "19M BTC"
  /\ strip [0xa0; 0x3000; 66; 0x2009]%N = [66%N]
  /\ strip (of_string "   ") = [].
Proof. repeat split; reflexivity. Qed.

Example isdigit_on_rank_texts :
  isdigit (of_string "42") = true
  /\ isdigit (of_string "") = false
  /\ isdigit (of_string "4 2") = false
  /\ isdigit (of_string "-1") = false
  /\ isdigit [8212%N] = false          (* em dash *)
  /\ isdigit [0x663; 0x664]%N = true   (* Arabic-Indic three, four *)
  /\ isdigit [0xb2%N] = true.          (* superscript two *)
Proof. repeat split; reflexivity. Qed.

Example py_int_on_digit_texts :
  py_int (of_string "042") = Ok 42
  /\ py_int [0x663; 0x664]%N = Ok 34
  /\ py_int [0xb2%N] = Raise ValueError.
Proof. repeat split; reflexivity. Qed.

Example py_range_steps :
  py_range 0 10 3 = Ok [0; 3; 6; 9]
  /\ py_range 0 9 3 = Ok [0; 3; 6]
  /\ py_range 0 0 3 = Ok []
  /\ py_range 0 (-5) (-2) = Ok [0; -2; -4]
  /\ py_range 0 10 (-2) = Ok []
  /\ py_range 0 10 0 = Raise ValueError.
Proof. repeat split; reflexivity. Qed.

(** ** The catalogue *)

Module SqlFacts.
Import Sql.

Lemma lookup_object_app_fresh n d o :
  name_taken n d = false ->
  lookup_object n (d ++ [(n, o)]) = Some o /\ lookup_object n d = None.
Proof.
  induction d as [|[m o'] d IH]; simpl.
  - intros _. rewrite String.eqb_refl. auto.
  - destruct (String.eqb m n); simpl; [discriminate|]. exact IH.
Qed.

Lemma table_rows_create n d :
  name_taken n d = false ->
  table_rows n (d ++ [(n, UserTable empty_crypto_table)]) = table_rows n d.
Proof.
  intros H. unfold table_rows.
  destruct (lookup_object_app_fresh n d (UserTable empty_crypto_table) H) as [H1 H2].
  rewrite H1, H2. reflexivity.
Qed.

Lemma update_table_lookup n f d d' :
  update_table n f d = Some d' ->
  exists t, lookup_object n d = Some (UserTable t)
            /\ lookup_object n d' = Some (UserTable (f t)).
Proof.
  revert d'. induction d as [|[m o] d IH]; simpl; intros d' H; [discriminate|].
  destruct (String.eqb m n) eqn:Hm.
  - destruct o as [t|x]; [|discriminate]. injection H as <-.
    exists t. simpl. rewrite Hm. auto.
  - destruct (update_table n f d) as [d''|] eqn:Hu; [|discriminate].
    injection H as <-. destruct (IH _ eq_refl) as (t & H1 & H2).
    exists t. simpl. rewrite Hm. auto.
Qed.

Lemma insert_into_rows n r d d' :
  insert_into n r d = Some d' ->
  table_rows n d' = table_rows n d ++ [r].
Proof.
  intros H. apply update_table_lookup in H as (t & H1 & H2).
  unfold table_rows. rewrite H1, H2. reflexivity.
Qed.

Lemma exists_user_table_created n d t :
  exists_user_table n (d ++ [(n, UserTable t)]) = true.
Proof.
  unfold exists_user_table. rewrite existsb_app. simpl.
  rewrite String.eqb_refl. simpl. apply orb_true_r.
Qed.

Lemma count_named_app n d d' :
  count_named n (d ++ d') = (count_named n d + count_named n d')%nat.
Proof. unfold count_named. rewrite List.filter_app, length_app. reflexivity. Qed.

Lemma count_named_fresh n d : name_taken n d = false -> count_named n d = 0%nat.
Proof.
  unfold name_taken, count_named.
  induction d as [|[m o] d IH]; simpl; [reflexivity|].
  destruct (String.eqb m n); simpl; [discriminate|]. exact IH.
Qed.

Lemma crypto_indexes_distinct : NoDup (map fst crypto_indexes).
Proof. apply (bool_decide_unpack _). vm_compute. reflexivity. Qed.

End SqlFacts.

(** ** Running the monad *)

Lemma with_session_same w d : session w = Some d -> with_session (Some d) w = w.
Proof. destruct w; simpl; intros ->; reflexivity. Qed.

Lemma try_except_raise {A} e (h : exn -> option (M A)) w :
  try_except (raise e) h w =
  match h e with Some hh => hh w | None => (Raise e, w) end.
Proof. reflexivity. Qed.

(** A guarded sequence runs its first statement, then the rest under the
    same guards. *)
Lemma guarded_bind {A B} (m : M A) (k : A -> M B) h f w :
  try_finally (try_except (bind m k) h) f w =
  match m w with
  | (Ok a, w1) => try_finally (try_except (k a) h) f w1
  | (Raise e, w1) => try_finally (try_except (raise e) h) f w1
  | (OutOfFuel, w1) => (OutOfFuel, w1)
  end.
Proof.
  unfold try_finally, try_except, bind, raise.
  destruct (m w) as [[a|e|] w1]; reflexivity.
Qed.

Lemma try_except_bind {A B} (m : M A) (k : A -> M B) h w :
  try_except (bind m k) h w =
  match m w with
  | (Ok a, w1) => try_except (k a) h w1
  | (Raise e, w1) => try_except (raise e) h w1
  | (OutOfFuel, w1) => (OutOfFuel, w1)
  end.
Proof.
  unfold try_except, bind, raise.
  destruct (m w) as [[a|e|] w1]; reflexivity.
Qed.

(** ** The driver *)

Section DriverFacts.

Variable E : env.
Import Sql.

Lemma create_run (w : world) (d : database) :
  session w = Some d ->
  create_crypto_table E w =
    if exists_user_table (TABLE_NAME E) d
    then (Ok tt, with_log (log w ++ [Log INFO "Table created or already exists" []]) w)
    else if create_denied (sql E) || name_taken (TABLE_NAME E) d
         then (Raise PyodbcError, w)
         else (Ok tt,
               with_log (log w ++ [Log INFO "Table created or already exists" []])
                 (with_session
                    (Some (d ++ [(TABLE_NAME E, UserTable empty_crypto_table)])) w)).
Proof.
  intros Hs. unfold create_crypto_table, execute_create_table_query, bind, pending.
  rewrite Hs.
  destruct (exists_user_table (TABLE_NAME E) d); [reflexivity|].
  destruct (create_denied (sql E) || name_taken (TABLE_NAME E) d); reflexivity.
Qed.

Lemma create_run_closed (w : world) :
  session w = None -> create_crypto_table E w = (Raise PyodbcError, w).
Proof.
  intros Hs. unfold create_crypto_table, execute_create_table_query, bind, pending.
  rewrite Hs. reflexivity.
Qed.

Lemma commit_run w d :
  session w = Some d ->
  connection_commit E w =
    if commit_refused (sql E) d then (Raise PyodbcError, w)
    else (Ok tt, with_stored d w).
Proof.
  intros Hs. unfold connection_commit, bind, pending. rewrite Hs.
  destruct (commit_refused (sql E) d); reflexivity.
Qed.

Lemma rollback_run w d :
  session w = Some d ->
  connection_rollback w = (Ok tt, with_session (Some (stored w)) w).
Proof.
  intros Hs. unfold connection_rollback, bind, pending. rewrite Hs. reflexivity.
Qed.

Lemma insert_handler_run (e : exn) w d :
  session w = Some d ->
  (connection_rollback ;; logger ERROR "Error inserting data" [] ;; raise e) w
  = (Raise e : result Z,
     with_log (log w ++ [Log ERROR "Error inserting data" []])
       (with_session (Some (stored w)) w)).
Proof.
  intros Hs. unfold bind at 1. rewrite (rollback_run _ _ Hs). reflexivity.
Qed.

(** The per-row executions either all go through, appending the rows in
    order, or stop at the first refusal; only the pending state moves. *)
Lemma execute_each_run rs : forall w d,
  session w = Some d ->
  (exists d', execute_each E rs w = (Ok tt, with_session (Some d') w)
              /\ table_rows (TABLE_NAME E) d' = table_rows (TABLE_NAME E) d ++ rs
              /\ Forall (accepted E) rs)
  \/ (exists d', execute_each E rs w = (Raise PyodbcError, with_session (Some d') w)
                 /\ (Exists (fun r => rejects_row (sql E) r = true) rs
                     \/ exists d0 r, In r rs /\ insert_into (TABLE_NAME E) r d0 = None)).
Proof.
  induction rs as [|r rs IH]; intros w d Hs.
  - left. exists d. simpl. unfold ret.
    rewrite (with_session_same _ _ Hs), app_nil_r. auto.
  - simpl. unfold bind at 1. unfold execute_insert, bind, pending. rewrite Hs.
    destruct (rejects_row (sql E) r) eqn:Hrej.
    { right. exists d. unfold raise. rewrite (with_session_same _ _ Hs).
      split; [reflexivity|]. left. constructor. exact Hrej. }
    destruct (insert_into (TABLE_NAME E) r d) as [d1|] eqn:Hins.
    2:{ right. exists d. unfold raise. rewrite (with_session_same _ _ Hs).
        split; [reflexivity|]. right. exists d, r. split; [left; reflexivity|exact Hins]. }
    unfold set_pending.
    destruct (IH (with_session (Some d1) w) d1 eq_refl)
      as [(d' & Hrun & Hrows & Hacc)|(d' & Hrun & Hwhy)].
    + left. exists d'. rewrite Hrun. split; [reflexivity|]. split.
      * rewrite Hrows, (SqlFacts.insert_into_rows _ _ _ _ Hins), <- app_assoc.
        reflexivity.
      * constructor; assumption.
    + right. exists d'. rewrite Hrun. split; [reflexivity|].
      destruct Hwhy as [Hex|(d0 & r' & Hin & Hnone)].
      * left. apply Exists_cons_tl. exact Hex.
      * right. exists d0, r'. split; [right; exact Hin|exact Hnone].
Qed.

End DriverFacts.

(** ** Preparing rows *)

Ltac break_match_goal :=
  match goal with
  | |- context [match ?x with _ => _ end] =>
      let Heq := fresh "Heq" in destruct x eqn:Heq
  end.

(** Case analysis on a scrutinee that contains no other case analysis. *)
Ltac break_innermost :=
  match goal with
  | |- context [match ?x with _ => _ end] =>
      lazymatch x with
      | context [match _ with _ => _ end] => fail
      | _ => let Heq := fresh "Heq" in destruct x eqn:Heq
      end
  end.

Ltac unfold_result := unfold mbind, mret, result_bind, result_ret in *.

Section RowFacts.

Lemma result_bind_ok {A B} (m : result A) (k : A -> result B) b :
  mbind k m = Ok b -> exists a, m = Ok a /\ k a = Ok b.
Proof. destruct m as [a| |]; simpl; try discriminate. eauto. Qed.

Lemma getitem_ok (c : crypto_dict) k v : getitem c k = Ok v -> c !! k = Some v.
Proof. unfold getitem. destruct (c !! k); congruence. Qed.

(** What [make_row] returns, field by field. *)
Lemma make_row_ok t c r :
  make_row t c = Ok r ->
  scraped_at r = t
  /\ c !! "name"%string = Some (name r)
  /\ c !! "price"%string = Some (price r)
  /\ exists text, c !! "rank"%string = Some text
       /\ (if isdigit text
           then exists v, py_int text = Ok v /\ rank r = Some v
           else rank r = None).
Proof.
  unfold make_row. intros H.
  apply result_bind_ok in H as (text & Hrank & H).
  apply result_bind_ok in H as (rk & Hrk & H).
  apply result_bind_ok in H as (n & Hn & H).
  apply result_bind_ok in H as (p & Hp & H).
  do 6 (apply result_bind_ok in H as (? & _ & H)).
  injection H as <-. simpl.
  apply getitem_ok in Hrank, Hn, Hp.
  split; [reflexivity|]. split; [exact Hn|]. split; [exact Hp|].
  exists text. split; [exact Hrank|].
  destruct (isdigit text).
  - apply result_bind_ok in Hrk as (text' & Hrank' & Hrk).
    apply getitem_ok in Hrank'. rewrite Hrank in Hrank'. injection Hrank' as <-.
    apply result_bind_ok in Hrk as (v & Hv & Hrk).
    injection Hrk as <-. eauto.
  - injection Hrk as <-. reflexivity.
Qed.

Lemma raises_only_bind {A B} Good (m : result A) (k : A -> result B) :
  raises_only Good m -> (forall a, raises_only Good (k a)) ->
  raises_only Good (mbind k m).
Proof. destruct m; simpl; auto. Qed.

Lemma getitem_raises_only (c : crypto_dict) k :
  raises_only lookup_or_value (getitem c k).
Proof. unfold getitem. destruct (c !! k); simpl; [exact I|left; reflexivity]. Qed.

Lemma py_int_raises_only s : raises_only lookup_or_value (py_int s).
Proof.
  unfold py_int. destruct s; simpl; [right; reflexivity|].
  break_match_goal; simpl; [exact I|right; reflexivity].
Qed.

Lemma make_row_raises_only t c : raises_only lookup_or_value (make_row t c).
Proof.
  unfold make_row.
  repeat first
    [ apply raises_only_bind; [|intros ?]
    | apply getitem_raises_only
    | apply py_int_raises_only
    | break_match_goal
    | exact I ].
Qed.

Lemma make_rows_raises_only t data : raises_only lookup_or_value (make_rows t data).
Proof.
  induction data as [|c data IH]; simpl; [exact I|].
  apply raises_only_bind; [apply make_row_raises_only|intros r].
  apply raises_only_bind; [exact IH|intros rs]. exact I.
Qed.

Lemma make_rows_finishes t data : make_rows t data <> OutOfFuel.
Proof.
  pose proof (make_rows_raises_only t data) as H. intros Heq.
  rewrite Heq in H. exact H.
Qed.

Lemma make_rows_raises t data e :
  make_rows t data = Raise e -> e = KeyError \/ e = ValueError.
Proof.
  pose proof (make_rows_raises_only t data) as H. intros Heq.
  rewrite Heq in H. exact H.
Qed.

(** The prepared rows correspond one to one, in order, to the records. *)
Lemma make_rows_ok t data rs :
  make_rows t data = Ok rs ->
  Forall2 (fun c r => make_row t c = Ok r) data rs.
Proof.
  revert rs. induction data as [|c data IH]; simpl; intros rs H.
  - injection H as <-. constructor.
  - unfold_result.
    destruct (make_row t c) as [r| |] eqn:Hr; try discriminate.
    destruct (make_rows t data) as [rs'| |]; try discriminate.
    injection H as <-. constructor; [exact Hr|]. apply IH. reflexivity.
Qed.

Lemma make_rows_length t data rs :
  make_rows t data = Ok rs -> length rs = length data.
Proof.
  intros H. apply make_rows_ok in H. symmetry.
  eapply Forall2_length. exact H.
Qed.

Lemma make_rows_scraped_at t data rs :
  make_rows t data = Ok rs -> Forall (fun r => scraped_at r = t) rs.
Proof.
  intros H. apply make_rows_ok in H.
  induction H as [|c r data rs Hr _ IH]; constructor; [|exact IH].
  apply (make_row_ok t c r Hr).
Qed.

End RowFacts.

(** ** The batch insert *)

Section InsertFacts.

Variable E : env.
Import Sql.

(** The outcome of a batch insert on a connection without pending work. *)
Lemma insert_crypto_data_run data w :
  session w = Some (stored w) ->
  insert_outcome E data w (fst (insert_crypto_data E data w))
                          (snd (insert_crypto_data E data w)).
Proof.
  intros Hs.
  unfold insert_crypto_data.
  match goal with
  | |- context [try_finally (try_except (bind (create_crypto_table E) ?k) ?h) ?f] =>
      set (K := k); set (H := h); set (F := f)
  end.
  assert (Hraise : forall w1 d1,
             session w1 = Some d1 ->
             table_rows (TABLE_NAME E) (stored w1)
             = table_rows (TABLE_NAME E) (stored w) ->
             (clock_reads w1 <= S (clock_reads w))%nat ->
             insert_outcome E data w
               (fst (try_finally (try_except (raise PyodbcError) H) F w1))
               (snd (try_finally (try_except (raise PyodbcError) H) F w1))).
  { intros w1 d1 Hs1 Hrows Hck. subst H F.
    unfold try_finally. rewrite try_except_raise. cbv beta.
    change (is_pyodbc_Error PyodbcError) with true. cbv iota.
    rewrite (insert_handler_run _ _ _ Hs1). cbn.
    constructor; cbn; auto. }
  assert (HK : forall w1 d1,
             session w1 = Some d1 ->
             table_rows (TABLE_NAME E) d1 = table_rows (TABLE_NAME E) (stored w) ->
             stored w1 = stored w ->
             clock_reads w1 = clock_reads w ->
             insert_outcome E data w
               (fst (try_finally (try_except (K tt) H) F w1))
               (snd (try_finally (try_except (K tt) H) F w1))).
  { intros w1 d1 Hs1 Hrows Hst Hck. subst K. cbv beta.
    rewrite guarded_bind, (commit_run E w1 d1 Hs1).
    destruct (commit_refused (sql E) d1) eqn:Hc1.
    { apply (Hraise _ _ Hs1); [congruence | lia]. }
    rewrite guarded_bind. cbn [datetime_now].
    rewrite guarded_bind. unfold lift. cbn [clock_reads with_stored].
    rewrite Hck.
    pose proof (make_rows_finishes (now E (clock_reads w)) data) as Hfin.
    destruct (make_rows (now E (clock_reads w)) data) as [rs|e|] eqn:Hmk;
      [| |congruence].
    2:{ subst H F. unfold try_finally. rewrite try_except_raise. cbv beta.
        destruct (is_pyodbc_Error e).
        - rewrite (insert_handler_run e _ d1) by (cbn; exact Hs1). cbn.
          constructor; cbn; auto.
        - cbn. constructor; cbn; auto. }
    rewrite guarded_bind.
    destruct rs as [|r0 rs0].
    { unfold cursor_executemany, raise.
      apply (Hraise _ d1); cbn; auto. }
    change (cursor_executemany E (r0 :: rs0)) with (execute_each E (r0 :: rs0)).
    remember (r0 :: rs0) as rs eqn:Hrs.
    match goal with
    | |- context [execute_each E rs ?w2] =>
        destruct (execute_each_run E rs w2 d1 Hs1)
          as [(d2 & Hrun & Hrows2 & Hacc)|(d2 & Hrun & _)]; rewrite Hrun
    end.
    2:{ apply (Hraise _ d2); cbn; auto. }
    rewrite guarded_bind, (commit_run E _ d2) by reflexivity.
    destruct (commit_refused (sql E) d2) eqn:Hc2.
    { apply (Hraise _ d2); cbn; auto. }
    subst H F. unfold try_finally, try_except, cursor_close. cbn.
    constructor; cbn; auto. congruence. }
  rewrite guarded_bind, (create_run E w _ Hs).
  destruct (exists_user_table (TABLE_NAME E) (stored w)) eqn:Hex.
  { apply (HK _ (stored w)); cbn; auto. }
  destruct (create_denied (sql E) || name_taken (TABLE_NAME E) (stored w)) eqn:Hden.
  { apply (Hraise _ (stored w)); cbn; auto. }
  apply orb_false_elim in Hden as [_ Hfree].
  eapply HK; cbn; [reflexivity| |reflexivity|reflexivity].
  apply SqlFacts.table_rows_create, Hfree.
Qed.

End InsertFacts.

(** C1.  The batch insert is all-or-nothing.  On a freshly opened
    connection: if the server refuses any row of the batch, the call raises
    [pyodbc.Error]; whenever the call raises, whatever the reason, the
    pending work has been rolled back and the committed table holds the
    rows it held before, so its row count is unchanged; and when the call
    returns, every row of the batch has been committed. *)
Theorem insert_crypto_data_all_or_nothing (E : env) (data : list crypto_dict)
    (w : world) :
  session w = Some (stored w) ->
  let r := fst (insert_crypto_data E data w) in
  let w' := snd (insert_crypto_data E data w) in
  (forall rs,
      make_rows (now E (clock_reads w)) data = Ok rs ->
      Exists (fun x => rejects_row (sql E) x = true) rs ->
      r = Raise PyodbcError)
  /\ (forall e,
        r = Raise e ->
        Sql.row_count (TABLE_NAME E) (stored w')
        = Sql.row_count (TABLE_NAME E) (stored w)
        /\ Sql.table_rows (TABLE_NAME E) (stored w')
           = Sql.table_rows (TABLE_NAME E) (stored w)
        /\ session w' = Some (stored w'))
  /\ (forall n,
        r = Ok n ->
        exists rs,
          make_rows (now E (clock_reads w)) data = Ok rs
          /\ Sql.table_rows (TABLE_NAME E) (stored w')
             = Sql.table_rows (TABLE_NAME E) (stored w) ++ rs
          /\ Sql.row_count (TABLE_NAME E) (stored w')
             = (Sql.row_count (TABLE_NAME E) (stored w) + length data)%nat).
Proof.
  intros Hs r w'. subst r w'.
  pose proof (insert_crypto_data_run E data w Hs) as Hout.
  inversion Hout as [e w1 Hrows Hsess Hck Hwhy Hr Hw
                    |rs w1 Hmk Hrows Hacc Hcommit Hsess Hck Hr Hw].
  - split; [|split].
    + intros rs Hmk _. destruct Hwhy as [->|Hmk']; [reflexivity|congruence].
    + intros e' _. unfold Sql.row_count. rewrite Hrows. auto.
    + intros n Hn. discriminate.
  - split; [|split].
    + intros rs' Hmk' Hrej. exfalso.
      rewrite Hmk in Hmk'. injection Hmk' as <-.
      apply Exists_exists in Hrej as (x & Hx & Hrej).
      rewrite Forall_forall in Hacc. specialize (Hacc x Hx).
      unfold accepted in Hacc. congruence.
    + intros e He. discriminate.
    + intros n _. exists rs. split; [exact Hmk|]. split; [exact Hrows|].
      unfold Sql.row_count. rewrite Hrows, length_app.
      rewrite (make_rows_length _ _ _ Hmk). reflexivity.
Qed.

Lemma pair_of_fst {A B} (p : A * B) (a : A) : fst p = a -> p = (a, snd p).
Proof. destruct p; simpl; intros ->; reflexivity. Qed.

Lemma insert_crypto_data_all_or_nothing_witness :
  fst (insert_crypto_data Sample.strict_env Sample.batch_with_long_name
         (Sample.connected Sample.one_row_db)) = Raise PyodbcError
  /\ Sql.row_count "CryptoCurrency"
       (stored (snd (insert_crypto_data Sample.strict_env
                       Sample.batch_with_long_name
                       (Sample.connected Sample.one_row_db)))) = 1%nat.
Proof.
  destruct (insert_crypto_data_all_or_nothing Sample.strict_env
              Sample.batch_with_long_name
              (Sample.connected Sample.one_row_db) eq_refl) as (Hraises & Hrows & _).
  assert (Hr : fst (insert_crypto_data Sample.strict_env
                      Sample.batch_with_long_name
                      (Sample.connected Sample.one_row_db)) = Raise PyodbcError).
  { apply (Hraises (Sample.rows_of Sample.strict_env Sample.batch_with_long_name)).
    - vm_compute. reflexivity.
    - apply Exists_cons_tl, Exists_cons_hd. vm_compute. reflexivity. }
  split; [exact Hr|].
  destruct (Hrows _ Hr) as [Hcount _]. exact (eq_trans Hcount eq_refl).
Defined.

(** C7.  The timestamp is read once per batch.  On a freshly opened
    connection a call reads the clock at most once; the rows it prepares
    all carry that one reading; and when it returns, it has read the clock
    exactly once and the rows it appended to the table, one per record,
    all carry that reading. *)
Theorem scraped_at_assigned_once (E : env) (data : list crypto_dict) (w : world) :
  session w = Some (stored w) ->
  let t := now E (clock_reads w) in
  let r := fst (insert_crypto_data E data w) in
  let w' := snd (insert_crypto_data E data w) in
  (clock_reads w' <= S (clock_reads w))%nat
  /\ (forall rs, make_rows t data = Ok rs ->
                 Forall (fun x => scraped_at x = t) rs)
  /\ (forall n, r = Ok n ->
        clock_reads w' = S (clock_reads w)
        /\ exists rs,
             Sql.table_rows (TABLE_NAME E) (stored w')
             = Sql.table_rows (TABLE_NAME E) (stored w) ++ rs
             /\ length rs = length data
             /\ Forall (fun x => scraped_at x = t) rs).
Proof.
  intros Hs t r w'. subst t r w'.
  pose proof (insert_crypto_data_run E data w Hs) as Hout.
  split; [|split].
  - inversion Hout; lia.
  - intros rs. apply make_rows_scraped_at.
  - intros n Hn.
    inversion Hout as [e w1 Hrows Hsess Hck Hwhy Hr Hw
                      |rs w1 Hmk Hrows Hacc Hcommit Hsess Hck Hr Hw].
    + congruence.
    + split; [exact Hck|]. exists rs. split; [exact Hrows|]. split.
      * eapply make_rows_length. exact Hmk.
      * eapply make_rows_scraped_at. exact Hmk.
Qed.

Lemma scraped_at_assigned_once_witness :
  clock_reads (snd (insert_crypto_data Sample.demo_env Sample.good_batch
                      (Sample.connected Sample.one_row_db))) = 1%nat
  /\ exists rs,
       Sql.table_rows "CryptoCurrency"
         (stored (snd (insert_crypto_data Sample.demo_env Sample.good_batch
                         (Sample.connected Sample.one_row_db))))
       = [Sample.old_row] ++ rs
       /\ length rs = 2%nat
       /\ Forall (fun x => scraped_at x = 1700000000) rs.
Proof.
  destruct (scraped_at_assigned_once Sample.demo_env Sample.good_batch
              (Sample.connected Sample.one_row_db) eq_refl) as (_ & _ & Hdone).
  apply (Hdone 2). vm_compute. reflexivity.
Defined.

(** ** What a computation can return *)

Section ReturnsOnly.

Context {A B : Type}.

Lemma returns_only_ret (P : A -> Prop) a : P a -> returns_only P (ret a).
Proof. intros H w a' w' [= <- <-]. exact H. Qed.

Lemma returns_only_raise (P : A -> Prop) e : returns_only P (raise e).
Proof. intros w a w' H. discriminate. Qed.

Lemma returns_only_lift (r : result A) : returns_only (fun a => r = Ok a) (lift r).
Proof. intros w a w' [= -> <-]. reflexivity. Qed.

Lemma returns_only_any (m : M A) : returns_only (fun _ => True) m.
Proof. intros w a w' _. exact I. Qed.

Lemma returns_only_bind (Q : A -> Prop) (P : B -> Prop) m (k : A -> M B) :
  returns_only Q m -> (forall a, Q a -> returns_only P (k a)) ->
  returns_only P (bind m k).
Proof.
  intros Hm Hk w b w' H. unfold bind in H.
  destruct (m w) as [[a|e|] w1] eqn:Hrun; try discriminate.
  exact (Hk a (Hm _ _ _ Hrun) _ _ _ H).
Qed.

Lemma returns_only_try_except (P : A -> Prop) m (h : exn -> option (M A)) :
  returns_only P m ->
  (forall e hh, h e = Some hh -> returns_only P hh) ->
  returns_only P (try_except m h).
Proof.
  intros Hm Hh w a w' H. unfold try_except in H.
  destruct (m w) as [[a1|e|] w1] eqn:Hrun; try discriminate.
  - injection H as <- <-. exact (Hm _ _ _ Hrun).
  - destruct (h e) as [hh|] eqn:He; [|discriminate].
    exact (Hh e hh He _ _ _ H).
Qed.

Lemma returns_only_try_finally (P : A -> Prop) m (f : M unit) :
  returns_only P m -> returns_only P (try_finally m f).
Proof.
  intros Hm w a w' H. unfold try_finally in H.
  destruct (m w) as [[a1|e|] w1] eqn:Hrun; try discriminate;
    destruct (f w1) as [[[]|e'|] w2]; try discriminate.
  injection H as <- <-. exact (Hm _ _ _ Hrun).
Qed.

End ReturnsOnly.

(** C9.  When the batch insert returns, the number it returns is the
    length of the list it was given: it is the length of the prepared row
    list, which has one row per record. *)
Theorem insert_crypto_data_returns_length (E : env) (data : list crypto_dict)
    (w w' : world) (n : Z) :
  insert_crypto_data E data w = (Ok n, w') ->
  n = Z.of_nat (length data).
Proof.
  revert w n w'. change (returns_only (fun n => n = Z.of_nat (length data))
                           (insert_crypto_data E data)).
  unfold insert_crypto_data.
  apply returns_only_try_finally, returns_only_try_except.
  - eapply returns_only_bind; [apply returns_only_any|intros _ _].
    eapply returns_only_bind; [apply returns_only_any|intros _ _].
    eapply returns_only_bind; [apply returns_only_any|intros t _].
    eapply returns_only_bind; [apply returns_only_lift|intros rs Hrs].
    eapply returns_only_bind; [apply returns_only_any|intros _ _].
    eapply returns_only_bind; [apply returns_only_any|intros _ _].
    eapply returns_only_bind; [apply returns_only_any|intros _ _].
    apply returns_only_ret. f_equal. eapply make_rows_length. exact Hrs.
  - intros e hh Hh. destruct (is_pyodbc_Error e); [|discriminate].
    injection Hh as <-.
    eapply returns_only_bind; [apply returns_only_any|intros _ _].
    eapply returns_only_bind; [apply returns_only_any|intros _ _].
    apply returns_only_raise.
Qed.

Lemma insert_crypto_data_returns_length_witness :
  fst (insert_crypto_data Sample.demo_env Sample.good_batch
         (Sample.connected Sample.one_row_db)) = Ok 2
  /\ 2 = Z.of_nat (length Sample.good_batch).
Proof.
  split; [vm_compute; reflexivity|].
  apply (insert_crypto_data_returns_length Sample.demo_env Sample.good_batch
           (Sample.connected Sample.one_row_db)
           (snd (insert_crypto_data Sample.demo_env Sample.good_batch
                   (Sample.connected Sample.one_row_db)))).
  apply pair_of_fst. vm_compute. reflexivity.
Defined.

(** ** Rank texts *)




(** A rank text that [isdigit] refuses is stored as null, whatever it is. *)
Lemma make_row_rank_null t c r text :
  c !! "rank"%string = Some text -> isdigit text = false ->
  make_row t c = Ok r -> rank r = None.
Proof.
  intros Hrank Hnd H. apply make_row_ok in H as (_ & _ & _ & text' & Hrank' & Hspec).
  rewrite Hrank in Hrank'. injection Hrank' as <-. rewrite Hnd in Hspec. exact Hspec.
Qed.

(** C6.  At the rank text U+00B2 (superscript two) the batch insert fails:
    [isdigit] accepts the text, [int] raises [ValueError] on it, the
    exception is not a [pyodbc.Error] and leaves [insert_crypto_data]; no
    row of the batch is stored.  The em dash of the claim is stored as
    null. *)
Theorem superscript_rank_aborts_batch :
  let run := insert_crypto_data Sample.demo_env
               Sample.batch_with_superscript_rank
               (Sample.connected Sample.one_row_db) in
  Sample.record_superscript_rank !! "rank"%string = Some [178%N]
  /\ isdigit [178%N] = true
  /\ py_int [178%N] = Raise ValueError
  /\ fst run = Raise ValueError
  /\ Sql.table_rows "CryptoCurrency" (stored (snd run)) = [Sample.old_row]
  /\ isdigit [8212%N] = false
  /\ (rank <$> Sql.table_rows "CryptoCurrency"
        (stored (snd (insert_crypto_data Sample.demo_env Sample.good_batch
                        (Sample.connected Sample.one_row_db)))))
     = [Some 1; Some 1; None].
Proof. vm_compute. repeat split; reflexivity. Qed.

(** ** Rules for [respects] *)

Section RespectsRules.

Variable Inv : world -> world -> Prop.
Variable Good : exn -> Prop.
Hypothesis Inv_refl : forall w, Inv w w.
Hypothesis Inv_trans : forall w1 w2 w3, Inv w1 w2 -> Inv w2 w3 -> Inv w1 w3.
Hypothesis Inv_log : forall w l, Inv w (with_log l w).

Lemma respects_ret {A} (a : A) : respects Inv Good (ret a).
Proof. intros w. apply Inv_refl. Qed.

Lemma respects_raise {A} e : Good e -> respects Inv Good (@raise A e).
Proof. intros H w. split; [apply Inv_refl|exact H]. Qed.

Lemma respects_lift {A} (r : result A) :
  raises_only Good r -> respects Inv Good (lift r).
Proof.
  intros H w. unfold lift. destruct r; simpl in *; auto.
Qed.

Lemma respects_logger l m a : respects Inv Good (logger l m a).
Proof. intros w. apply Inv_log. Qed.

Lemma respects_bind {A B} (m : M A) (k : A -> M B) :
  respects Inv Good m -> (forall a, respects Inv Good (k a)) ->
  respects Inv Good (bind m k).
Proof.
  intros Hm Hk w. unfold bind. specialize (Hm w).
  destruct (m w) as [[a|e|] w1]; [|exact Hm|exact Hm].
  specialize (Hk a w1). destruct (k a w1) as [[b|e|] w2]; [| |exact Hk].
  - eapply Inv_trans; eassumption.
  - destruct Hk as [Hk He]. split; [eapply Inv_trans; eassumption|exact He].
Qed.

Lemma respects_try_except {A} (m : M A) (h : exn -> option (M A)) :
  respects Inv Good m ->
  (forall e hh, h e = Some hh -> respects Inv Good hh) ->
  respects Inv Good (try_except m h).
Proof.
  intros Hm Hh w. unfold try_except. specialize (Hm w).
  destruct (m w) as [[a|e|] w1]; [exact Hm| |exact Hm].
  destruct Hm as [Hm He]. destruct (h e) as [hh|] eqn:Hhe; [|auto].
  specialize (Hh e hh Hhe w1). destruct (hh w1) as [[b|e'|] w2]; [| |exact Hh].
  - eapply Inv_trans; eassumption.
  - destruct Hh as [Hh He']. split; [eapply Inv_trans; eassumption|exact He'].
Qed.

Lemma respects_try_finally {A} (m : M A) (f : M unit) :
  respects Inv Good m -> respects Inv Good f ->
  respects Inv Good (try_finally m f).
Proof.
  intros Hm Hf w. unfold try_finally. specialize (Hm w).
  destruct (m w) as [[a|e|] w1]; [| |exact Hm];
    specialize (Hf w1); destruct (f w1) as [[[]|e'|] w2]; try exact Hf.
  - eapply Inv_trans; eassumption.
  - destruct Hf as [Hf He']. split; [eapply Inv_trans; eassumption|exact He'].
  - destruct Hm as [Hm He]. split; [eapply Inv_trans; eassumption|exact He].
  - destruct Hm as [Hm He]. destruct Hf as [Hf He'].
    split; [eapply Inv_trans; eassumption|exact He'].
Qed.

End RespectsRules.

(** ** The database code raises nothing but [Exception]s *)

Create HintDb db_safe.

Section DbSafe.

Variable E : env.

Lemma db_safe_ret {A} (a : A) : db_safe (ret a).
Proof. unfold db_safe. apply respects_ret; auto. Qed.

Lemma db_safe_raise {A} e : is_Exception e = true -> db_safe (@raise A e).
Proof. intros H. unfold db_safe. apply respects_raise; [auto|exact H]. Qed.

Lemma db_safe_logger l m a : db_safe (logger l m a).
Proof. unfold db_safe. apply respects_logger; auto. Qed.

Lemma db_safe_bind {A B} (m : M A) (k : A -> M B) :
  db_safe m -> (forall a, db_safe (k a)) -> db_safe (bind m k).
Proof. unfold db_safe. apply respects_bind; auto. Qed.

Lemma db_safe_try_except {A} (m : M A) (h : exn -> option (M A)) :
  db_safe m -> (forall e hh, h e = Some hh -> db_safe hh) ->
  db_safe (try_except m h).
Proof. unfold db_safe. apply respects_try_except; auto. Qed.

Lemma db_safe_try_finally {A} (m : M A) (f : M unit) :
  db_safe m -> db_safe f -> db_safe (try_finally m f).
Proof. unfold db_safe. apply respects_try_finally; auto. Qed.

Lemma db_safe_lift {A} (r : result A) :
  raises_only lookup_or_value r -> db_safe (lift r).
Proof.
  intros H. unfold db_safe. apply respects_lift; [auto|].
  destruct r as [a|e|]; simpl in *; auto. destruct H as [-> | ->]; reflexivity.
Qed.

(** A driver call ends in a value or in [pyodbc.Error]. *)
Ltac driver_call :=
  unfold db_safe, respects; intros w; cbv beta delta
    [pending set_pending pyodbc_connect connection_close connection_commit
     connection_rollback execute_create_table_query execute_insert
     execute_delete_query cursor_close datetime_now bind ret raise];
  simpl; repeat (break_innermost; simpl); auto.

Lemma db_safe_connect : db_safe (pyodbc_connect E).
Proof. driver_call. Qed.

Lemma db_safe_close : db_safe connection_close.
Proof. driver_call. Qed.

Lemma db_safe_commit : db_safe (connection_commit E).
Proof. driver_call. Qed.

Lemma db_safe_rollback : db_safe connection_rollback.
Proof. driver_call. Qed.

Lemma db_safe_create_query : db_safe (execute_create_table_query E).
Proof. driver_call. Qed.

Lemma db_safe_insert r : db_safe (execute_insert E r).
Proof. driver_call. Qed.

Lemma db_safe_delete_query k : db_safe (execute_delete_query E k).
Proof. driver_call. Qed.

Lemma db_safe_now : db_safe (datetime_now E).
Proof. driver_call. Qed.

Lemma db_safe_execute_each rs : db_safe (execute_each E rs).
Proof.
  induction rs as [|r rs IH]; simpl.
  - apply db_safe_ret.
  - apply db_safe_bind; [apply db_safe_insert|intros _; exact IH].
Qed.

Lemma db_safe_executemany rs : db_safe (cursor_executemany E rs).
Proof.
  destruct rs; [apply db_safe_raise; reflexivity|apply db_safe_execute_each].
Qed.

#[local] Hint Resolve db_safe_ret db_safe_logger db_safe_connect db_safe_close
  db_safe_commit db_safe_rollback db_safe_create_query db_safe_delete_query
  db_safe_now db_safe_executemany : db_safe.

Ltac db_safe_step :=
  first
    [ solve [auto with db_safe]
    | apply db_safe_bind; [|intros ?]
    | apply db_safe_try_finally
    | apply db_safe_try_except
    | apply db_safe_raise; reflexivity ].

Lemma db_safe_get_sql_connection {A} (body : M A) :
  db_safe body -> db_safe (get_sql_connection E body).
Proof.
  intros Hbody w. unfold get_sql_connection.
  pose proof (db_safe_connect w) as Hc.
  destruct (pyodbc_connect E w) as [[[]|e|] w1]; [| |contradiction].
  - refine (db_safe_try_finally _ _ _ _ w1); repeat db_safe_step; auto.
    intros e hh Hh. destruct (is_pyodbc_Error e) eqn:He; [|discriminate].
    injection Hh as <-. repeat db_safe_step.
    apply db_safe_raise. destruct e; try discriminate; reflexivity.
  - destruct Hc as [_ He].
    refine (db_safe_try_finally _ _ _ _ w1); repeat db_safe_step; auto.
    + unfold db_safe. apply respects_lift; auto.
    + intros e' hh Hh. destruct (is_pyodbc_Error e') eqn:He'; [|discriminate].
      injection Hh as <-. repeat db_safe_step.
      apply db_safe_raise. destruct e'; try discriminate; reflexivity.
Qed.

Lemma db_safe_insert_crypto_data data : db_safe (insert_crypto_data E data).
Proof.
  unfold insert_crypto_data, create_crypto_table, cursor_close.
  repeat db_safe_step.
  - apply db_safe_lift, make_rows_raises_only.
  - intros e hh Hh. destruct (is_pyodbc_Error e) eqn:He; [|discriminate].
    injection Hh as <-. repeat db_safe_step.
    apply db_safe_raise. destruct e; try discriminate; reflexivity.
Qed.

Lemma db_safe_delete_old_data_try days : db_safe (delete_old_data_try E days).
Proof.
  unfold delete_old_data_try, cursor_close.
  apply db_safe_get_sql_connection. repeat db_safe_step.
Qed.

End DbSafe.

(** ** Schema creation *)

(** C8.  Creating the schema is idempotent.  A second call in succession
    leaves the pending catalogue and the committed one exactly as the first
    call left them, and does not fail if the first did not.  When the user
    table already exists the call returns without error and changes
    nothing.  The calls add at most one catalogue entry under the table
    name, and none when one is there; a table they create carries each of
    the three indexes once. *)
Theorem create_crypto_table_idempotent (E : env) (w : world) :
  let T := TABLE_NAME E in
  let once := create_crypto_table E w in
  let twice := create_crypto_table E (snd once) in
  (session (snd twice) = session (snd once)
   /\ stored (snd twice) = stored (snd once))
  /\ (fst once = Ok tt -> fst twice = Ok tt)
  /\ (forall d, session w = Some d ->
        Sql.exists_user_table T d = true ->
        fst once = Ok tt /\ session (snd once) = Some d)
  /\ (forall d d', session w = Some d -> session (snd twice) = Some d' ->
        (Sql.count_named T d' <= Nat.max 1 (Sql.count_named T d))%nat
        /\ (Sql.exists_user_table T d = false -> fst once = Ok tt ->
            Sql.lookup_object T d' = Some (UserTable Sql.empty_crypto_table)
            /\ NoDup (map fst (indexes Sql.empty_crypto_table)))).
Proof.
  intros T once twice. subst once twice T.
  destruct (session w) as [d|] eqn:Hs.
  2:{ rewrite (create_run_closed E w Hs). simpl. rewrite (create_run_closed E w Hs).
      simpl. repeat split; try discriminate. }
  rewrite (create_run E w d Hs).
  destruct (Sql.exists_user_table (TABLE_NAME E) d) eqn:Hex.
  - simpl. rewrite (create_run E _ d) by exact Hs. rewrite Hex. simpl.
    split; [auto|]. split; [auto|]. split.
    + intros x [= <-] _. auto.
    + intros x y [= <-] Hy. rewrite Hs in Hy. injection Hy as <-.
      split; [lia|]. rewrite Hex. discriminate.
  - destruct (create_denied (sql E) || Sql.name_taken (TABLE_NAME E) d) eqn:Hden.
    + simpl. rewrite (create_run E w d Hs), Hex, Hden. simpl.
      split; [auto|]. split; [discriminate|]. split.
      * intros x [= <-] Hx. congruence.
      * intros x y [= <-] Hy. rewrite Hs in Hy. injection Hy as <-.
        split; [lia|]. discriminate.
    + simpl.
      rewrite (create_run E _ (d ++ [(TABLE_NAME E, UserTable Sql.empty_crypto_table)]))
        by reflexivity.
      rewrite SqlFacts.exists_user_table_created. simpl.
      apply orb_false_elim in Hden as [_ Hfree].
      split; [auto|]. split; [auto|]. split.
      * intros x [= <-] Hx. congruence.
      * intros x y [= <-] [= <-]. split.
        -- rewrite SqlFacts.count_named_app, (SqlFacts.count_named_fresh _ _ Hfree).
           unfold Sql.count_named. simpl. rewrite String.eqb_refl. simpl. lia.
        -- intros _ _. split.
           ++ apply SqlFacts.lookup_object_app_fresh, Hfree.
           ++ apply SqlFacts.crypto_indexes_distinct.
Qed.

(** Created once on an empty catalogue, untouched by the second call. *)
Example create_twice_on_empty_catalogue :
  let w1 := snd (create_crypto_table Sample.demo_env (Sample.connected [])) in
  let w2 := snd (create_crypto_table Sample.demo_env w1) in
  session w1 = Some [("CryptoCurrency"%string, UserTable Sql.empty_crypto_table)]
  /\ session w2 = session w1.
Proof. vm_compute. split; reflexivity. Qed.

(** ** Retention pruning *)

(** C10.  [delete_old_data] never raises: it always returns a number.
    Whenever the body of its [try] raises, it returns 0; a failing
    connection, a refused DELETE and a refused COMMIT each make the body
    raise.  A run that fails and a run that succeeds without finding old
    rows both return 0. *)
Theorem delete_old_data_never_raises (E : env) (days : Z) (w : world) :
  (exists n w', delete_old_data E days w = (Ok n, w'))
  /\ (forall e, fst (delete_old_data_try E days w) = Raise e ->
                fst (delete_old_data E days w) = Ok 0)
  /\ (connect_fails (sql E) = true ->
      fst (delete_old_data_try E days w) = Raise PyodbcError)
  /\ (connect_fails (sql E) = false -> delete_denied (sql E) = true ->
      fst (delete_old_data_try E days w) = Raise PyodbcError)
  /\ (connect_fails (sql E) = false ->
      (forall d, commit_refused (sql E) d = true) ->
      fst (delete_old_data_try E days w) = Raise PyodbcError
      /\ stored (snd (delete_old_data_try E days w)) = stored w)
  /\ (fst (delete_old_data_try Sample.offline_env 30
             (Sample.idle Sample.recent_row_db)) = Raise PyodbcError
      /\ fst (delete_old_data_try Sample.demo_env 30
                (Sample.idle Sample.recent_row_db)) = Ok 0
      /\ fst (delete_old_data Sample.offline_env 30
                (Sample.idle Sample.recent_row_db))
         = fst (delete_old_data Sample.demo_env 30
                  (Sample.idle Sample.recent_row_db))).
Proof.
  pose proof (db_safe_delete_old_data_try E days w) as Hsafe.
  split; [|split; [|split; [|split; [|split]]]].
  - unfold delete_old_data, try_except.
    destruct (delete_old_data_try E days w) as [[n|e|] w1]; [eauto| |contradiction].
    destruct Hsafe as [_ He]. rewrite He. cbn. eauto.
  - intros e He. unfold delete_old_data, try_except.
    destruct (delete_old_data_try E days w) as [[n|e'|] w1]; simpl in He;
      [discriminate| |discriminate].
    destruct Hsafe as [_ He']. rewrite He'. reflexivity.
  - intros Hc. unfold delete_old_data_try, get_sql_connection, pyodbc_connect.
    rewrite Hc. reflexivity.
  - intros Hc Hd. unfold delete_old_data_try, get_sql_connection, pyodbc_connect.
    rewrite Hc. unfold try_finally, try_except, bind, lift, logger,
      execute_delete_query, pending. cbn. rewrite Hd. reflexivity.
  - intros Hc Hm. unfold delete_old_data_try, get_sql_connection, pyodbc_connect.
    rewrite Hc. unfold try_finally, try_except, bind, lift, logger,
      execute_delete_query, connection_commit, pending. cbn.
    destruct (delete_denied (sql E)); [cbn; auto|].
    destruct (Sql.delete_before _ _ _) as [[d' n]|]; [|cbn; auto].
    cbn. rewrite Hm. cbn. auto.
  - vm_compute. repeat split; reflexivity.
Qed.

(** One row aged over thirty days and one aged five days: exactly the
    first is deleted, the count returned is 1. *)
Example prune_thirty_days :
  let db := [ ("CryptoCurrency"%string,
               UserTable {| indexes := Sql.crypto_indexes;
                            rows := [Sample.old_row; Sample.recent_row] |}) ] in
  let run := delete_old_data Sample.demo_env 30 (Sample.idle db) in
  fst run = Ok 1
  /\ Sql.table_rows "CryptoCurrency" (stored (snd run)) = [Sample.recent_row].
Proof. vm_compute. split; reflexivity. Qed.

(** ** The scroll loop *)

Section ScrollFacts.

Variable E : env.

Lemma with_scrolled_same w : with_scrolled (scrolled w) w = w.
Proof. destruct w; reflexivity. Qed.

(** The inner loop issues its scroll commands in order and always
    finishes; it reads no height. *)
Lemma smooth_scroll_run positions : forall w,
  smooth_scroll positions w = (Ok tt, with_scrolled (scrolled w ++ positions) w).
Proof.
  induction positions as [|i rest IH]; intros w; simpl.
  - unfold ret. rewrite app_nil_r, with_scrolled_same. reflexivity.
  - unfold bind, scroll_to. rewrite IH. simpl. rewrite <- app_assoc. reflexivity.
Qed.

(** From [scroll_attempts = a] the loop needs at most [N - a] passes. *)
Lemma scroll_loop_run (N : Z) : forall fuel a h w,
  (Z.to_nat (N - a) <= fuel)%nat ->
  match scroll_loop E fuel N a h w with
  | (Ok (a', broke), w') =>
      a <= a' <= Z.max a N
      /\ (if broke then a' < N else a' = Z.max a N)
      /\ Z.of_nat (height_reads w')
         = Z.of_nat (height_reads w) + (a' - a) + (if broke then 1 else 0)
      /\ db_same w w'
  | (Raise e, w') =>
      (e = ValueError /\ SCROLL_STEP E = 0) /\ db_same w w'
      /\ height_reads w' = height_reads w
  | (OutOfFuel, _) => False
  end.
Proof.
  induction fuel as [|fuel IH]; intros a h w Hfuel.
  - simpl. destruct (Z.ltb_spec a N) as [Ha|Ha]; [lia|]. unfold ret.
    unfold db_same. repeat split; lia.
  - simpl. destruct (Z.ltb_spec a N) as [Ha|Ha].
    2:{ unfold ret, db_same. repeat split; lia. }
    unfold bind at 1. unfold lift, py_range.
    destruct (Z.eqb_spec (SCROLL_STEP E) 0) as [Hstep|Hstep].
    { unfold db_same. repeat split; auto. }
    unfold bind at 1. rewrite smooth_scroll_run.
    unfold bind at 1. unfold read_scroll_height. cbn [height_reads with_scrolled].
    destruct (scroll_height (chrome E) (height_reads w) =? h) eqn:Hstable.
    { unfold bind, logger, ret. cbn. unfold db_same. cbn.
      repeat split; lia. }
    unfold bind at 1. unfold logger at 1.
    match goal with
    | |- context [scroll_loop E fuel N (a + 1) ?h1 ?w1] =>
        specialize (IH (a + 1) h1 w1 ltac:(lia));
          destruct (scroll_loop E fuel N (a + 1) h1 w1) as [[[a' broke]|e|] w']
    end; [| |exact IH].
    + cbn in IH. unfold db_same in *. cbn in IH.
      destruct IH as (Hb & Hexit & Hreads & Hdb).
      repeat split; try lia; try tauto.
      destruct broke; lia.
    + exfalso. tauto.
Qed.

End ScrollFacts.

(** C3.  The scroll loop terminates within [max_scrolls] passes, whatever
    heights the browser reports.  With a budget of at least [max_scrolls]
    passes the function never runs out of budget: it returns (or raises
    [ValueError] at once when the scroll step is 0).  It reads the height
    once before the loop and once per pass, at most [max_scrolls] passes.
    In the loop every pass but a final stabilising one increments the
    counter, and the loop leaves through [break] on an unchanged height or
    with the counter at [max_scrolls]. *)
Theorem scroll_to_load_content_terminates (E : env) (max_scrolls : Z)
    (fuel : nat) (w : world) :
  (Z.to_nat max_scrolls <= fuel)%nat ->
  (fst (scroll_to_load_content E fuel max_scrolls w) = Ok tt
   \/ (fst (scroll_to_load_content E fuel max_scrolls w) = Raise ValueError
       /\ SCROLL_STEP E = 0))
  /\ (height_reads (snd (scroll_to_load_content E fuel max_scrolls w))
      <= height_reads w + 1 + Z.to_nat max_scrolls)%nat
  /\ (forall last_height w1,
        match scroll_loop E fuel max_scrolls 0 last_height w1 with
        | (Ok (scroll_attempts, broke), w') =>
            0 <= scroll_attempts <= Z.max 0 max_scrolls
            /\ (broke = true \/ scroll_attempts = Z.max 0 max_scrolls)
            /\ Z.of_nat (height_reads w') - Z.of_nat (height_reads w1)
               = scroll_attempts + (if broke then 1 else 0)
            /\ Z.of_nat (height_reads w') - Z.of_nat (height_reads w1)
               <= Z.max 0 max_scrolls
        | (Raise e, _) => e = ValueError /\ SCROLL_STEP E = 0
        | (OutOfFuel, _) => False
        end).
Proof.
  intros Hfuel.
  assert (Hloop : forall h w1,
             match scroll_loop E fuel max_scrolls 0 h w1 with
             | (Ok (a', broke), w') =>
                 0 <= a' <= Z.max 0 max_scrolls
                 /\ (broke = true \/ a' = Z.max 0 max_scrolls)
                 /\ Z.of_nat (height_reads w') - Z.of_nat (height_reads w1)
                    = a' + (if broke then 1 else 0)
                 /\ Z.of_nat (height_reads w') - Z.of_nat (height_reads w1)
                    <= Z.max 0 max_scrolls
             | (Raise e, _) => e = ValueError /\ SCROLL_STEP E = 0
             | (OutOfFuel, _) => False
             end).
  { intros h w1.
    pose proof (scroll_loop_run E max_scrolls fuel 0 h w1 ltac:(lia)) as H.
    destruct (scroll_loop E fuel max_scrolls 0 h w1) as [[[a' broke]|e|] w'];
      [|tauto|exact H].
    destruct H as (Hb & Hexit & Hreads & _).
    destruct broke; repeat split; try lia; auto. }
  split; [|split]; [| |exact Hloop].
  - unfold scroll_to_load_content, bind, read_scroll_height, logger. cbn.
    match goal with
    | |- context [scroll_loop E fuel max_scrolls 0 ?h ?w1] =>
        specialize (Hloop h w1);
          destruct (scroll_loop E fuel max_scrolls 0 h w1) as [[[a' broke]|e|] w']
    end; cbn; [left; reflexivity| |contradiction].
    right. destruct Hloop as [-> Hstep]. auto.
  - unfold scroll_to_load_content, bind, read_scroll_height, logger. cbn.
    match goal with
    | |- context [scroll_loop E fuel max_scrolls 0 ?h ?w1] =>
        pose proof (scroll_loop_run E max_scrolls fuel 0 h w1 ltac:(lia)) as H;
          destruct (scroll_loop E fuel max_scrolls 0 h w1) as [[[a' broke]|e|] w']
    end; cbn in *; [| |contradiction].
    + destruct H as (Hb & Hexit & Hreads & _). destruct broke; lia.
    + destruct H as (_ & _ & Hreads). rewrite Hreads. cbn. lia.
Qed.

Lemma scroll_to_load_content_terminates_witness :
  fst (scroll_to_load_content Sample.demo_env 3 3 (Sample.idle [])) = Ok tt
  /\ (height_reads (snd (scroll_to_load_content Sample.demo_env 3 3 (Sample.idle [])))
      <= 4)%nat.
Proof.
  destruct (scroll_to_load_content_terminates Sample.demo_env 3 3 (Sample.idle []))
    as ([Hok|[Hraise Hstep]] & Hreads & _).
  - vm_compute. lia.
  - split; [exact Hok|exact Hreads].
  - vm_compute in Hstep. discriminate.
Defined.


(** ** The extractor *)

Section ParseFacts.

Lemma cell_text_raises_only cols i : raises_only (fun _ => True) (cell_text cols i).
Proof. unfold cell_text. repeat break_match_goal; exact I. Qed.

Lemma crypto_info_of_finishes cols : crypto_info_of cols <> OutOfFuel.
Proof.
  assert (H : raises_only (fun _ => True) (crypto_info_of cols)).
  { unfold crypto_info_of.
    repeat (apply raises_only_bind; [apply cell_text_raises_only|intros ?]).
    exact I. }
  intros Heq. rewrite Heq in H. exact H.
Qed.

Lemma cell_text_ok cols i s :
  cell_text cols i = Ok s -> exists t, cols !! i = Some (Td t) /\ s = strip t.
Proof.
  unfold cell_text. destruct (cols !! i) as [[t|e]|]; try discriminate.
  intros [= <-]. eauto.
Qed.

(** The name and price of a record are the trimmed texts of the third
    and fourth cell of its row. *)
Lemma crypto_info_of_ok cols d :
  crypto_info_of cols = Ok d ->
  exists n p, cols !! 2%nat = Some (Td n) /\ cols !! 3%nat = Some (Td p)
              /\ d !! "name"%string = Some (strip n)
              /\ d !! "price"%string = Some (strip p).
Proof.
  unfold crypto_info_of. intros H.
  apply result_bind_ok in H as (c1 & _ & H).
  apply result_bind_ok in H as (c2 & H2 & H).
  apply result_bind_ok in H as (c3 & H3 & H).
  do 6 (apply result_bind_ok in H as (? & _ & H)).
  injection H as <-.
  apply cell_text_ok in H2 as (n & Hn & ->).
  apply cell_text_ok in H3 as (p & Hp & ->).
  exists n, p. split; [exact Hn|]. split; [exact Hp|].
  split; by simplify_map_eq.
Qed.

Lemma row_record_some cols d :
  row_record cols = Some d ->
  (10 <= length cols)%nat /\ crypto_info_of cols = Ok d.
Proof.
  unfold row_record. destruct (Nat.leb_spec 10 (length cols)); [|discriminate].
  destruct (crypto_info_of cols); try discriminate.
  intros [= <-]. auto.
Qed.

(** The loop over the data rows keeps, in order, the record of every row
    that has ten cells and whose fields can be read; it stops only on an
    exception that the [except] clause does not name. *)
Lemma parse_rows_run rows : forall acc w,
  match parse_rows rows acc w with
  | (Ok rs, w') =>
      rs = acc ++ omap row_record rows
      /\ db_same w w'
      /\ logged_numbers (log w') = logged_numbers (log w)
  | (Raise e, w') =>
      (exists cols, In cols rows /\ (10 <= length cols)%nat
                    /\ crypto_info_of cols = Raise e
                    /\ is_row_error e = false)
      /\ db_same w w'
  | (OutOfFuel, _) => False
  end.
Proof.
  induction rows as [|cols rest IH]; intros acc w.
  - simpl. unfold ret, db_same. rewrite app_nil_r. auto.
  - cbn -[Nat.leb row_record]. unfold row_record at 1.
    destruct (Nat.leb_spec 10 (length cols)) as [Hlen|Hlen].
    2:{ specialize (IH acc w). destruct (parse_rows rest acc w) as [[rs|e|] w'];
        [exact IH| |exact IH].
        destruct IH as [(c & Hin & Hc) Hdb]. split; [|exact Hdb].
        exists c. split; [right; exact Hin|exact Hc]. }
    unfold bind at 1. unfold try_except, bind, lift.
    pose proof (crypto_info_of_finishes cols) as Hfin.
    destruct (crypto_info_of cols) as [d|e|] eqn:Hinfo; [| |contradiction].
    + cbn. specialize (IH (acc ++ [d]) w).
      destruct (parse_rows rest (acc ++ [d]) w) as [[rs|e|] w']; [| |exact IH].
      * destruct IH as (-> & Hdb). rewrite <- app_assoc. auto.
      * destruct IH as [(c & Hin & Hc) Hdb]. split; [|exact Hdb].
        exists c. split; [right; exact Hin|exact Hc].
    + destruct (is_row_error e) eqn:Hrow.
      * cbn. match goal with
             | |- context [parse_rows rest acc ?w1] =>
                 specialize (IH acc w1);
                   destruct (parse_rows rest acc w1) as [[rs|e'|] w']
             end; [| |exact IH].
        -- destruct IH as (-> & Hdb & Hlog). split; [reflexivity|].
           split; [exact Hdb|]. rewrite Hlog. cbn.
           unfold logged_numbers. rewrite flat_map_app. cbn.
           rewrite app_nil_r. reflexivity.
        -- destruct IH as [(c & Hin & Hc) Hdb]. split; [|exact Hdb].
           exists c. split; [right; exact Hin|exact Hc].
      * cbn. split; [|unfold db_same; auto].
        exists cols. split; [left; reflexivity|]. auto.
Qed.

End ParseFacts.

(** What [parse_crypto_data] returns and logs when the table is there. *)
Lemma parse_crypto_data_run (s : soup) (table : html_table) (w : world) :
  find_cmc_table s = Some table ->
  match parse_crypto_data s w with
  | (Ok rs, w') =>
      rs = omap row_record (drop 1 (trs table))
      /\ db_same w w'
      /\ logged_numbers (log w')
         = logged_numbers (log w) ++ [Z.of_nat (length (trs table)) - 1]
  | (Raise e, w') =>
      (exists cols, In cols (drop 1 (trs table)) /\ (10 <= length cols)%nat
                    /\ crypto_info_of cols = Raise e
                    /\ is_row_error e = false)
      /\ db_same w w'
  | (OutOfFuel, _) => False
  end.
Proof.
  intros Hfind. unfold parse_crypto_data. rewrite Hfind.
  unfold bind, logger.
  match goal with
  | |- context [parse_rows ?rows [] ?w1] =>
      pose proof (parse_rows_run rows [] w1) as H;
        destruct (parse_rows rows [] w1) as [[rs|e|] w']
  end; [| |exact H].
  - destruct H as (-> & Hdb & Hlog). split; [reflexivity|]. split; [exact Hdb|].
    rewrite Hlog. cbn. unfold logged_numbers. rewrite flat_map_app. reflexivity.
  - exact H.
Qed.

(** C2, as the code has it.  Every record the extractor returns comes from
    a data row of the table that has at least ten cells, and its name and
    price are the trimmed texts of the third and fourth cell of that row,
    whatever they are: an empty name or price does not discard the row. *)
Theorem parse_records_come_from_full_rows (s : soup) (w w' : world)
    (rs : list crypto_dict) :
  parse_crypto_data s w = (Ok rs, w') ->
  Forall (fun d =>
            exists table cols n p,
              find_cmc_table s = Some table
              /\ In cols (drop 1 (trs table))
              /\ (10 <= length cols)%nat
              /\ cols !! 2%nat = Some (Td n)
              /\ cols !! 3%nat = Some (Td p)
              /\ d !! "name"%string = Some (strip n)
              /\ d !! "price"%string = Some (strip p)) rs.
Proof.
  intros Hrun. destruct (find_cmc_table s) as [table|] eqn:Hfind.
  - pose proof (parse_crypto_data_run s table w Hfind) as H. rewrite Hrun in H.
    destruct H as (-> & _). apply Forall_forall. intros d Hd.
    apply list_elem_of_omap in Hd as (cols & Hin & Hrec).
    apply row_record_some in Hrec as [Hlen Hinfo].
    apply crypto_info_of_ok in Hinfo as (n & p & Hn & Hp & Hname & Hprice).
    exists table, cols, n, p. apply list_elem_of_In in Hin. auto 10.
  - unfold parse_crypto_data in Hrun. rewrite Hfind in Hrun.
    injection Hrun as <- _. constructor.
Qed.

Lemma parse_records_come_from_full_rows_witness :
  Forall (fun d => exists n p, d !! "name"%string = Some n
                               /\ d !! "price"%string = Some p)
    (match fst (parse_crypto_data Sample.page_short_rows (Sample.idle [])) with
     | Ok rs => rs
     | _ => []
     end).
Proof.
  pose proof (parse_records_come_from_full_rows Sample.page_short_rows
                (Sample.idle [])
                (snd (parse_crypto_data Sample.page_short_rows (Sample.idle [])))
                [Sample.record_of "1" "Bitcoin" "$1"]) as H.
  eapply Forall_impl; [apply list.Forall_forall; intros d Hd|].
  - refine (proj1 (list.Forall_forall _ _) (H _) d Hd).
    apply pair_of_fst. vm_compute. reflexivity.
  - cbn beta. intros d (table & cols & n & p & _ & _ & _ & _ & _ & Hn & Hp). eauto.
Defined.

(** C2, as stated, fails: a row of eleven cells without text yields a
    record whose name and price are empty. *)
Lemma blank_row_is_kept :
  exists d,
    fst (parse_crypto_data Sample.page_blank_row (Sample.idle [])) = Ok [d]
    /\ d !! "name"%string = Some []
    /\ d !! "price"%string = Some []
    /\ ~ has_name_and_price d.
Proof.
  exists (Sample.record_of "" "" "").
  split; [vm_compute; reflexivity|].
  split; [vm_compute; reflexivity|].
  split; [vm_compute; reflexivity|].
  intros (n & p & Hn & Hne & _).
  vm_compute in Hn. injection Hn as <-. apply Hne. reflexivity.
Qed.

Lemma skipped_plus_kept (rows : list (list td)) :
  (length (omap row_record rows) + skipped_rows rows = length rows)%nat.
Proof.
  unfold skipped_rows. induction rows as [|cols rest IH]; [reflexivity|].
  cbn -[row_record]. destruct (row_record cols) as [d|]; cbn -[row_record]; lia.
Qed.

(** C4, as the code has it.  When the table is there and field access
    raises nothing but [IndexError] or [AttributeError], the extractor
    returns, in row order, the records of the data rows that have at least
    ten cells and whose fields can be read.  Rows with fewer than ten cells
    and rows on which a field access raises yield no record and do not stop
    the extraction.  No count of the skipped rows is kept: the only number
    the extractor logs is the number of rows below the header. *)
Theorem parse_skips_short_and_broken_rows (s : soup) (table : html_table)
    (w : world) :
  find_cmc_table s = Some table ->
  (forall cols e, In cols (drop 1 (trs table)) ->
                  crypto_info_of cols = Raise e -> is_row_error e = true) ->
  let rows := drop 1 (trs table) in
  let w' := snd (parse_crypto_data s w) in
  fst (parse_crypto_data s w) = Ok (omap row_record rows)
  /\ (forall cols, (length cols < 10)%nat -> row_record cols = None)
  /\ (forall cols e, crypto_info_of cols = Raise e -> row_record cols = None)
  /\ (length (omap row_record rows) + skipped_rows rows = length rows)%nat
  /\ logged_numbers (log w')
     = logged_numbers (log w) ++ [Z.of_nat (length (trs table)) - 1].
Proof.
  intros Hfind Hwell rows w'. subst rows w'.
  pose proof (parse_crypto_data_run s table w Hfind) as H.
  destruct (parse_crypto_data s w) as [[rs|e|] w1]; [| |contradiction].
  - destruct H as (-> & _ & Hlog). cbn [fst snd].
    split; [reflexivity|]. split; [|split; [|split]].
    + intros cols Hlen. unfold row_record.
      destruct (Nat.leb_spec 10 (length cols)); [lia|reflexivity].
    + intros cols e He. unfold row_record. rewrite He.
      destruct (10 <=? length cols)%nat; reflexivity.
    + apply skipped_plus_kept.
    + exact Hlog.
  - exfalso. destruct H as [(cols & Hin & _ & He & Hrow) _].
    rewrite (Hwell cols e Hin He) in Hrow. discriminate.
Qed.

Lemma parse_skips_short_and_broken_rows_witness :
  fst (parse_crypto_data Sample.page_broken_cell (Sample.idle []))
  = Ok [Sample.record_of "2" "Ether" "$2"]
  /\ logged_numbers
       (log (snd (parse_crypto_data Sample.page_broken_cell (Sample.idle []))))
     = [2].
Proof.
  destruct (parse_skips_short_and_broken_rows Sample.page_broken_cell
              Sample.table_broken_cell (Sample.idle []) eq_refl)
    as (Hres & _ & _ & _ & Hlog).
  - intros cols e [<-|[<-|[]]] He; vm_compute in He.
    + injection He as <-. reflexivity.
    + discriminate.
  - split; [|exact Hlog]. rewrite Hres. vm_compute. reflexivity.
Defined.

(** C4, as stated, fails: of three data rows two are skipped, and the
    number 2 is nowhere in what the extractor yields: it returns the list
    of records alone and the one number it logs is 3, the number of rows
    below the header. *)
Lemma skipped_rows_are_not_counted :
  let run := parse_crypto_data Sample.page_short_rows (Sample.idle []) in
  skipped_rows (drop 1 (trs Sample.table_short_rows)) = 2%nat
  /\ fst run = Ok [Sample.record_of "1" "Bitcoin" "$1"]
  /\ logged_numbers (log (snd run)) = [3]
  /\ ~ In 2 (logged_numbers (log (snd run))).
Proof.
  vm_compute. repeat split; try reflexivity.
  intros [H|[]]. discriminate.
Qed.

(** ** The scraper leaves the database alone *)

Create HintDb leaves_db.

Section LeavesDb.

Variable E : env.

Lemma db_same_refl w : db_same w w.
Proof. unfold db_same. auto. Qed.

Lemma db_same_trans w1 w2 w3 : db_same w1 w2 -> db_same w2 w3 -> db_same w1 w3.
Proof. unfold db_same. intros (-> & -> & ->) (-> & -> & ->). auto. Qed.

Lemma db_same_log w l : db_same w (with_log l w).
Proof. unfold db_same. auto. Qed.

#[local] Hint Resolve db_same_refl db_same_trans db_same_log : core.

Lemma leaves_db_ret {A} (a : A) : leaves_db (ret a).
Proof. unfold leaves_db. apply respects_ret; auto. Qed.

Lemma leaves_db_raise {A} e : leaves_db (@raise A e).
Proof. unfold leaves_db. apply respects_raise; auto. Qed.

Lemma leaves_db_logger l m a : leaves_db (logger l m a).
Proof. unfold leaves_db. apply respects_logger; auto. Qed.

Lemma leaves_db_bind {A B} (m : M A) (k : A -> M B) :
  leaves_db m -> (forall a, leaves_db (k a)) -> leaves_db (bind m k).
Proof. unfold leaves_db. apply respects_bind; eauto. Qed.

Lemma leaves_db_try_except {A} (m : M A) (h : exn -> option (M A)) :
  leaves_db m -> (forall e hh, h e = Some hh -> leaves_db hh) ->
  leaves_db (try_except m h).
Proof. unfold leaves_db. apply respects_try_except; eauto. Qed.

Lemma leaves_db_try_finally {A} (m : M A) (f : M unit) :
  leaves_db m -> leaves_db f -> leaves_db (try_finally m f).
Proof. unfold leaves_db. apply respects_try_finally; eauto. Qed.

Lemma leaves_db_oracle o : leaves_db (oracle o).
Proof. destruct o; [apply leaves_db_raise|apply leaves_db_ret]. Qed.

Lemma leaves_db_webdriver_Chrome : leaves_db (webdriver_Chrome E).
Proof.
  unfold webdriver_Chrome. apply leaves_db_bind; [apply leaves_db_oracle|].
  intros _ w. unfold db_same. cbn. auto.
Qed.

Lemma leaves_db_driver_quit : leaves_db driver_quit.
Proof. intros w. unfold db_same. cbn. auto. Qed.

Lemma leaves_db_read_scroll_height : leaves_db (read_scroll_height E).
Proof. intros w. unfold db_same. cbn. auto. Qed.

Lemma leaves_db_scroll_loop N fuel h :
  (Z.to_nat N <= fuel)%nat -> leaves_db (scroll_loop E fuel N 0 h).
Proof.
  intros Hfuel w.
  pose proof (scroll_loop_run E N fuel 0 h w ltac:(lia)) as H.
  destruct (scroll_loop E fuel N 0 h w) as [[[a broke]|e|] w']; [| |exact H].
  - apply H.
  - split; [apply H|exact I].
Qed.

Lemma leaves_db_scroll_to_load_content N fuel :
  (Z.to_nat N <= fuel)%nat -> leaves_db (scroll_to_load_content E fuel N).
Proof.
  intros Hfuel. unfold scroll_to_load_content.
  apply leaves_db_bind; [apply leaves_db_read_scroll_height|intros h].
  apply leaves_db_bind; [apply leaves_db_logger|intros _].
  apply leaves_db_bind; [apply leaves_db_scroll_loop, Hfuel|intros _].
  apply leaves_db_logger.
Qed.

Lemma leaves_db_parse_crypto_data s : leaves_db (parse_crypto_data s).
Proof.
  destruct (find_cmc_table s) as [table|] eqn:Hfind.
  - intros w. pose proof (parse_crypto_data_run s table w Hfind) as H.
    destruct (parse_crypto_data s w) as [[rs|e|] w']; [| |exact H].
    + apply H.
    + split; [apply H|exact I].
  - unfold parse_crypto_data. rewrite Hfind.
    apply leaves_db_bind; [apply leaves_db_logger|intros _; apply leaves_db_ret].
Qed.

#[local] Hint Resolve leaves_db_ret leaves_db_raise leaves_db_logger
  leaves_db_oracle leaves_db_driver_quit leaves_db_read_scroll_height
  leaves_db_parse_crypto_data : leaves_db.

Ltac leaves_db_step :=
  first
    [ solve [auto with leaves_db]
    | apply leaves_db_bind; [|intros ?]
    | apply leaves_db_try_finally
    | apply leaves_db_try_except; [|intros ? ? ?] ].

Lemma leaves_db_get_chrome_driver {A} (body : M A) :
  leaves_db body -> leaves_db (get_chrome_driver E body).
Proof.
  intros Hbody w. unfold get_chrome_driver.
  pose proof (leaves_db_webdriver_Chrome w) as Hc.
  assert (Hrest : forall driver : result unit,
             driver <> OutOfFuel ->
             leaves_db
               (try_finally
                  (try_except
                     (lift driver ;;
                      logger INFO "Chrome WebDriver initialized successfully" [] ;;
                      body)
                     (fun e =>
                        if is_Exception e
                        then Some (logger ERROR "Error initializing WebDriver" [] ;;
                                   raise e)
                        else None))
                  (match driver with
                   | Ok _ => driver_quit ;;
                             logger INFO "Browser closed successfully" []
                   | _ => ret tt
                   end))).
  { intros driver Hd. repeat leaves_db_step.
    - unfold leaves_db. apply respects_lift; auto.
      destruct driver; simpl; auto.
    - destruct (is_Exception e); [|discriminate].
      match goal with Hh : Some _ = Some _ |- _ => injection Hh as <- end.
      repeat leaves_db_step.
    - destruct driver; repeat leaves_db_step. }
  destruct (webdriver_Chrome E w) as [[[]|e|] w1]; [| |contradiction].
  - specialize (Hrest (Ok tt) ltac:(discriminate) w1).
    destruct (try_finally _ _ w1) as [[a|e|] w2]; [| |exact Hrest].
    + eapply db_same_trans; eassumption.
    + split; [eapply db_same_trans; [exact Hc|apply Hrest]|exact I].
  - specialize (Hrest (Raise e) ltac:(discriminate) w1).
    destruct (try_finally _ _ w1) as [[a|e'|] w2]; [| |exact Hrest].
    + eapply db_same_trans; [apply Hc|exact Hrest].
    + split; [eapply db_same_trans; [apply Hc|apply Hrest]|exact I].
Qed.

Lemma leaves_db_scrape_coinmarketcap : leaves_db (scrape_coinmarketcap E).
Proof.
  unfold scrape_coinmarketcap.
  apply leaves_db_try_except.
  - apply leaves_db_bind.
    + apply leaves_db_get_chrome_driver.
      apply leaves_db_bind; [apply leaves_db_logger|intros _].
      apply leaves_db_bind; [apply leaves_db_oracle|intros _].
      apply leaves_db_bind.
      * apply leaves_db_try_except; [repeat leaves_db_step|].
        intros e hh Hh. destruct e; try discriminate.
        injection Hh as <-. repeat leaves_db_step.
      * intros [|]; [apply leaves_db_ret|].
        apply leaves_db_bind; [|intros _; apply leaves_db_ret].
        apply leaves_db_scroll_to_load_content. lia.
    + intros [s|]; repeat leaves_db_step.
  - intros e hh Hh. destruct (is_Exception e); [|discriminate].
    injection Hh as <-. repeat leaves_db_step.
Qed.

End LeavesDb.

(** ** The pipeline *)

Section PipelineFacts.

Variable E : env.

(** [save_to_sql_server] always returns a boolean; [False] means that
    the table holds the rows it held, [True] that one row per record was
    appended. *)
Lemma save_to_sql_server_run (data : list crypto_dict) (w : world) :
  exists b w',
    save_to_sql_server E data w = (Ok b, w')
    /\ (data = [] -> b = false /\ stored w' = stored w)
    /\ (b = false ->
        Sql.table_rows (TABLE_NAME E) (stored w')
        = Sql.table_rows (TABLE_NAME E) (stored w))
    /\ (b = true ->
        exists rs,
          Sql.table_rows (TABLE_NAME E) (stored w')
          = Sql.table_rows (TABLE_NAME E) (stored w) ++ rs
          /\ length rs = length data).
Proof.
  destruct data as [|c rest].
  { eexists _, _. split; [reflexivity|]. cbn. repeat split; auto; discriminate. }
  unfold save_to_sql_server. set (data := c :: rest).
  unfold try_except at 1. unfold get_sql_connection, pyodbc_connect.
  destruct (connect_fails (sql E)).
  { cbn. eexists _, _. split; [reflexivity|]. cbn.
    repeat split; auto; discriminate. }
  rewrite guarded_bind. unfold lift at 1.
  rewrite guarded_bind. unfold logger at 1.
  rewrite guarded_bind.
  match goal with
  | |- context [insert_crypto_data E data ?w2] =>
      pose proof (insert_crypto_data_run E data w2 eq_refl) as Hout;
        destruct (insert_crypto_data E data w2) as [[n|e|] w3]
  end; cbn [fst snd] in Hout.
  - inversion Hout as [|rs w4 Hmk Hrows Hacc Hcommit Hsess Hck Hn Hw]. subst w4.
    cbn in Hrows. cbn. eexists _, _. split; [reflexivity|]. cbn.
    split; [discriminate|]. split; [discriminate|].
    intros _. exists rs. split; [exact Hrows|].
    exact (make_rows_length _ _ _ Hmk).
  - inversion Hout as [e' w4 Hrows Hsess Hck Hwhy He Hw|]. subst e' w4.
    cbn in Hrows.
    assert (Hexc : is_Exception e = true).
    { destruct Hwhy as [->|Hmk]; [reflexivity|].
      apply make_rows_raises in Hmk as [-> | ->]; reflexivity. }
    unfold try_finally. rewrite try_except_raise.
    destruct (is_pyodbc_Error e); cbn; rewrite Hexc; cbn;
      (eexists _, _; split; [reflexivity|]; cbn;
       split; [discriminate|]; split; [auto|discriminate]).
  - inversion Hout.
Qed.

Lemma main_handler_total (e : exn) :
  exists l m,
    match e with
    | KeyboardInterrupt => Some (logger INFO "Operation cancelled by user" [])
    | _ => if is_Exception e
           then Some (logger ERROR "Application error" [])
           else None
    end = Some (logger l m []).
Proof. destruct e; cbn; eauto. Qed.

End PipelineFacts.

(** C5.  Once logging is set up, [main] returns: nothing that the scraper
    or the persistence layer raises leaves it.  [save_to_sql_server]
    always returns a boolean, which is [False], with nothing written, for
    an empty batch, and which is [False] only if the table holds the rows
    it held before.  When the scraper yields an empty list, [main] logs
    the failure as its last record, never opens a connection, and the
    stored data is what it was. *)
Theorem main_never_raises (E : env) (w : world) :
  logging_setup E = None ->
  (exists w', main E w = (Ok tt, w'))
  /\ (forall data w0,
        exists b w',
          save_to_sql_server E data w0 = (Ok b, w')
          /\ (data = [] -> b = false /\ stored w' = stored w0)
          /\ (b = false ->
              Sql.table_rows (TABLE_NAME E) (stored w')
              = Sql.table_rows (TABLE_NAME E) (stored w0)))
  /\ (forall ws,
        scrape_coinmarketcap E
          (snd (logger INFO "Starting cryptocurrency scraping..." [] w))
        = (Ok [], ws) ->
        main E w
        = (Ok tt, with_log (log ws ++ [Log ERROR "Failed to scrape data" []]) ws)
        /\ stored ws = stored w /\ session ws = session w).
Proof.
  intros Hlog.
  assert (Hmain : main E w
                  = try_except
                      (logger INFO "Starting cryptocurrency scraping..." [] ;;
                       crypto_data <- scrape_coinmarketcap E ;;
                       match crypto_data with
                       | [] => logger ERROR "Failed to scrape data" []
                       | _ =>
                           logger INFO
                             "Successfully scraped {len(crypto_data)} cryptocurrencies"
                             [Z.of_nat (length crypto_data)] ;;
                           logger INFO "Saving data to SQL Server..." [] ;;
                           saved <- save_to_sql_server E crypto_data ;;
                           if saved : bool then
                             logger INFO
                               "Successfully saved {len(crypto_data)} records to database"
                               [Z.of_nat (length crypto_data)]
                           else
                             logger ERROR "Failed to save data to database" []
                       end)
                      (fun e =>
                         match e with
                         | KeyboardInterrupt =>
                             Some (logger INFO "Operation cancelled by user" [])
                         | _ =>
                             if is_Exception e
                             then Some (logger ERROR "Application error" [])
                             else None
                         end) w).
  { unfold main, setup_logging. rewrite Hlog. reflexivity. }
  rewrite Hmain. clear Hmain.
  set (w1 := snd (logger INFO "Starting cryptocurrency scraping..." [] w)).
  rewrite try_except_bind.
  change (logger INFO "Starting cryptocurrency scraping..." [] w) with (Ok tt, w1).
  cbv iota. rewrite try_except_bind.
  match goal with
  | |- context [scrape_coinmarketcap E ?w1] =>
      pose proof (leaves_db_scrape_coinmarketcap E w1) as Hscrape;
        destruct (scrape_coinmarketcap E w1) as [[data|e|] w2]
  end; [| |contradiction].
  - split; [|split].
    + destruct data as [|c rest]; [cbn; eauto|].
      rewrite try_except_bind. unfold logger at 1.
      rewrite try_except_bind. unfold logger at 1.
      rewrite try_except_bind.
      match goal with
      | |- context [save_to_sql_server E ?d ?w3] =>
          destruct (save_to_sql_server_run E d w3) as (b & w4 & Hrun & _);
            rewrite Hrun
      end.
      destruct b; cbn; eauto.
    + intros d w0. destruct (save_to_sql_server_run E d w0) as (b & w' & H1 & H2 & H3 & _).
      eauto.
    + intros ws Heq. injection Heq as Hd Hw. subst data ws. cbn.
      destruct Hscrape as (Hst & Hse & _). cbn in Hst, Hse. auto.
  - split; [|split].
    + rewrite try_except_raise.
      destruct (main_handler_total e) as (l & m & ->). cbn. eauto.
    + intros d w0. destruct (save_to_sql_server_run E d w0) as (b & w' & H1 & H2 & H3 & _).
      eauto.
    + intros ws Hfalse. discriminate.
Qed.

Lemma main_never_raises_witness :
  fst (main Sample.stalled_env (Sample.idle Sample.one_row_db)) = Ok tt
  /\ stored (snd (main Sample.stalled_env (Sample.idle Sample.one_row_db)))
     = Sample.one_row_db
  /\ last (log (snd (main Sample.stalled_env (Sample.idle Sample.one_row_db))))
     = Some (Log ERROR "Failed to scrape data" []).
Proof.
  destruct (main_never_raises Sample.stalled_env (Sample.idle Sample.one_row_db)
              eq_refl) as (_ & _ & Hempty).
  destruct (Hempty
              (snd (scrape_coinmarketcap Sample.stalled_env
                      (snd (logger INFO "Starting cryptocurrency scraping..." []
                              (Sample.idle Sample.one_row_db)))))) as (Hrun & Hst & _).
  - apply pair_of_fst. vm_compute. reflexivity.
  - rewrite Hrun. cbn [fst snd]. split; [reflexivity|]. split.
    + exact Hst.
    + cbn [log with_log]. apply last_snoc.
Defined.

(** The end-to-end scenario of the specification: a header, one good row
    and malformed rows; the good row is stored, stamped once. *)
Example main_stores_the_good_row :
  let run := main Sample.demo_env (Sample.idle []) in
  fst run = Ok tt
  /\ length (Sql.table_rows "CryptoCurrency" (stored (snd run))) = 1%nat
  /\ (scraped_at <$> Sql.table_rows "CryptoCurrency" (stored (snd run)))
     = [1700000000]
  /\ session (snd run) = None.
Proof. vm_compute. repeat split; reflexivity. Qed.

(** * Further properties *)

(** ** More on the catalogue *)

Module SqlMore.
Import Sql.

Lemma lookup_object_app n d d2 :
  lookup_object n (d ++ d2)
  = match lookup_object n d with
    | Some o => Some o
    | None => lookup_object n d2
    end.
Proof.
  induction d as [|[m o] d IH]; simpl; [reflexivity|].
  destruct (String.eqb m n); [reflexivity|exact IH].
Qed.

Lemma lookup_object_none_fresh n d :
  lookup_object n d = None <-> name_taken n d = false.
Proof.
  unfold name_taken. induction d as [|[m o] d IH]; simpl; [tauto|].
  destruct (String.eqb m n); simpl; [split; discriminate|exact IH].
Qed.

Lemma update_table_other n f d d' m :
  update_table n f d = Some d' -> m <> n ->
  lookup_object m d' = lookup_object m d.
Proof.
  revert d'. induction d as [|[k o] d IH]; simpl; intros d' H Hne; [discriminate|].
  destruct (String.eqb_spec k n) as [->|Hk].
  - destruct o as [t|x]; [|discriminate]. injection H as <-. simpl.
    destruct (String.eqb_spec n m) as [->|_]; [contradiction|reflexivity].
  - destruct (update_table n f d) as [d''|]; [|discriminate].
    injection H as <-. simpl. destruct (String.eqb k m); [reflexivity|].
    apply IH; auto.
Qed.


Lemma update_table_some n f d t :
  lookup_object n d = Some (UserTable t) -> is_Some (update_table n f d).
Proof.
  induction d as [|[k o] d IH]; simpl; [discriminate|].
  destruct (String.eqb k n).
  - intros [= ->]. eauto.
  - intros H. destruct (IH H) as [d' ->]. eauto.
Qed.


(** What a DELETE does: it filters the rows of the one table and reports
    how many went. *)
Lemma delete_before_spec n c d d' k :
  delete_before n c d = Some (d', k) ->
  table_rows n d' = List.filter (fun r => negb (scraped_at r <? c)) (table_rows n d)
  /\ k = Z.of_nat (length (table_rows n d)) - Z.of_nat (length (table_rows n d'))
  /\ (forall m, m <> n -> lookup_object m d' = lookup_object m d).
Proof.
  unfold delete_before.
  destruct (update_table n _ d) as [d1|] eqn:Hu; [|discriminate].
  intros [= <- <-].
  pose proof (fun m => update_table_other _ _ _ _ m Hu) as Hother.
  apply SqlFacts.update_table_lookup in Hu as (t & H1 & H2).
  unfold row_count, table_rows. rewrite H1, H2. simpl.
  split; [reflexivity|]. split; [reflexivity|]. intros m Hm. apply Hother, Hm.
Qed.


End SqlMore.

(** ** Schema creation leaves what exists alone *)

(** X1.  [create_crypto_table] never drops or alters anything: the pending
    catalogue afterwards is the one before, or the one before extended at
    its end by the empty table under a name that was free.  Every object
    that existed is still there unchanged, no table has gained or lost a
    row, and nothing is committed. *)
Theorem create_crypto_table_only_extends (E : env) (w : world) (d : database) :
  session w = Some d ->
  let w' := snd (create_crypto_table E w) in
  stored w' = stored w
  /\ exists d',
       session w' = Some d'
       /\ (d' = d
           \/ (d' = d ++ [(TABLE_NAME E, UserTable Sql.empty_crypto_table)]
               /\ Sql.name_taken (TABLE_NAME E) d = false))
       /\ (forall n o, Sql.lookup_object n d = Some o ->
                       Sql.lookup_object n d' = Some o)
       /\ (forall n, Sql.table_rows n d' = Sql.table_rows n d).
Proof.
  intros Hs w'. subst w'. rewrite (create_run E w d Hs).
  destruct (Sql.exists_user_table (TABLE_NAME E) d).
  { cbn. split; [reflexivity|]. exists d. auto. }
  destruct (create_denied (sql E) || Sql.name_taken (TABLE_NAME E) d) eqn:Hden.
  { cbn. split; [reflexivity|]. exists d. auto. }
  apply orb_false_elim in Hden as [_ Hfree].
  cbn. split; [reflexivity|]. eexists. split; [reflexivity|].
  split; [right; auto|]. split.
  - intros n o Hn. rewrite SqlMore.lookup_object_app, Hn. reflexivity.
  - intros n. unfold Sql.table_rows. rewrite SqlMore.lookup_object_app.
    destruct (Sql.lookup_object n d) as [o|]; [reflexivity|].
    simpl. destruct (String.eqb (TABLE_NAME E) n); reflexivity.
Qed.

Lemma create_crypto_table_only_extends_witness :
  Sql.table_rows "CryptoCurrency"
    (default [] (session (snd (create_crypto_table Sample.demo_env
                                 (Sample.connected Sample.one_row_db)))))
  = [Sample.old_row].
Proof.
  destruct (create_crypto_table_only_extends Sample.demo_env
              (Sample.connected Sample.one_row_db) Sample.one_row_db eq_refl)
    as (_ & d' & Hs & _ & _ & Hrows).
  rewrite Hs. cbn [default]. rewrite Hrows. reflexivity.
Defined.

(** ** Retention pruning, in full *)

Section PruneFacts.

Variable E : env.

(** [delete_old_data] computes [delete_result] of the committed database,
    and closes the connection it opened. *)
Lemma delete_old_data_run (days : Z) (w : world) :
  fst (delete_old_data E days w) = Ok (fst (delete_result E days (stored w)))
  /\ stored (snd (delete_old_data E days w)) = snd (delete_result E days (stored w))
  /\ session (snd (delete_old_data E days w))
     = (if connect_fails (sql E) then session w else None)
  /\ clock_reads (snd (delete_old_data E days w)) = clock_reads w.
Proof.
  unfold delete_old_data, delete_old_data_try, get_sql_connection, pyodbc_connect,
    delete_result, prune_cutoff.
  destruct (connect_fails (sql E)); [cbn; auto|].
  unfold try_except, try_finally, bind, lift, logger, execute_delete_query,
    connection_commit, pending. cbn.
  destruct (delete_denied (sql E)); [cbn; auto|].
  destruct (Sql.delete_before _ _ _) as [[d' n]|]; [|cbn; auto].
  cbn. destruct (commit_refused (sql E) d'); cbn; auto.
Qed.

End PruneFacts.

(** X2.  What [delete_old_data] does to the data.  The number it returns is
    exactly the number of rows that left the committed table.  The table
    afterwards holds either the rows it held, or those of them that are not
    older than [days] days by the server's clock, in their order: a row
    inside the retention window is never deleted and no row is added.  No
    other catalogue object changes. *)
Theorem delete_old_data_prunes (E : env) (days : Z) (w : world) :
  let T := TABLE_NAME E in
  let w' := snd (delete_old_data E days w) in
  exists n,
    fst (delete_old_data E days w) = Ok n
    /\ n = Z.of_nat (length (Sql.table_rows T (stored w)))
           - Z.of_nat (length (Sql.table_rows T (stored w')))
    /\ (Sql.table_rows T (stored w') = Sql.table_rows T (stored w)
        \/ Sql.table_rows T (stored w')
           = List.filter (kept E days) (Sql.table_rows T (stored w)))
    /\ (forall r, In r (Sql.table_rows T (stored w)) ->
                  prune_cutoff E days <= scraped_at r ->
                  In r (Sql.table_rows T (stored w')))
    /\ (forall m, m <> T ->
                  Sql.lookup_object m (stored w') = Sql.lookup_object m (stored w)).
Proof.
  intros T w'. subst T w'.
  destruct (delete_old_data_run E days w) as (Hn & Hst & _).
  rewrite Hst. exists (fst (delete_result E days (stored w))).
  split; [exact Hn|].
  assert (Hsame : forall d : database,
             0 = Z.of_nat (length (Sql.table_rows (TABLE_NAME E) d))
                 - Z.of_nat (length (Sql.table_rows (TABLE_NAME E) d))) by (intros; lia).
  unfold delete_result.
  destruct (connect_fails (sql E)); [cbn; auto 6|].
  destruct (delete_denied (sql E)); [cbn; auto 6|].
  destruct (Sql.delete_before _ _ _) as [[d' n]|] eqn:Hdel; [|cbn; auto 6].
  destruct (commit_refused (sql E) d'); [cbn; auto 6|].
  cbn. apply SqlMore.delete_before_spec in Hdel as (Hrows & -> & Hother).
  split; [reflexivity|]. split; [right; exact Hrows|]. split; [|exact Hother].
  intros r Hin Hnew. rewrite Hrows. apply filter_In. split; [exact Hin|].
  apply negb_true_iff, Z.ltb_ge. exact Hnew.
Qed.


(** ** Connections are always closed *)

Section ConnectionFacts.

Variable E : env.

(** The statements of a [with get_sql_connection()] block run on a
    connection opened on the committed state; their outcome is the outcome
    of the block; the connection is closed afterwards and what was not
    committed is gone. *)
Lemma get_sql_connection_run {A} (body : M A) (w : world) :
  (forall w1, fst (body w1) <> OutOfFuel) ->
  connect_fails (sql E) = false ->
  let w1 := with_log (log w ++ [Log INFO "Database connection established" []])
              (with_session (Some (stored w)) w) in
  fst (get_sql_connection E body w) = fst (body w1)
  /\ session (snd (get_sql_connection E body w)) = None
  /\ stored (snd (get_sql_connection E body w)) = stored (snd (body w1))
  /\ clock_reads (snd (get_sql_connection E body w)) = clock_reads (snd (body w1))
  /\ browser_same (snd (body w1)) (snd (get_sql_connection E body w)).
Proof.
  intros Hfin Hc w1.
  assert (Heq : get_sql_connection E body w
                = try_finally
                    (try_except body
                       (fun e =>
                          if is_pyodbc_Error e
                          then Some (logger ERROR "Database connection error" [] ;;
                                     raise e)
                          else None))
                    (connection_close ;;
                     logger INFO "Database connection closed" []) w1).
  { unfold get_sql_connection, pyodbc_connect. rewrite Hc. reflexivity. }
  rewrite Heq. clear Heq.
  specialize (Hfin w1). unfold try_finally, try_except.
  destruct (body w1) as [[a|e|] w2]; cbn in Hfin; [| |contradiction].
  - unfold browser_same. cbn. auto 10.
  - destruct (is_pyodbc_Error e); unfold browser_same; cbn; auto 10.
Qed.

Lemma get_sql_connection_offline {A} (body : M A) (w : world) :
  connect_fails (sql E) = true ->
  fst (get_sql_connection E body w) = Raise PyodbcError
  /\ session (snd (get_sql_connection E body w)) = session w
  /\ stored (snd (get_sql_connection E body w)) = stored w
  /\ clock_reads (snd (get_sql_connection E body w)) = clock_reads w
  /\ browser_same w (snd (get_sql_connection E body w)).
Proof.
  intros Hc. unfold get_sql_connection, pyodbc_connect. rewrite Hc.
  unfold browser_same. cbn. auto 10.
Qed.

End ConnectionFacts.

(** X4.  [get_sql_connection] releases what it acquires.  When the
    connection cannot be opened, the block does not run, [pyodbc.Error] is
    raised and nothing has changed.  Otherwise the block runs on the
    committed state, its value or exception is what the [with] statement
    yields, and afterwards the connection is closed, whether the block
    returned or raised; the committed state is the one the block left, so
    work it did not commit is discarded. *)
Theorem get_sql_connection_releases {A} (E : env) (body : M A) (w : world) :
  (forall w1, fst (body w1) <> OutOfFuel) ->
  let run := get_sql_connection E body w in
  let w1 := with_log (log w ++ [Log INFO "Database connection established" []])
              (with_session (Some (stored w)) w) in
  if connect_fails (sql E)
  then fst run = Raise PyodbcError
       /\ session (snd run) = session w /\ stored (snd run) = stored w
  else fst run = fst (body w1)
       /\ session (snd run) = None
       /\ stored (snd run) = stored (snd (body w1)).
Proof.
  intros Hfin run w1. subst run w1.
  destruct (connect_fails (sql E)) eqn:Hc.
  - destruct (get_sql_connection_offline E body w Hc) as (H1 & H2 & H3 & _). auto.
  - destruct (get_sql_connection_run E body w Hfin Hc) as (H1 & H2 & H3 & _). auto.
Qed.

Lemma get_sql_connection_releases_witness :
  let run := get_sql_connection Sample.strict_env
               (insert_crypto_data Sample.strict_env Sample.batch_with_long_name)
               (Sample.idle Sample.one_row_db) in
  fst run = Raise PyodbcError
  /\ session (snd run) = None
  /\ Sql.table_rows "CryptoCurrency" (stored (snd run)) = [Sample.old_row].
Proof.
  pose proof (get_sql_connection_releases Sample.strict_env
                (insert_crypto_data Sample.strict_env Sample.batch_with_long_name)
                (Sample.idle Sample.one_row_db)) as H.
  cbv zeta in H. change (connect_fails (sql Sample.strict_env)) with false in H.
  cbv iota in H. destruct H as (Hr & Hs & Hst).
  - intros w1 Hout.
    pose proof (db_safe_insert_crypto_data Sample.strict_env
                  Sample.batch_with_long_name w1) as Hsafe.
    destruct (insert_crypto_data _ _ w1) as [[n|e|] w2]; try discriminate.
    exact Hsafe.
  - cbv zeta. rewrite Hr, Hs, Hst. vm_compute. auto.
Defined.

(** ** What browsing changes *)

Section BrowsingFacts.

Variable E : env.

Lemma only_browsing_refl w : only_browsing w w.
Proof. unfold only_browsing. auto. Qed.

Lemma only_browsing_trans w1 w2 w3 :
  only_browsing w1 w2 -> only_browsing w2 w3 -> only_browsing w1 w3.
Proof.
  unfold only_browsing. intros (-> & -> & -> & ->) (-> & -> & -> & ->). auto.
Qed.

Lemma only_browsing_log w l : only_browsing w (with_log l w).
Proof. unfold only_browsing. auto. Qed.

#[local] Hint Resolve only_browsing_refl only_browsing_trans only_browsing_log
  : core.

Lemma browses_ret {A} (a : A) : browses (ret a).
Proof. unfold browses. apply respects_ret; auto. Qed.

Lemma browses_raise {A} e : browses (@raise A e).
Proof. unfold browses. apply respects_raise; auto. Qed.

Lemma browses_logger l m a : browses (logger l m a).
Proof. unfold browses. apply respects_logger; auto. Qed.

Lemma browses_bind {A B} (m : M A) (k : A -> M B) :
  browses m -> (forall a, browses (k a)) -> browses (bind m k).
Proof. unfold browses. apply respects_bind; eauto. Qed.

Lemma browses_try_except {A} (m : M A) (h : exn -> option (M A)) :
  browses m -> (forall e hh, h e = Some hh -> browses hh) ->
  browses (try_except m h).
Proof. unfold browses. apply respects_try_except; eauto. Qed.

Lemma browses_lift {A} (r : result A) : r <> OutOfFuel -> browses (lift r).
Proof.
  intros Hr. unfold browses. apply respects_lift; auto.
  destruct r; simpl; auto.
Qed.

Lemma browses_oracle o : browses (oracle o).
Proof. destruct o; [apply browses_raise|apply browses_ret]. Qed.

Lemma browses_read_scroll_height : browses (read_scroll_height E).
Proof. intros w. unfold only_browsing. cbn. auto. Qed.

Lemma browses_smooth_scroll positions : browses (smooth_scroll positions).
Proof.
  intros w. rewrite smooth_scroll_run. unfold only_browsing. cbn. auto.
Qed.

Lemma py_range_finishes a b c : py_range a b c <> OutOfFuel.
Proof. unfold py_range. destruct (c =? 0); discriminate. Qed.

Lemma browses_scroll_loop N : forall fuel a h,
  (Z.to_nat (N - a) <= fuel)%nat -> browses (scroll_loop E fuel N a h).
Proof.
  induction fuel as [|fuel IH]; intros a h Hfuel; simpl;
    destruct (Z.ltb_spec a N) as [Ha|Ha]; try apply browses_ret; [lia|].
  apply browses_bind; [apply browses_lift, py_range_finishes|intros positions].
  apply browses_bind; [apply browses_smooth_scroll|intros _].
  apply browses_bind; [apply browses_read_scroll_height|intros new_height].
  destruct (new_height =? h).
  - apply browses_bind; [apply browses_logger|intros _; apply browses_ret].
  - apply browses_bind; [apply browses_logger|intros _]. apply IH. lia.
Qed.

Lemma browses_scroll_to_load_content N fuel :
  (Z.to_nat N <= fuel)%nat -> browses (scroll_to_load_content E fuel N).
Proof.
  intros Hfuel. unfold scroll_to_load_content.
  apply browses_bind; [apply browses_read_scroll_height|intros h].
  apply browses_bind; [apply browses_logger|intros _].
  apply browses_bind; [apply browses_scroll_loop; lia|intros _].
  apply browses_logger.
Qed.

Lemma browses_parse_rows rows : forall acc, browses (parse_rows rows acc).
Proof.
  induction rows as [|cols rest IH]; intros acc; cbn -[Nat.leb];
    [apply browses_ret|].
  destruct (10 <=? length cols)%nat; [|apply IH].
  apply browses_bind; [|intros acc'; apply IH].
  apply browses_try_except.
  - apply browses_bind; [apply browses_lift, crypto_info_of_finishes|].
    intros d. apply browses_ret.
  - intros e hh Hh. destruct (is_row_error e); [|discriminate].
    injection Hh as <-.
    apply browses_bind; [apply browses_logger|intros _; apply browses_ret].
Qed.

Lemma browses_parse_crypto_data s : browses (parse_crypto_data s).
Proof.
  unfold parse_crypto_data. destruct (find_cmc_table s) as [table|].
  - apply browses_bind; [apply browses_logger|intros _; apply browses_parse_rows].
  - apply browses_bind; [apply browses_logger|intros _; apply browses_ret].
Qed.

Lemma browser_quit_refl w : browser_quit w w.
Proof. unfold browser_quit, db_same. auto. Qed.

Lemma browser_quit_trans w1 w2 w3 :
  browser_quit w1 w2 -> browser_quit w2 w3 -> browser_quit w1 w3.
Proof.
  unfold browser_quit. intros [H1 Hq1] [H2 Hq2].
  split; [eapply db_same_trans; eassumption|auto].
Qed.

Lemma browser_quit_log w l : browser_quit w (with_log l w).
Proof. unfold browser_quit, db_same. auto. Qed.

Lemma browses_browser_quit {A} (m : M A) :
  browses m -> respects browser_quit (fun _ => True) m.
Proof.
  intros Hm w. specialize (Hm w).
  assert (Hweak : forall w', only_browsing w w' -> browser_quit w w').
  { unfold only_browsing, browser_quit, db_same.
    intros w' (H1 & H2 & H3 & H4). rewrite H4. auto. }
  destruct (m w) as [[a|e|] w']; cbn in Hm |- *.
  - auto.
  - split; [apply Hweak, Hm|exact I].
  - exact Hm.
Qed.

(** Whatever the block does, the browser that [get_chrome_driver] started
    is quit when the [with] statement is left. *)
Lemma get_chrome_driver_quits {A} (body : M A) :
  browses body -> respects browser_quit (fun _ => True) (get_chrome_driver E body).
Proof.
  intros Hbody w. unfold get_chrome_driver, webdriver_Chrome.
  destruct (chrome_start (chrome E)) as [e0|].
  - cbn. unfold try_finally, try_except, bind, lift, ret. cbn.
    destruct (is_Exception e0); cbn; (split; [|exact I]);
      unfold browser_quit, db_same; cbn; auto.
  - cbn [oracle bind ret]. cbv beta iota.
    rewrite guarded_bind. unfold lift at 1.
    rewrite guarded_bind. unfold logger at 1.
    match goal with
    | |- context [try_finally (try_except body ?h) ?f ?w1] =>
        specialize (Hbody w1); unfold try_finally, try_except;
          destruct (body w1) as [[a|e|] w2]
    end; [| |contradiction].
    + unfold only_browsing in Hbody. cbn in Hbody.
      destruct Hbody as (H1 & H2 & H3 & _).
      unfold browser_quit, db_same. cbn. auto.
    + destruct Hbody as [(H1 & H2 & H3 & _) _]. cbn in H1, H2, H3.
      destruct (is_Exception e); cbn; (split; [|exact I]);
        unfold browser_quit, db_same; cbn; auto.
Qed.

#[local] Hint Resolve browser_quit_refl browser_quit_trans browser_quit_log : core.

Lemma browser_quit_bind {A B} (m : M A) (k : A -> M B) :
  respects browser_quit (fun _ => True) m ->
  (forall a, respects browser_quit (fun _ => True) (k a)) ->
  respects browser_quit (fun _ => True) (bind m k).
Proof. apply respects_bind; eauto. Qed.

Lemma browser_quit_try_except {A} (m : M A) (h : exn -> option (M A)) :
  respects browser_quit (fun _ => True) m ->
  (forall e hh, h e = Some hh -> respects browser_quit (fun _ => True) hh) ->
  respects browser_quit (fun _ => True) (try_except m h).
Proof. apply respects_try_except; eauto. Qed.

Lemma scrape_coinmarketcap_browser_quit :
  respects browser_quit (fun _ => True) (scrape_coinmarketcap E).
Proof.
  unfold scrape_coinmarketcap.
  apply browser_quit_try_except.
  - apply browser_quit_bind.
    + apply get_chrome_driver_quits.
      apply browses_bind; [apply browses_logger|intros _].
      apply browses_bind; [apply browses_oracle|intros _].
      apply browses_bind.
      * apply browses_try_except.
        -- apply browses_bind; [apply browses_oracle|intros _].
           apply browses_bind; [apply browses_logger|intros _; apply browses_ret].
        -- intros e hh Hh. destruct e; try discriminate. injection Hh as <-.
           apply browses_bind; [apply browses_logger|intros _; apply browses_ret].
      * intros [|]; [apply browses_ret|].
        apply browses_bind; [|intros _; apply browses_ret].
        apply browses_scroll_to_load_content. lia.
    + intros [s|]; apply browses_browser_quit; [|apply browses_ret].
      apply browses_bind; [apply browses_parse_crypto_data|intros rs].
      apply browses_bind; [apply browses_logger|intros _; apply browses_ret].
  - intros e hh Hh. destruct (is_Exception e); [|discriminate].
    injection Hh as <-. apply browses_browser_quit.
    apply browses_bind; [apply browses_logger|intros _; apply browses_ret].
Qed.

End BrowsingFacts.

(** X5.  The browser never outlives a scrape: if none was running before
    [scrape_coinmarketcap], none is running after it, whether it returned
    records, returned the empty list after a failure or a time-out, or was
    interrupted.  The scrape touches neither the database nor the clock. *)
Theorem scrape_coinmarketcap_quits_browser (E : env) (w : world) :
  chrome_running w = false ->
  chrome_running (snd (scrape_coinmarketcap E w)) = false
  /\ db_same w (snd (scrape_coinmarketcap E w)).
Proof.
  intros Hoff. pose proof (scrape_coinmarketcap_browser_quit E w) as H.
  destruct (scrape_coinmarketcap E w) as [[rs|e|] w']; cbn;
    [|destruct H as [H _]|contradiction];
    destruct H as [Hdb Hq]; auto.
Qed.

Lemma scrape_coinmarketcap_quits_browser_witness :
  chrome_running (snd (scrape_coinmarketcap Sample.stalled_env (Sample.idle [])))
  = false.
Proof.
  apply (scrape_coinmarketcap_quits_browser Sample.stalled_env (Sample.idle [])).
  reflexivity.
Defined.

(** X6.  [scrape_coinmarketcap] fails soft.  No [Exception] leaves it:
    what it raises, if anything, is not an [Exception] (an interrupt).  A
    browser that cannot be started, a navigation that fails and a table
    that does not appear in time each give the empty list. *)
Theorem scrape_coinmarketcap_fails_soft (E : env) (w : world) :
  match fst (scrape_coinmarketcap E w) with
  | Ok _ => True
  | Raise e => is_Exception e = false
  | OutOfFuel => False
  end
  /\ (forall e, chrome_start (chrome E) = Some e -> is_Exception e = true ->
                fst (scrape_coinmarketcap E w) = Ok [])
  /\ (forall e, chrome_start (chrome E) = None ->
                navigate (chrome E) = Some e -> is_Exception e = true ->
                fst (scrape_coinmarketcap E w) = Ok [])
  /\ (chrome_start (chrome E) = None -> navigate (chrome E) = None ->
      wait_for_table (chrome E) = Some TimeoutException ->
      fst (scrape_coinmarketcap E w) = Ok []).
Proof.
  split; [|split; [|split]].
  - pose proof (leaves_db_scrape_coinmarketcap E w) as Hfin.
    unfold scrape_coinmarketcap, try_except in *.
    match goal with
    | |- context [match ?m w with _ => _ end] => destruct (m w) as [[rs|e|] w']
    end; cbn; [exact I| |exact Hfin].
    destruct (is_Exception e) eqn:He; cbn; [exact I|exact He].
  - intros e Hstart He. unfold scrape_coinmarketcap, get_chrome_driver,
      webdriver_Chrome. rewrite Hstart. cbn.
    unfold try_except, try_finally, bind, lift, ret, raise, logger. cbn.
    rewrite He. cbn. rewrite He. reflexivity.
  - intros e Hstart Hnav He. unfold scrape_coinmarketcap, get_chrome_driver,
      webdriver_Chrome. rewrite Hstart, Hnav. cbn.
    unfold try_except, try_finally, bind, lift, ret, raise, logger, driver_quit.
    cbn. rewrite He. cbn. rewrite He. reflexivity.
  - intros Hstart Hnav Hwait. unfold scrape_coinmarketcap, get_chrome_driver,
      webdriver_Chrome. rewrite Hstart, Hnav, Hwait. reflexivity.
Qed.

(** ** Text: [strip], [isdigit] and [int] *)

Section TextFacts.

Lemma lstrip_head s :
  match lstrip s with [] => True | c :: _ => isspace_char c = false end.
Proof.
  induction s as [|c s IH]; simpl; [exact I|].
  destruct (isspace_char c) eqn:Hc; [exact IH|exact Hc].
Qed.

Lemma lstrip_split s :
  exists p, s = p ++ lstrip s /\ forallb isspace_char p = true.
Proof.
  induction s as [|c s (p & Hs & Hp)]; simpl.
  - exists []. auto.
  - destruct (isspace_char c) eqn:Hc.
    + exists (c :: p). simpl. rewrite Hc, Hp. split; [congruence|reflexivity].
    + exists []. auto.
Qed.

Lemma lstrip_fixed s :
  match s with [] => True | c :: _ => isspace_char c = false end ->
  lstrip s = s.
Proof. destruct s as [|c s]; simpl; [reflexivity|]. intros ->. reflexivity. Qed.

Lemma forallb_rev {A} (f : A -> bool) l : forallb f (rev l) = forallb f l.
Proof.
  induction l as [|a l IH]; simpl; [reflexivity|].
  rewrite forallb_app, IH. simpl. rewrite andb_true_r. apply andb_comm.
Qed.

Lemma strip_split s :
  exists p q, s = p ++ strip s ++ q
              /\ forallb isspace_char p = true /\ forallb isspace_char q = true.
Proof.
  destruct (lstrip_split s) as (p & Hs & Hp).
  destruct (lstrip_split (rev (lstrip s))) as (q & Hr & Hq).
  exists p, (rev q). unfold strip, rstrip. split; [|split]; auto.
  - rewrite <- rev_app_distr, <- Hr, rev_involutive. exact Hs.
  - rewrite forallb_rev. exact Hq.
Qed.

Lemma strip_trimmed s : trimmed (strip s).
Proof.
  unfold trimmed. split.
  - unfold strip, rstrip.
    pose proof (lstrip_head s) as Hhead.
    destruct (lstrip_split (rev (lstrip s))) as (q & Hr & Hq).
    apply (f_equal (@rev N)) in Hr. rewrite rev_involutive, rev_app_distr in Hr.
    destruct (rev (lstrip (rev (lstrip s)))) as [|c u]; [exact I|].
    rewrite Hr in Hhead. exact Hhead.
  - unfold strip, rstrip. rewrite rev_involutive. apply lstrip_head.
Qed.

Lemma strip_fixed s : trimmed s -> strip s = s.
Proof.
  intros [Hl Hr]. unfold strip, rstrip.
  rewrite (lstrip_fixed s Hl), (lstrip_fixed (rev s) Hr). apply rev_involutive.
Qed.






End TextFacts.



(** ** From a table row to a database row *)

Section RecordFacts.

(** The record built from a row, field by field. *)
Lemma crypto_info_of_fields cols d :
  crypto_info_of cols = Ok d ->
  exists c1 c2 c3 c4 c5 c6 c7 c8 c9,
    cell_text cols 1 = Ok c1 /\ cell_text cols 2 = Ok c2
    /\ cell_text cols 3 = Ok c3 /\ cell_text cols 4 = Ok c4
    /\ cell_text cols 5 = Ok c5 /\ cell_text cols 6 = Ok c6
    /\ cell_text cols 7 = Ok c7 /\ cell_text cols 8 = Ok c8
    /\ cell_text cols 9 = Ok c9
    /\ d = <["rank" := c1]> (<["name" := c2]> (<["price" := c3]>
           (<["1h_change" := c4]> (<["24h_change" := c5]>
           (<["7d_change" := c6]> (<["market_cap" := c7]>
           (<["24h_volume" := c8]> (<["circulating_supply" := c9]>
           (∅ : crypto_dict))))))))).
Proof.
  unfold crypto_info_of. intros H.
  repeat (apply result_bind_ok in H as (? & ? & H)).
  injection H as <-. repeat eexists; eassumption.
Qed.

Lemma cell_text_trimmed cols i s : cell_text cols i = Ok s -> trimmed s.
Proof.
  intros H. apply cell_text_ok in H as (t & _ & ->). apply strip_trimmed.
Qed.

Lemma parsed_records_of_rows (s : soup) (w w' : world) rs :
  parse_crypto_data s w = (Ok rs, w') ->
  Forall (fun d => exists cols, crypto_info_of cols = Ok d) rs.
Proof.
  intros Hrun. unfold parse_crypto_data in Hrun.
  destruct (find_cmc_table s) as [table|] eqn:Hfind.
  - pose proof (parse_crypto_data_run s table w Hfind) as H.
    unfold parse_crypto_data in H. rewrite Hfind in H. rewrite Hrun in H.
    destruct H as (-> & _). apply Forall_forall. intros d Hd.
    apply list_elem_of_omap in Hd as (cols & _ & Hrec).
    apply row_record_some in Hrec as [_ Hrec]. eauto.
  - cbn in Hrun. injection Hrun as <- _. constructor.
Qed.

(** The row prepared from a record that was built from a table row. *)
Lemma crypto_info_of_make_row (t : Z) (cols : list td) (d : crypto_dict) :
  crypto_info_of cols = Ok d ->
  make_row t d = Raise ValueError
  \/ exists r,
       make_row t d = Ok r
       /\ cell_text cols 2 = Ok (name r)
       /\ cell_text cols 3 = Ok (price r)
       /\ cell_text cols 4 = Ok (one_hour_change r)
       /\ cell_text cols 5 = Ok (twenty_four_hour_change r)
       /\ cell_text cols 6 = Ok (seven_day_change r)
       /\ cell_text cols 7 = Ok (market_cap r)
       /\ cell_text cols 8 = Ok (volume_24h r)
       /\ cell_text cols 9 = Ok (circulating_supply r)
       /\ scraped_at r = t
       /\ exists text, cell_text cols 1 = Ok text
            /\ rank r = (if isdigit text then decimal_digits 0 text else None).
Proof.
  intros Hd.
  apply crypto_info_of_fields in Hd
    as (c1 & c2 & c3 & c4 & c5 & c6 & c7 & c8 & c9
        & H1 & H2 & H3 & H4 & H5 & H6 & H7 & H8 & H9 & Hd).
  assert (K1 : d !! "rank"%string = Some c1) by (subst d; vm_compute; reflexivity).
  assert (K2 : d !! "name"%string = Some c2) by (subst d; vm_compute; reflexivity).
  assert (K3 : d !! "price"%string = Some c3) by (subst d; vm_compute; reflexivity).
  assert (K4 : d !! "1h_change"%string = Some c4)
    by (subst d; vm_compute; reflexivity).
  assert (K5 : d !! "24h_change"%string = Some c5)
    by (subst d; vm_compute; reflexivity).
  assert (K6 : d !! "7d_change"%string = Some c6)
    by (subst d; vm_compute; reflexivity).
  assert (K7 : d !! "market_cap"%string = Some c7)
    by (subst d; vm_compute; reflexivity).
  assert (K8 : d !! "24h_volume"%string = Some c8)
    by (subst d; vm_compute; reflexivity).
  assert (K9 : d !! "circulating_supply"%string = Some c9)
    by (subst d; vm_compute; reflexivity).
  clear Hd. unfold make_row, getitem.
  rewrite K1, K2, K3, K4, K5, K6, K7, K8, K9. unfold_result.
  destruct (isdigit c1) eqn:Hdig.
  - unfold py_int. destruct c1 as [|ch c1]; [discriminate|].
    destruct (decimal_digits 0 (ch :: c1)) as [v|] eqn:Hv; [|left; reflexivity].
    right. eexists. split; [reflexivity|]. cbn.
    repeat split; try assumption. exists (ch :: c1). rewrite Hdig. auto.
  - right. eexists. split; [reflexivity|]. cbn.
    repeat split; try assumption. exists c1. rewrite Hdig. auto.
Qed.

End RecordFacts.

(** X8.  Every record that [parse_crypto_data] returns has exactly the
    nine keys of the dictionary literal, and none of its values starts or
    ends with white space. *)
Theorem parsed_fields_are_trimmed (s : soup) (w w' : world)
    (rs : list crypto_dict) :
  parse_crypto_data s w = (Ok rs, w') ->
  Forall (fun d =>
            (forall k, is_Some (d !! k)
                       <-> k ∈ ["rank"; "name"; "price"; "1h_change";
                                "24h_change"; "7d_change"; "market_cap";
                                "24h_volume"; "circulating_supply"]%string)
            /\ map_Forall (fun _ v => trimmed v) d) rs.
Proof.
  intros Hrun. eapply Forall_impl; [apply (parsed_records_of_rows s w w' rs Hrun)|].
  intros d (cols & Hd). cbv beta.
  apply crypto_info_of_fields in Hd
    as (c1 & c2 & c3 & c4 & c5 & c6 & c7 & c8 & c9
        & H1 & H2 & H3 & H4 & H5 & H6 & H7 & H8 & H9 & ->).
  split.
  - intros k. rewrite !lookup_insert_is_Some'.
    rewrite !elem_of_cons, elem_of_nil.
    assert (Hemp : ¬ is_Some ((∅ : crypto_dict) !! k))
      by apply lookup_empty_is_Some.
    intuition congruence.
  - repeat (apply map_Forall_insert_2; [eapply cell_text_trimmed; eassumption|]).
    apply map_Forall_empty.
Qed.

Lemma parsed_fields_are_trimmed_witness :
  Forall (fun d => map_Forall (fun _ v => trimmed v) d)
    (match fst (parse_crypto_data Sample.page_short_rows (Sample.idle [])) with
     | Ok rs => rs
     | _ => []
     end).
Proof.
  pose proof (parsed_fields_are_trimmed Sample.page_short_rows (Sample.idle [])
                (snd (parse_crypto_data Sample.page_short_rows (Sample.idle [])))
                [Sample.record_of "1" "Bitcoin" "$1"]) as H.
  assert (Hrun : fst (parse_crypto_data Sample.page_short_rows (Sample.idle []))
                 = Ok [Sample.record_of "1" "Bitcoin" "$1"])
    by (vm_compute; reflexivity).
  rewrite Hrun. eapply Forall_impl; [apply H, pair_of_fst, Hrun|].
  intros d [_ Hd]. exact Hd.
Defined.

(** X9.  The extractor and the insert agree on the record: a record built
    from a table row always has the keys the insert reads, so preparing
    its row never raises [KeyError].  Either the rank text is refused by
    [int] ([ValueError]), or the row carries the trimmed texts of cells
    2 to 9 in the columns name, price, one-hour, 24-hour and seven-day
    change, market cap, volume and circulating supply, and the timestamp
    it was given. *)
Theorem parsed_record_becomes_row (t : Z) (cols : list td) (d : crypto_dict) :
  crypto_info_of cols = Ok d ->
  make_row t d = Raise ValueError
  \/ exists r,
       make_row t d = Ok r
       /\ cell_text cols 2 = Ok (name r)
       /\ cell_text cols 3 = Ok (price r)
       /\ cell_text cols 4 = Ok (one_hour_change r)
       /\ cell_text cols 5 = Ok (twenty_four_hour_change r)
       /\ cell_text cols 6 = Ok (seven_day_change r)
       /\ cell_text cols 7 = Ok (market_cap r)
       /\ cell_text cols 8 = Ok (volume_24h r)
       /\ cell_text cols 9 = Ok (circulating_supply r)
       /\ scraped_at r = t
       /\ exists text, cell_text cols 1 = Ok text
            /\ rank r = (if isdigit text then decimal_digits 0 text else None).
Proof. apply crypto_info_of_make_row. Qed.

Lemma parsed_record_becomes_row_witness :
  exists r,
    make_row 7 (Sample.record_of "1" "Bitcoin" "$1") = Ok r
    /\ name r = of_string "Bitcoin" /\ rank r = Some 1 /\ scraped_at r = 7.
Proof.
  destruct (parsed_record_becomes_row 7 (Sample.full_row "1" "Bitcoin" "$1")
              (Sample.record_of "1" "Bitcoin" "$1")) as [Hbad|(r & Hr & Hn & _)].
  - vm_compute. reflexivity.
  - vm_compute in Hbad. discriminate.
  - exists r. split; [exact Hr|]. vm_compute in Hr. injection Hr as <-.
    vm_compute. auto.
Defined.

(** X10.  A batch that came out of [parse_crypto_data] can fail in the
    preparation of its rows only with [ValueError], never with [KeyError];
    when it does not fail there is one row per record. *)
Theorem parsed_batch_is_insertable (t : Z) (s : soup) (w w' : world)
    (rs : list crypto_dict) :
  parse_crypto_data s w = (Ok rs, w') ->
  match make_rows t rs with
  | Ok rows => length rows = length rs
  | Raise e => e = ValueError
  | OutOfFuel => False
  end.
Proof.
  intros Hrun. pose proof (parsed_records_of_rows s w w' rs Hrun) as Hall.
  clear Hrun. induction Hall as [|d rest (cols & Hd) _ IH]; simpl.
  - reflexivity.
  - unfold_result.
    destruct (crypto_info_of_make_row t cols d Hd) as [->|(r & -> & _)];
      [reflexivity|].
    destruct (make_rows t rest) as [rows|e|]; simpl; auto.
Qed.

Lemma parsed_batch_is_insertable_witness :
  match make_rows 7 [Sample.record_of "1" "Bitcoin" "$1"] with
  | Ok rows => length rows = 1%nat
  | Raise e => e = ValueError
  | OutOfFuel => False
  end.
Proof.
  apply (parsed_batch_is_insertable 7 Sample.page_short_rows (Sample.idle [])
           (snd (parse_crypto_data Sample.page_short_rows (Sample.idle [])))
           [Sample.record_of "1" "Bitcoin" "$1"]).
  apply pair_of_fst. vm_compute. reflexivity.
Defined.

(** ** Which table is read *)

Section TableChoice.

Lemma has_class_spec (t : html_table) :
  existsb (String.eqb "cmc-table") (classes t) = true <-> is_cmc_table t.
Proof.
  unfold is_cmc_table. rewrite existsb_exists. split.
  - intros (c & Hin & Heq). apply String.eqb_eq in Heq. subst c.
    apply list_elem_of_In. exact Hin.
  - intros Hin. exists "cmc-table"%string. split.
    + apply list_elem_of_In. exact Hin.
    + apply String.eqb_refl.
Qed.

Lemma find_cmc_table_none (s : soup) :
  Forall (fun u => ~ is_cmc_table u) s -> find_cmc_table s = None.
Proof.
  unfold find_cmc_table.
  induction 1 as [|u s Hu _ IH]; cbn [List.find]; [reflexivity|].
  destruct (existsb _ (classes u)) eqn:Hc; [|exact IH].
  apply has_class_spec in Hc. contradiction.
Qed.

Lemma find_cmc_table_first (pre post : soup) (t : html_table) :
  Forall (fun u => ~ is_cmc_table u) pre -> is_cmc_table t ->
  find_cmc_table (pre ++ t :: post) = Some t.
Proof.
  unfold find_cmc_table. intros Hpre Ht.
  induction Hpre as [|u s Hu _ IH]; cbn [List.find app].
  - destruct (existsb _ (classes t)) eqn:Hc; [reflexivity|].
    apply has_class_spec in Ht. congruence.
  - destruct (existsb _ (classes u)) eqn:Hc; [|exact IH].
    apply has_class_spec in Hc. contradiction.
Qed.

End TableChoice.

(** X11.  Which table [parse_crypto_data] reads.  A document without a
    table of class [cmc-table] gives the empty list and one error record,
    and nothing else happens.  Otherwise only the first such table counts:
    the tables before and after it have no influence on the outcome.  If
    that table has no row at all, not even a header, the result is the
    empty list and the number of rows logged is -1. *)
Theorem parse_reads_first_cmc_table (s : soup) (w : world) :
  (Forall (fun u => ~ is_cmc_table u) s ->
   parse_crypto_data s w
   = (Ok [], with_log (log w ++ [Log ERROR "Could not find cryptocurrency table" []]) w))
  /\ (forall pre t post,
        s = pre ++ t :: post ->
        Forall (fun u => ~ is_cmc_table u) pre -> is_cmc_table t ->
        parse_crypto_data s w = parse_crypto_data [t] w
        /\ (trs t = [] ->
            fst (parse_crypto_data s w) = Ok []
            /\ logged_numbers (log (snd (parse_crypto_data s w)))
               = logged_numbers (log w) ++ [-1])).
Proof.
  split.
  - intros Hnone. unfold parse_crypto_data.
    rewrite (find_cmc_table_none s Hnone). reflexivity.
  - intros pre t post -> Hpre Ht.
    assert (Hone : find_cmc_table [t] = Some t)
      by (apply (find_cmc_table_first [] [] t); [constructor|exact Ht]).
    unfold parse_crypto_data.
    rewrite (find_cmc_table_first pre post t Hpre Ht), Hone.
    split; [reflexivity|]. intros Hrows. rewrite Hrows. cbn.
    split; [reflexivity|]. unfold logged_numbers. rewrite flat_map_app. reflexivity.
Qed.

Lemma parse_reads_first_cmc_table_witness :
  parse_crypto_data
    ({| classes := ["ad"]%string; trs := [] |} :: Sample.page_short_rows)
    (Sample.idle [])
  = parse_crypto_data Sample.page_short_rows (Sample.idle []).
Proof.
  apply (parse_reads_first_cmc_table
           ({| classes := ["ad"]%string; trs := [] |} :: Sample.page_short_rows)
           (Sample.idle []))
    with (pre := [{| classes := ["ad"]%string; trs := [] |}]) (post := []).
  - reflexivity.
  - constructor; [|constructor]. unfold is_cmc_table. cbn.
    rewrite elem_of_cons, elem_of_nil. intros [H|[]]. discriminate.
  - unfold is_cmc_table. cbn. rewrite elem_of_cons. left. reflexivity.
Defined.

(** ** The passes of the scroll loop *)

Section ScrollTrace.

Variable E : env.

Lemma py_range_step_ok h : SCROLL_STEP E <> 0 ->
  py_range 0 h (SCROLL_STEP E) = Ok (positions_of E h).
Proof.
  intros Hstep. unfold positions_of, py_range.
  destruct (Z.eqb_spec (SCROLL_STEP E) 0); [contradiction|reflexivity].
Qed.

Lemma flat_map_seq_S {A} (f : nat -> list A) p :
  flat_map f (seq 0 (S p)) = f 0%nat ++ flat_map (fun j => f (S j)) (seq 0 p).
Proof.
  cbn [seq flat_map]. f_equal. rewrite <- seq_shift.
  induction (seq 0 p) as [|a l IH]; simpl; [reflexivity|]. rewrite IH. reflexivity.
Qed.

(** The loop entered in [w] with [last_height = h]: it makes [p] passes,
    each reading the height once; every pass before the last found a new
    height; it leaves through [break] after a pass that found the height
    unchanged, or by the counter after passes that all found it changed;
    pass [j] scrolls through the positions of the height it started with. *)
Lemma scroll_loop_trace (N : Z) : SCROLL_STEP E <> 0 -> forall fuel a h w,
  (Z.to_nat (N - a) <= fuel)%nat ->
  exists (p : nat) a' (broke : bool) w',
    scroll_loop E fuel N a h w = (Ok (a', broke), w')
    /\ height_reads w' = (height_reads w + p)%nat
    /\ (p <= Z.to_nat (N - a))%nat
    /\ (forall j, (S j < p)%nat ->
          scroll_height (chrome E) (height_reads w + j) <> height_before E w h j)
    /\ (if broke
        then exists q, p = S q
             /\ scroll_height (chrome E) (height_reads w + q) = height_before E w h q
        else p = Z.to_nat (N - a)
             /\ forall j, (j < p)%nat ->
                  scroll_height (chrome E) (height_reads w + j)
                  <> height_before E w h j)
    /\ scrolled w'
       = scrolled w
         ++ flat_map (fun j => positions_of E (height_before E w h j)) (seq 0 p).
Proof.
  intros Hstep. induction fuel as [|fuel IH]; intros a h w Hfuel.
  - simpl. destruct (Z.ltb_spec a N) as [Ha|Ha]; [lia|].
    exists 0%nat, a, false, w. unfold ret. cbn.
    rewrite Nat.add_0_r, app_nil_r.
    repeat split; try lia; intros; lia.
  - simpl. destruct (Z.ltb_spec a N) as [Ha|Ha].
    2:{ exists 0%nat, a, false, w. unfold ret. cbn.
        rewrite Nat.add_0_r, app_nil_r.
        repeat split; try lia; intros; lia. }
    unfold bind at 1. unfold lift. rewrite (py_range_step_ok h Hstep).
    unfold bind at 1. rewrite smooth_scroll_run.
    unfold bind at 1. unfold read_scroll_height. cbn [height_reads with_scrolled].
    destruct (Z.eqb_spec (scroll_height (chrome E) (height_reads w)) h)
      as [Hstable|Hmoved].
    { exists 1%nat, a, true. eexists. unfold bind, logger, ret. cbn.
      split; [reflexivity|]. cbn. rewrite app_nil_r.
      repeat split; try lia.
      exists 0%nat. rewrite Nat.add_0_r. auto. }
    unfold bind at 1. unfold logger at 1.
    match goal with
    | |- context [scroll_loop E fuel N (a + 1) ?h1 ?w1] =>
        destruct (IH (a + 1) h1 w1 ltac:(lia))
          as (p & a' & broke & w' & Hrun & Hreads & Hp & Hbefore & Hexit & Hpos);
          rewrite Hrun; set (w1' := w1) in *
    end.
    assert (Hnext : forall j,
               height_before E w1' (scroll_height (chrome E) (height_reads w)) j
               = height_before E w h (S j)).
    { intros [|i]; cbn; [rewrite Nat.add_0_r; reflexivity|].
      f_equal. lia. }
    assert (Hshift : forall j,
               scroll_height (chrome E) (height_reads w1' + j)
               = scroll_height (chrome E) (height_reads w + S j)).
    { intros j. cbn. f_equal. lia. }
    exists (S p), a', broke, w'. split; [reflexivity|].
    cbn in Hreads, Hpos.
    split; [lia|]. split; [lia|]. split; [|split].
    + intros [|j] Hj.
      * cbn. rewrite Nat.add_0_r. exact Hmoved.
      * rewrite <- Hshift, <- Hnext. apply Hbefore. lia.
    + destruct broke.
      * destruct Hexit as (q & -> & Hq). exists (S q). split; [reflexivity|].
        rewrite <- Hshift, <- Hnext. exact Hq.
      * destruct Hexit as (Hpeq & Hall). split; [lia|].
        intros [|j] Hj.
        -- cbn. rewrite Nat.add_0_r. exact Hmoved.
        -- rewrite <- Hshift, <- Hnext. apply Hall. lia.
    + rewrite Hpos, flat_map_seq_S, <- app_assoc. cbn [height_before].
      f_equal. f_equal. apply flat_map_ext. intros j. rewrite Hnext. reflexivity.
Qed.

(** [scroll_to_load_content] entered in [w]: the [k]-th height it reads is
    [scroll_height (height_reads w + k)]. *)
Lemma scroll_to_load_content_trace (N : Z) (fuel : nat) (w : world) :
  SCROLL_STEP E <> 0 -> (Z.to_nat N <= fuel)%nat ->
  let hgt k := scroll_height (chrome E) (height_reads w + k) in
  let w' := snd (scroll_to_load_content E fuel N w) in
  exists passes : nat,
    fst (scroll_to_load_content E fuel N w) = Ok tt
    /\ height_reads w' = (height_reads w + 1 + passes)%nat
    /\ (passes <= Z.to_nat N)%nat
    /\ (forall j, (S j < passes)%nat -> hgt (S j) <> hgt j)
    /\ ((exists q, passes = S q /\ hgt (S q) = hgt q)
        \/ (passes = Z.to_nat N
            /\ forall j, (j < passes)%nat -> hgt (S j) <> hgt j))
    /\ scrolled w'
       = scrolled w ++ flat_map (fun j => positions_of E (hgt j)) (seq 0 passes).
Proof.
  intros Hstep Hfuel hgt w'. subst hgt w'.
  set (h1' := scroll_height (chrome E) (height_reads w)).
  set (w1' := with_log
                (log w ++ [Log INFO "Starting page scroll to load dynamic content" []])
                (with_height_reads (S (height_reads w)) w)).
  assert (Heq : scroll_to_load_content E fuel N w
                = (scroll_loop E fuel N 0 h1' ;; logger INFO "Finished scrolling" [])
                    w1') by reflexivity.
  rewrite Heq. clear Heq.
  destruct (scroll_loop_trace N Hstep fuel 0 h1' w1' ltac:(lia))
    as (p & a' & broke & w' & Hrun & Hreads & Hp & Hbefore & Hexit & Hpos).
  assert (Hprev : forall j,
             height_before E w1' h1' j
             = scroll_height (chrome E) (height_reads w + j)).
  { intros [|i]; cbn; [unfold h1'; rewrite Nat.add_0_r; reflexivity|].
    f_equal. lia. }
  assert (Hshift : forall j,
             scroll_height (chrome E) (height_reads w1' + j)
             = scroll_height (chrome E) (height_reads w + S j)).
  { intros j. cbn. f_equal. lia. }
  exists p. unfold bind. rewrite Hrun. unfold logger. cbn.
  cbn in Hreads, Hpos. rewrite Z.sub_0_r in *.
  split; [reflexivity|]. split; [lia|]. split; [lia|]. split; [|split].
  - intros j Hj. rewrite <- Hshift, <- Hprev. apply Hbefore. exact Hj.
  - destruct broke.
    + left. destruct Hexit as (q & -> & Hq). exists q. split; [reflexivity|].
      rewrite <- Hshift, <- Hprev. exact Hq.
    + right. destruct Hexit as (Hpeq & Hall). split; [exact Hpeq|].
      intros j Hj. rewrite <- Hshift, <- Hprev. apply Hall. exact Hj.
  - rewrite Hpos. f_equal. apply flat_map_ext. intros j. rewrite Hprev. reflexivity.
Qed.

Lemma positions_of_bounds h i :
  0 < SCROLL_STEP E -> In i (positions_of E h) ->
  0 <= i < h /\ i mod SCROLL_STEP E = 0.
Proof.
  intros Hstep. unfold positions_of, py_range.
  destruct (Z.eqb_spec (SCROLL_STEP E) 0) as [|_]; [lia|].
  destruct (Z.ltb_spec 0 (SCROLL_STEP E)) as [_|]; [|lia].
  rewrite in_map_iff. intros (k & <- & Hk). apply in_seq in Hk.
  set (s := SCROLL_STEP E) in *.
  assert (Hn : Z.of_nat k < (h - 0 + s - 1) / s) by lia.
  split.
  - split; [nia|].
    assert (Hle : Z.of_nat k + 1 <= (h - 0 + s - 1) / s) by lia.
    pose proof (Z.mul_div_le (h - 0 + s - 1) s Hstep). nia.
  - rewrite Z.add_0_l. apply Z.mod_mul. lia.
Qed.

Lemma positions_of_reach h :
  0 < SCROLL_STEP E -> 0 < h ->
  exists i, In i (positions_of E h) /\ h - SCROLL_STEP E <= i.
Proof.
  intros Hstep Hh. unfold positions_of, py_range.
  destruct (Z.eqb_spec (SCROLL_STEP E) 0) as [|_]; [lia|].
  destruct (Z.ltb_spec 0 (SCROLL_STEP E)) as [_|]; [|lia].
  set (s := SCROLL_STEP E) in *.
  set (n := (h - 0 + s - 1) / s).
  assert (Hn : 1 <= n).
  { unfold n. apply Z.div_le_lower_bound; lia. }
  exists (0 + Z.of_nat (Z.to_nat (n - 1)) * s). split.
  - apply in_map_iff. exists (Z.to_nat (n - 1)). split; [reflexivity|].
    apply in_seq. lia.
  - pose proof (Z.mod_pos_bound (h - 0 + s - 1) s Hstep).
    pose proof (Z.div_mod (h - 0 + s - 1) s ltac:(lia)). fold n in H0.
    rewrite Z2Nat.id by lia. nia.
Qed.

End ScrollTrace.

(** X12.  When the scroll loop stops.  With a scroll step other than 0
    and a budget of at least [max_scrolls] passes, [scroll_to_load_content]
    returns after the first pass that finds the page height unchanged, or
    after [max_scrolls] passes that each found it changed: every pass
    before the last found a new height, and the function reads the height
    once before the loop and once per pass. *)
Theorem scroll_stops_at_first_stable_height (E : env) (max_scrolls : Z)
    (fuel : nat) (w : world) :
  SCROLL_STEP E <> 0 -> (Z.to_nat max_scrolls <= fuel)%nat ->
  let hgt k := scroll_height (chrome E) (height_reads w + k) in
  let w' := snd (scroll_to_load_content E fuel max_scrolls w) in
  exists passes : nat,
    fst (scroll_to_load_content E fuel max_scrolls w) = Ok tt
    /\ height_reads w' = (height_reads w + 1 + passes)%nat
    /\ (passes <= Z.to_nat max_scrolls)%nat
    /\ (forall j, (S j < passes)%nat -> hgt (S j) <> hgt j)
    /\ ((exists q, passes = S q /\ hgt (S q) = hgt q)
        \/ (passes = Z.to_nat max_scrolls
            /\ forall j, (j < passes)%nat -> hgt (S j) <> hgt j)).
Proof.
  intros Hstep Hfuel hgt w'.
  destruct (scroll_to_load_content_trace E max_scrolls fuel w Hstep Hfuel)
    as (p & H1 & H2 & H3 & H4 & H5 & _).
  exists p. auto.
Qed.

Lemma scroll_stops_at_first_stable_height_witness :
  exists passes : nat,
    fst (scroll_to_load_content Sample.demo_env 3 3 (Sample.idle [])) = Ok tt
    /\ height_reads (snd (scroll_to_load_content Sample.demo_env 3 3 (Sample.idle [])))
       = (1 + passes)%nat.
Proof.
  destruct (scroll_stops_at_first_stable_height Sample.demo_env 3 3 (Sample.idle []))
    as (p & H1 & H2 & _).
  - vm_compute. discriminate.
  - vm_compute. lia.
  - exists p. split; [exact H1|exact H2].
Defined.

(** X13.  Where the page is scrolled to.  With a positive scroll step,
    pass [j] of [scroll_to_load_content] scrolls through
    [range(0, h, SCROLL_STEP)] for the height [h] read just before it, in
    order and nothing else: every position passed to [window.scrollTo] is
    a non-negative multiple of the step below a height the page reported,
    and a pass over a page of positive height ends within one step of its
    bottom. *)
Theorem scroll_positions (E : env) (max_scrolls : Z) (fuel : nat) (w : world) :
  0 < SCROLL_STEP E -> (Z.to_nat max_scrolls <= fuel)%nat ->
  let hgt k := scroll_height (chrome E) (height_reads w + k) in
  let w' := snd (scroll_to_load_content E fuel max_scrolls w) in
  exists passes : nat,
    height_reads w' = (height_reads w + 1 + passes)%nat
    /\ scrolled w'
       = scrolled w ++ flat_map (fun j => positions_of E (hgt j)) (seq 0 passes)
    /\ (forall j i, In i (positions_of E (hgt j)) ->
          0 <= i < hgt j /\ i mod SCROLL_STEP E = 0)
    /\ (forall j, 0 < hgt j ->
          exists i, In i (positions_of E (hgt j)) /\ hgt j - SCROLL_STEP E <= i).
Proof.
  intros Hstep Hfuel hgt w'.
  destruct (scroll_to_load_content_trace E max_scrolls fuel w ltac:(lia) Hfuel)
    as (p & _ & H2 & _ & _ & _ & H6).
  exists p. split; [exact H2|]. split; [exact H6|]. split.
  - intros j i. apply positions_of_bounds. exact Hstep.
  - intros j. apply positions_of_reach. exact Hstep.
Qed.

Lemma scroll_positions_witness :
  scrolled (snd (scroll_to_load_content Sample.demo_env 3 3 (Sample.idle [])))
  = [0; 400; 800] ++ [0; 400; 800; 1200; 1600]
    ++ [0; 400; 800; 1200; 1600; 2000; 2400; 2800].
Proof.
  destruct (scroll_positions Sample.demo_env 3 3 (Sample.idle []))
    as (p & H1 & H2 & _).
  - vm_compute. reflexivity.
  - vm_compute. lia.
  - vm_compute. reflexivity.
Defined.

(** ** What database code changes *)

Section OwnTable.

Variable E : env.

Lemma browser_same_refl w : browser_same w w.
Proof. unfold browser_same. auto. Qed.

Lemma browser_same_trans w1 w2 w3 :
  browser_same w1 w2 -> browser_same w2 w3 -> browser_same w1 w3.
Proof.
  unfold browser_same. intros (H1 & H2 & H3) (H4 & H5 & H6).
  rewrite H4, H5, H6. auto.
Qed.

Lemma own_table_only_refl w : own_table_only E w w.
Proof. split; [apply browser_same_refl|]. intros H. split; [exact H|reflexivity]. Qed.

Lemma own_table_only_trans w1 w2 w3 :
  own_table_only E w1 w2 -> own_table_only E w2 w3 -> own_table_only E w1 w3.
Proof.
  intros [Hb1 H1] [Hb2 H2]. split; [eapply browser_same_trans; eassumption|].
  intros Hco. destruct (H1 Hco) as [Hco2 Hs1]. destruct (H2 Hco2) as [Hco3 Hs2].
  split; [exact Hco3|]. intros m Hm. rewrite (Hs2 m Hm). apply Hs1, Hm.
Qed.

Lemma own_table_only_log w l : own_table_only E w (with_log l w).
Proof. exact (own_table_only_refl w). Qed.

#[local] Hint Resolve own_table_only_refl own_table_only_trans own_table_only_log
  : core.

Lemma db_code_ret {A} (a : A) : db_code E (ret a).
Proof. unfold db_code. apply respects_ret; auto. Qed.

Lemma db_code_raise {A} e : db_code E (@raise A e).
Proof. unfold db_code. apply respects_raise; auto. Qed.

Lemma db_code_logger l m a : db_code E (logger l m a).
Proof. unfold db_code. apply respects_logger; auto. Qed.

Lemma db_code_bind {A B} (m : M A) (k : A -> M B) :
  db_code E m -> (forall a, db_code E (k a)) -> db_code E (bind m k).
Proof. unfold db_code. apply respects_bind; eauto. Qed.

Lemma db_code_try_except {A} (m : M A) (h : exn -> option (M A)) :
  db_code E m -> (forall e hh, h e = Some hh -> db_code E hh) ->
  db_code E (try_except m h).
Proof. unfold db_code. apply respects_try_except; eauto. Qed.

Lemma db_code_try_finally {A} (m : M A) (f : M unit) :
  db_code E m -> db_code E f -> db_code E (try_finally m f).
Proof. unfold db_code. apply respects_try_finally; eauto. Qed.

Lemma db_code_lift {A} (r : result A) : r <> OutOfFuel -> db_code E (lift r).
Proof.
  intros Hr. unfold db_code. apply respects_lift; auto.
  destruct r; simpl; auto.
Qed.

(** A call that finishes and whose effect on the state is [own_table_only]. *)
Lemma db_code_intro {A} (m : M A) :
  (forall w, fst (m w) <> OutOfFuel /\ own_table_only E w (snd (m w))) ->
  db_code E m.
Proof.
  intros H w. destruct (H w) as [Hfin Hinv].
  destruct (m w) as [[a|e|] w']; cbn in *; auto; contradiction.
Qed.

Lemma db_code_after {A} (m : M A) w w1 :
  own_table_only E w w1 -> db_code E m ->
  match m w1 with
  | (Ok _, w') => own_table_only E w w'
  | (Raise e, w') => own_table_only E w w' /\ True
  | (OutOfFuel, _) => False
  end.
Proof.
  intros Hw Hm. specialize (Hm w1).
  destruct (m w1) as [[a|e|] w']; [eauto| |exact Hm].
  destruct Hm as [Hm _]. eauto.
Qed.

Lemma lookup_object_created m n o d :
  m <> n -> Sql.lookup_object m (d ++ [(n, o)]) = Sql.lookup_object m d.
Proof.
  intros Hm. rewrite SqlMore.lookup_object_app.
  destruct (Sql.lookup_object m d); [reflexivity|]. cbn.
  destruct (String.eqb_spec n m); congruence.
Qed.

Ltac own_table_goal :=
  unfold own_table_only, browser_same, coherent; cbn;
  split; [auto|]; intros Hco; split; [intros d0 m0 Hd0 Hm0|intros m0 Hm0].

Lemma db_code_connect : db_code E (pyodbc_connect E).
Proof.
  apply db_code_intro. intros w. unfold pyodbc_connect.
  destruct (connect_fails (sql E)); cbn; (split; [discriminate|]); auto.
  own_table_goal; [injection Hd0 as <-|]; reflexivity.
Qed.

Lemma db_code_close : db_code E connection_close.
Proof.
  apply db_code_intro. intros w. unfold connection_close. cbn.
  split; [discriminate|]. own_table_goal; [discriminate|reflexivity].
Qed.

Lemma db_code_commit : db_code E (connection_commit E).
Proof.
  apply db_code_intro. intros w. unfold connection_commit, pending, bind.
  destruct (session w) as [d|] eqn:Hs; cbn; [|split; [discriminate|auto]].
  destruct (commit_refused (sql E) d); cbn; (split; [discriminate|]); auto.
  own_table_goal.
  - rewrite Hs in Hd0. injection Hd0 as <-. reflexivity.
  - apply (Hco d m0 Hs Hm0).
Qed.

Lemma db_code_rollback : db_code E connection_rollback.
Proof.
  apply db_code_intro. intros w. unfold connection_rollback, pending, bind.
  destruct (session w) as [d|] eqn:Hs; cbn; (split; [discriminate|]); auto.
  own_table_goal; [injection Hd0 as <-|]; reflexivity.
Qed.

Lemma db_code_create_query : db_code E (execute_create_table_query E).
Proof.
  apply db_code_intro. intros w.
  unfold execute_create_table_query, pending, bind, set_pending.
  destruct (session w) as [d|] eqn:Hs; cbn; [|split; [discriminate|auto]].
  destruct (Sql.exists_user_table (TABLE_NAME E) d); cbn;
    [split; [discriminate|auto]|].
  destruct (create_denied (sql E) || Sql.name_taken (TABLE_NAME E) d); cbn;
    (split; [discriminate|]); auto.
  own_table_goal; [|reflexivity].
  injection Hd0 as <-. rewrite (lookup_object_created _ _ _ _ Hm0).
  apply (Hco d m0 Hs Hm0).
Qed.

Lemma db_code_insert r : db_code E (execute_insert E r).
Proof.
  apply db_code_intro. intros w.
  unfold execute_insert, pending, bind, set_pending.
  destruct (session w) as [d|] eqn:Hs; cbn; [|split; [discriminate|auto]].
  destruct (rejects_row (sql E) r); cbn; [split; [discriminate|auto]|].
  destruct (Sql.insert_into (TABLE_NAME E) r d) as [d'|] eqn:Hins; cbn;
    (split; [discriminate|]); auto.
  own_table_goal; [|reflexivity].
  injection Hd0 as <-.
  rewrite (SqlMore.update_table_other _ _ _ _ m0 Hins Hm0).
  apply (Hco d m0 Hs Hm0).
Qed.

Lemma db_code_delete_query k : db_code E (execute_delete_query E k).
Proof.
  apply db_code_intro. intros w.
  unfold execute_delete_query, pending, bind, set_pending, ret.
  destruct (session w) as [d|] eqn:Hs; cbn; [|split; [discriminate|auto]].
  destruct (delete_denied (sql E)); cbn; [split; [discriminate|auto]|].
  destruct (Sql.delete_before (TABLE_NAME E) _ d) as [[d' n]|] eqn:Hdel; cbn;
    (split; [discriminate|]); auto.
  own_table_goal; [|reflexivity].
  injection Hd0 as <-.
  destruct (SqlMore.delete_before_spec _ _ _ _ _ Hdel) as (_ & _ & Hother).
  rewrite (Hother m0 Hm0). apply (Hco d m0 Hs Hm0).
Qed.

Lemma db_code_select_query denied limit :
  db_code E (execute_select_query E denied limit).
Proof.
  apply db_code_intro. intros w. unfold execute_select_query, pending, bind.
  destruct (session w) as [d|] eqn:Hs; cbn; [|split; [discriminate|auto]].
  destruct denied; cbn; [split; [discriminate|auto]|].
  destruct (SqlRead.select_top (TABLE_NAME E) limit d); cbn;
    (split; [discriminate|auto]).
Qed.

Lemma db_code_now : db_code E (datetime_now E).
Proof.
  apply db_code_intro. intros w. unfold datetime_now. cbn.
  split; [discriminate|]. exact (own_table_only_refl w).
Qed.

Lemma db_code_execute_each rs : db_code E (execute_each E rs).
Proof.
  induction rs as [|r rs IH]; simpl.
  - apply db_code_ret.
  - apply db_code_bind; [apply db_code_insert|intros _; exact IH].
Qed.

Lemma db_code_executemany rs : db_code E (cursor_executemany E rs).
Proof. destruct rs; [apply db_code_raise|apply db_code_execute_each]. Qed.

Create HintDb db_code.

#[local] Hint Resolve db_code_ret db_code_raise db_code_logger db_code_connect
  db_code_close db_code_commit db_code_rollback db_code_create_query
  db_code_delete_query db_code_select_query db_code_now db_code_executemany
  : db_code.

Ltac db_code_step :=
  first
    [ solve [auto with db_code]
    | apply db_code_bind; [|intros ?]
    | apply db_code_try_finally
    | apply db_code_try_except; [|intros ? ? ?] ].

Ltac db_code_handler :=
  match goal with
  | H : (if ?c then Some _ else None) = Some _ |- _ =>
      destruct c; [injection H as <-|discriminate]
  end.

Lemma db_code_get_sql_connection {A} (body : M A) :
  db_code E body -> db_code E (get_sql_connection E body).
Proof.
  intros Hbody w. unfold get_sql_connection.
  pose proof (db_code_connect w) as Hc.
  destruct (pyodbc_connect E w) as [[[]|e|] w1]; [| |contradiction].
  - apply (db_code_after _ w w1 Hc); repeat db_code_step;
      try solve [apply db_code_lift; discriminate];
      db_code_handler; repeat db_code_step.
  - destruct Hc as [Hc _].
    apply (db_code_after _ w w1 Hc); repeat db_code_step;
      try solve [apply db_code_lift; discriminate];
      db_code_handler; repeat db_code_step.
Qed.

Lemma db_code_insert_crypto_data data : db_code E (insert_crypto_data E data).
Proof.
  unfold insert_crypto_data, create_crypto_table, cursor_close.
  repeat db_code_step;
    try solve [apply db_code_lift, make_rows_finishes];
    db_code_handler; repeat db_code_step.
Qed.

#[local] Hint Resolve db_code_insert_crypto_data : db_code.

Lemma db_code_save_to_sql_server data : db_code E (save_to_sql_server E data).
Proof.
  unfold save_to_sql_server. destruct data as [|c rest]; [repeat db_code_step|].
  apply db_code_try_except.
  - apply db_code_get_sql_connection. repeat db_code_step.
  - intros e hh Hh. db_code_handler. repeat db_code_step.
Qed.

Lemma db_code_delete_old_data days : db_code E (delete_old_data E days).
Proof.
  unfold delete_old_data, delete_old_data_try, cursor_close.
  apply db_code_try_except.
  - apply db_code_get_sql_connection. repeat db_code_step.
  - intros e hh Hh. db_code_handler. repeat db_code_step.
Qed.

Lemma db_code_get_recent_data denied limit :
  db_code E (get_recent_data E denied limit).
Proof.
  unfold get_recent_data, cursor_close.
  apply db_code_try_except.
  - apply db_code_get_sql_connection. repeat db_code_step.
  - intros e hh Hh. db_code_handler. repeat db_code_step.
Qed.

Lemma db_code_finishes {A} (m : M A) w : db_code E m -> fst (m w) <> OutOfFuel.
Proof.
  intros Hm. specialize (Hm w). destruct (m w) as [[a|e|] w']; cbn;
    [discriminate|discriminate|contradiction].
Qed.

Lemma db_code_idle {A} (m : M A) w :
  db_code E m -> session w = None ->
  browser_same w (snd (m w))
  /\ forall n, n <> TABLE_NAME E ->
       Sql.lookup_object n (stored (snd (m w))) = Sql.lookup_object n (stored w).
Proof.
  intros Hm Hs. specialize (Hm w).
  assert (Hco : coherent E w) by (intros d n Hd; congruence).
  destruct (m w) as [[a|e|] w']; cbn; [|destruct Hm as [Hm _]|contradiction];
    destruct Hm as [Hb Hrest]; destruct (Hrest Hco) as [_ Hsame]; auto.
Qed.

End OwnTable.

(** X14.  The persistence functions change only their own table.  Called
    with no connection open, [save_to_sql_server], [delete_old_data] and
    [get_recent_data] leave every catalogue object under another name as
    it was, whatever the server answers, and none of them touches the
    browser. *)
Theorem database_code_keeps_other_objects (E : env) (data : list crypto_dict)
    (days limit : Z) (select_denied : bool) (w : world) (n : string) :
  session w = None -> n <> TABLE_NAME E ->
  (Sql.lookup_object n (stored (snd (save_to_sql_server E data w)))
   = Sql.lookup_object n (stored w)
   /\ browser_same w (snd (save_to_sql_server E data w)))
  /\ (Sql.lookup_object n (stored (snd (delete_old_data E days w)))
      = Sql.lookup_object n (stored w)
      /\ browser_same w (snd (delete_old_data E days w)))
  /\ (Sql.lookup_object n (stored (snd (get_recent_data E select_denied limit w)))
      = Sql.lookup_object n (stored w)
      /\ browser_same w (snd (get_recent_data E select_denied limit w))).
Proof.
  intros Hs Hn.
  destruct (db_code_idle E _ w (db_code_save_to_sql_server E data) Hs) as [B1 S1].
  destruct (db_code_idle E _ w (db_code_delete_old_data E days) Hs) as [B2 S2].
  destruct (db_code_idle E _ w (db_code_get_recent_data E select_denied limit) Hs)
    as [B3 S3].
  auto 10.
Qed.

Lemma database_code_keeps_other_objects_witness :
  Sql.lookup_object "Audit"
    (stored (snd (save_to_sql_server Sample.demo_env Sample.good_batch
                    (Sample.idle (("Audit"%string, OtherObject "V")
                                  :: Sample.one_row_db)))))
  = Some (OtherObject "V").
Proof.
  destruct (database_code_keeps_other_objects Sample.demo_env Sample.good_batch
              30 10 false
              (Sample.idle (("Audit"%string, OtherObject "V") :: Sample.one_row_db))
              "Audit") as ((Hsave & _) & _).
  - reflexivity.
  - vm_compute. discriminate.
  - rewrite Hsave. reflexivity.
Defined.

(** ** Connections and browsers are given back *)

Section Tidy.

Variable E : env.

Lemma released_refl w : released w w.
Proof. unfold released. auto. Qed.

Lemma released_trans w1 w2 w3 : released w1 w2 -> released w2 w3 -> released w1 w3.
Proof. unfold released. intros [H1 H2] [H3 H4]. auto. Qed.

Lemma released_log w l : released w (with_log l w).
Proof. unfold released. auto. Qed.

#[local] Hint Resolve released_refl released_trans released_log : core.

Lemma tidy_ret {A} (a : A) : tidy (ret a).
Proof. unfold tidy. apply respects_ret; auto. Qed.

Lemma tidy_raise {A} e : tidy (@raise A e).
Proof. unfold tidy. apply respects_raise; auto. Qed.

Lemma tidy_logger l m a : tidy (logger l m a).
Proof. unfold tidy. apply respects_logger; auto. Qed.

Lemma tidy_bind {A B} (m : M A) (k : A -> M B) :
  tidy m -> (forall a, tidy (k a)) -> tidy (bind m k).
Proof. unfold tidy. apply respects_bind; eauto. Qed.

Lemma tidy_try_except {A} (m : M A) (h : exn -> option (M A)) :
  tidy m -> (forall e hh, h e = Some hh -> tidy hh) -> tidy (try_except m h).
Proof. unfold tidy. apply respects_try_except; eauto. Qed.

Lemma tidy_oracle o : tidy (oracle o).
Proof. destruct o; [apply tidy_raise|apply tidy_ret]. Qed.

Lemma tidy_scrape_coinmarketcap : tidy (scrape_coinmarketcap E).
Proof.
  intros w. pose proof (scrape_coinmarketcap_browser_quit E w) as H.
  assert (Hweak : forall w', browser_quit w w' -> released w w').
  { unfold browser_quit, db_same, released. intros w' ((_ & Hs & _) & Hq).
    rewrite Hs. auto. }
  destruct (scrape_coinmarketcap E w) as [[a|e|] w']; [auto| |exact H].
  destruct H as [H _]. auto.
Qed.

(** A [with get_sql_connection()] block ends with the connection closed,
    or with nothing changed when it could not be opened. *)
Lemma tidy_get_sql_connection {A} (body : M A) :
  db_code E body -> tidy (get_sql_connection E body).
Proof.
  intros Hb w. destruct (connect_fails (sql E)) eqn:Hc.
  - destruct (get_sql_connection_offline E body w Hc) as (Hr & Hs & _ & _ & Hbs).
    destruct Hbs as (Hch & _).
    destruct (get_sql_connection E body w) as [[a|e|] w']; cbn in *;
      try discriminate.
    split; [|exact I]. unfold released. rewrite Hs, Hch. auto.
  - pose proof (get_sql_connection_run E body w
                  (fun w1 => db_code_finishes E body w1 Hb) Hc) as Hrun.
    cbv zeta in Hrun. destruct Hrun as (Hr & Hs & _ & _ & Hbs).
    match type of Hr with
    | _ = fst (body ?w1) =>
        pose proof (db_code_finishes E body w1 Hb) as Hfin;
          pose proof (Hb w1) as Hbody;
          assert (Hch : chrome_running (snd (body w1)) = chrome_running w);
          [destruct (body w1) as [[a|e|] w2]; cbn in *;
           [|destruct Hbody as [Hbody _]|contradiction];
           destruct Hbody as [(Hsame & _) _]; exact Hsame|]
    end.
    destruct Hbs as (Hch' & _). rewrite Hch in Hch'. rewrite <- Hr in Hfin.
    assert (Hrel : released w (snd (get_sql_connection E body w))).
    { unfold released. rewrite Hs, Hch'. auto. }
    destruct (get_sql_connection E body w) as [[a|e|] w']; cbn in *; auto.
Qed.

Lemma tidy_save_to_sql_server data : tidy (save_to_sql_server E data).
Proof.
  unfold save_to_sql_server. destruct data as [|c rest].
  - apply tidy_bind; [apply tidy_logger|intros _; apply tidy_ret].
  - apply tidy_try_except.
    + apply tidy_get_sql_connection.
      apply db_code_bind; [apply db_code_insert_crypto_data|intros n].
      apply db_code_bind; [apply db_code_logger|intros _; apply db_code_ret].
    + intros e hh Hh. destruct (is_Exception e); [|discriminate].
      injection Hh as <-.
      apply tidy_bind; [apply tidy_logger|intros _; apply tidy_ret].
Qed.

Lemma tidy_delete_old_data days : tidy (delete_old_data E days).
Proof.
  unfold delete_old_data, delete_old_data_try. apply tidy_try_except.
  - apply tidy_get_sql_connection.
    apply db_code_bind; [apply db_code_delete_query|intros n].
    apply db_code_bind; [apply db_code_commit|intros _].
    apply db_code_bind; [apply db_code_ret|intros _].
    apply db_code_bind; [apply db_code_logger|intros _; apply db_code_ret].
  - intros e hh Hh. destruct (is_Exception e); [|discriminate].
    injection Hh as <-.
    apply tidy_bind; [apply tidy_logger|intros _; apply tidy_ret].
Qed.

Lemma tidy_get_recent_data denied limit : tidy (get_recent_data E denied limit).
Proof.
  unfold get_recent_data. apply tidy_try_except.
  - apply tidy_get_sql_connection.
    apply db_code_bind; [apply db_code_select_query|intros rs].
    apply db_code_bind; [apply db_code_ret|intros _; apply db_code_ret].
  - intros e hh Hh. destruct (is_Exception e); [|discriminate].
    injection Hh as <-.
    apply tidy_bind; [apply tidy_logger|intros _; apply tidy_ret].
Qed.

Lemma tidy_main : tidy (main E).
Proof.
  unfold main, setup_logging.
  apply tidy_bind; [apply tidy_oracle|intros _].
  apply tidy_try_except.
  - apply tidy_bind; [apply tidy_logger|intros _].
    apply tidy_bind; [apply tidy_scrape_coinmarketcap|intros data].
    destruct data as [|c rest]; [apply tidy_logger|].
    apply tidy_bind; [apply tidy_logger|intros _].
    apply tidy_bind; [apply tidy_logger|intros _].
    apply tidy_bind; [apply tidy_save_to_sql_server|intros saved].
    destruct saved; apply tidy_logger.
  - intros e hh Hh.
    destruct (main_handler_total e) as (l & m & Heq). rewrite Heq in Hh.
    injection Hh as <-. apply tidy_logger.
Qed.

Lemma tidy_idle {A} (m : M A) w :
  tidy m -> session w = None -> chrome_running w = false ->
  fst (m w) <> OutOfFuel
  /\ session (snd (m w)) = None /\ chrome_running (snd (m w)) = false.
Proof.
  intros Hm Hs Hc. specialize (Hm w).
  destruct (m w) as [[a|e|] w']; cbn;
    [|destruct Hm as [Hm _]|contradiction];
    destruct Hm as [H1 H2]; (split; [discriminate|auto]).
Qed.

End Tidy.

(** X15.  Every entry point gives back what it acquired.  Started with no
    connection open and no browser running, [main], [save_to_sql_server],
    [delete_old_data] and [get_recent_data] finish with no connection open
    and no browser running, whether they succeeded or failed, and
    whatever the server and the browser did. *)
Theorem entry_points_release_resources (E : env) (data : list crypto_dict)
    (days limit : Z) (select_denied : bool) (w : world) :
  session w = None -> chrome_running w = false ->
  (session (snd (main E w)) = None /\ chrome_running (snd (main E w)) = false)
  /\ (session (snd (save_to_sql_server E data w)) = None
      /\ chrome_running (snd (save_to_sql_server E data w)) = false)
  /\ (session (snd (delete_old_data E days w)) = None
      /\ chrome_running (snd (delete_old_data E days w)) = false)
  /\ (session (snd (get_recent_data E select_denied limit w)) = None
      /\ chrome_running (snd (get_recent_data E select_denied limit w)) = false).
Proof.
  intros Hs Hc.
  destruct (tidy_idle _ w (tidy_main E) Hs Hc) as (_ & H1).
  destruct (tidy_idle _ w (tidy_save_to_sql_server E data) Hs Hc) as (_ & H2).
  destruct (tidy_idle _ w (tidy_delete_old_data E days) Hs Hc) as (_ & H3).
  destruct (tidy_idle _ w (tidy_get_recent_data E select_denied limit) Hs Hc)
    as (_ & H4).
  auto.
Qed.

Lemma entry_points_release_resources_witness :
  session (snd (main Sample.demo_env (Sample.idle Sample.one_row_db))) = None
  /\ chrome_running (snd (main Sample.demo_env (Sample.idle Sample.one_row_db)))
     = false.
Proof.
  destruct (entry_points_release_resources Sample.demo_env Sample.good_batch 30 10
              false (Sample.idle Sample.one_row_db)) as (Hmain & _).
  - reflexivity.
  - reflexivity.
  - exact Hmain.
Defined.

(** ** What a save appends *)

Section SaveFacts.

Variable E : env.

Lemma save_block_db_code data :
  db_code E (rows_inserted <- insert_crypto_data E data ;;
             logger INFO "Data save completed: {rows_inserted} rows"
                    [rows_inserted] ;;
             ret true).
Proof.
  apply db_code_bind; [apply db_code_insert_crypto_data|intros n].
  apply db_code_bind; [apply db_code_logger|intros _; apply db_code_ret].
Qed.

(** [save_to_sql_server] returns [True] exactly when it committed the
    rows prepared from the whole batch at one clock reading, after the
    rows the table held; otherwise the table holds the rows it held. *)
Lemma save_to_sql_server_trace (data : list crypto_dict) (w : world) :
  let T := TABLE_NAME E in
  let run := save_to_sql_server E data w in
  (fst run = Ok true
   /\ data <> [] /\ connect_fails (sql E) = false
   /\ clock_reads (snd run) = S (clock_reads w)
   /\ exists rs,
        make_rows (now E (clock_reads w)) data = Ok rs
        /\ Forall (accepted E) rs
        /\ Sql.table_rows T (stored (snd run)) = Sql.table_rows T (stored w) ++ rs)
  \/ (fst run = Ok false
      /\ (clock_reads (snd run) <= S (clock_reads w))%nat
      /\ Sql.table_rows T (stored (snd run)) = Sql.table_rows T (stored w)).
Proof.
  intros T run. subst T run. destruct data as [|c rest].
  { right. cbn. auto. }
  set (data := c :: rest). unfold save_to_sql_server. fold data.
  change (match data with
          | [] => logger WARNING "No data to save" [] ;; ret false
          | _ :: _ =>
              try_except
                (get_sql_connection E
                   (rows_inserted <- insert_crypto_data E data ;;
                    logger INFO "Data save completed: {rows_inserted} rows"
                           [rows_inserted] ;;
                    ret true))
                (fun e =>
                   if is_Exception e
                   then Some (logger ERROR "Failed to save data to SQL Server" [] ;;
                              ret false)
                   else None)
          end)
    with (try_except
            (get_sql_connection E
               (rows_inserted <- insert_crypto_data E data ;;
                logger INFO "Data save completed: {rows_inserted} rows"
                       [rows_inserted] ;;
                ret true))
            (fun e =>
               if is_Exception e
               then Some (logger ERROR "Failed to save data to SQL Server" [] ;;
                          ret false)
               else None)).
  set (block := (rows_inserted <- insert_crypto_data E data ;;
                 logger INFO "Data save completed: {rows_inserted} rows"
                        [rows_inserted] ;;
                 ret true)).
  unfold try_except.
  destruct (connect_fails (sql E)) eqn:Hc.
  - destruct (get_sql_connection_offline E block w Hc) as (Hr & _ & Hst & Hck & _).
    destruct (get_sql_connection E block w) as [[b|e|] w2]; cbn in Hr, Hst, Hck;
      try discriminate.
    injection Hr as ->. cbn. right. rewrite Hst, Hck. auto.
  - pose proof (get_sql_connection_run E block w
                  (fun w1 => db_code_finishes E block w1 (save_block_db_code data))
                  Hc) as Hrun.
    cbv zeta in Hrun. destruct Hrun as (Hr & _ & Hst & Hck & _).
    set (g := get_sql_connection E block w) in *.
    match type of Hr with
    | _ = fst (block ?w1) =>
        pose proof (insert_crypto_data_run E data w1 eq_refl) as Hout;
          set (w1' := w1) in *
    end.
    change (clock_reads w1') with (clock_reads w) in Hout.
    unfold block, bind in Hr, Hst, Hck. clearbody g.
    destruct (insert_crypto_data E data w1') as [[n|e|] w3]; cbn [fst snd] in Hout.
    + inversion Hout as [|rs w4 Hmk Hrows Hacc Hcommit Hsess Hclock Hn Hw].
      subst w4.
      change (clock_reads w1') with (clock_reads w) in Hclock, Hmk.
      change (stored w1') with (stored w) in Hrows.
      cbn in Hr, Hst, Hck.
      destruct g as [[b|e|] w5]; cbn in Hr, Hst, Hck; try discriminate.
      injection Hr as ->. cbn. left.
      split; [reflexivity|]. split; [discriminate|]. split; [reflexivity|].
      split; [congruence|]. exists rs. rewrite Hst. auto.
    + inversion Hout as [e' w4 Hrows Hsess Hclock Hwhy He Hw|]. subst e' w4.
      change (clock_reads w1') with (clock_reads w) in Hclock.
      change (stored w1') with (stored w) in Hrows.
      cbn in Hr, Hst, Hck.
      assert (Hexc : is_Exception e = true).
      { destruct Hwhy as [->|Hmk]; [reflexivity|].
        apply make_rows_raises in Hmk as [-> | ->]; reflexivity. }
      destruct g as [[b|e'|] w5]; cbn in Hr, Hst, Hck; try discriminate.
      injection Hr as ->. rewrite Hexc. cbn. right.
      rewrite Hst, Hck. auto.
    + inversion Hout.
Qed.

End SaveFacts.

(** X16.  What a save appends.  [save_to_sql_server] returns [True] only
    after it has committed, behind the rows the table held, exactly the
    rows prepared from the whole batch, in order, all stamped with one
    reading of the clock; in every other case it returns [False] and the
    table holds the rows it held.  It never changes or removes a row that
    was there. *)
Theorem save_to_sql_server_appends (E : env) (data : list crypto_dict)
    (w : world) :
  let T := TABLE_NAME E in
  let run := save_to_sql_server E data w in
  (fst run = Ok true \/ fst run = Ok false)
  /\ (fst run = Ok true ->
      data <> []
      /\ exists rs,
           make_rows (now E (clock_reads w)) data = Ok rs
           /\ Sql.table_rows T (stored (snd run))
              = Sql.table_rows T (stored w) ++ rs
           /\ Forall (fun r => scraped_at r = now E (clock_reads w)) rs)
  /\ (fst run = Ok false ->
      Sql.table_rows T (stored (snd run)) = Sql.table_rows T (stored w))
  /\ exists rs,
       Sql.table_rows T (stored (snd run)) = Sql.table_rows T (stored w) ++ rs.
Proof.
  intros T run. subst T run.
  destruct (save_to_sql_server_trace E data w)
    as [(Hr & Hne & _ & _ & rs & Hmk & _ & Hrows)|(Hr & _ & Hrows)].
  - split; [auto|]. split; [|split].
    + intros _. split; [exact Hne|]. exists rs.
      split; [exact Hmk|]. split; [exact Hrows|].
      exact (make_rows_scraped_at _ _ _ Hmk).
    + rewrite Hr. discriminate.
    + exists rs. exact Hrows.
  - split; [auto|]. split; [|split].
    + rewrite Hr. discriminate.
    + intros _. exact Hrows.
    + exists []. rewrite app_nil_r. exact Hrows.
Qed.

(** X17.  Saves accumulate.  After two successful saves in a row the
    table holds the rows it held, then one row per record of the first
    batch, then one row per record of the second; the rows of each batch
    carry the clock reading of their own save, the second the reading
    after the first. *)
Theorem saves_accumulate (E : env) (d1 d2 : list crypto_dict) (w : world) :
  let T := TABLE_NAME E in
  let w1 := snd (save_to_sql_server E d1 w) in
  let w2 := snd (save_to_sql_server E d2 w1) in
  fst (save_to_sql_server E d1 w) = Ok true ->
  fst (save_to_sql_server E d2 w1) = Ok true ->
  exists rs1 rs2,
    Sql.table_rows T (stored w2) = Sql.table_rows T (stored w) ++ rs1 ++ rs2
    /\ length rs1 = length d1 /\ length rs2 = length d2
    /\ Forall (fun r => scraped_at r = now E (clock_reads w)) rs1
    /\ Forall (fun r => scraped_at r = now E (S (clock_reads w))) rs2.
Proof.
  intros T w1 w2 H1 H2. subst T w1 w2.
  destruct (save_to_sql_server_trace E d1 w)
    as [(_ & _ & _ & Hck1 & rs1 & Hmk1 & _ & Hrows1)|(Hr & _)];
    [|rewrite Hr in H1; discriminate].
  destruct (save_to_sql_server_trace E d2 (snd (save_to_sql_server E d1 w)))
    as [(_ & _ & _ & _ & rs2 & Hmk2 & _ & Hrows2)|(Hr & _)];
    [|rewrite Hr in H2; discriminate].
  rewrite Hck1 in Hmk2. exists rs1, rs2. rewrite Hrows2, Hrows1, <- app_assoc.
  split; [reflexivity|].
  split; [exact (make_rows_length _ _ _ Hmk1)|].
  split; [exact (make_rows_length _ _ _ Hmk2)|].
  split; [exact (make_rows_scraped_at _ _ _ Hmk1)|].
  exact (make_rows_scraped_at _ _ _ Hmk2).
Qed.

Lemma saves_accumulate_witness :
  exists rs1 rs2,
    Sql.table_rows "CryptoCurrency"
      (stored (snd (save_to_sql_server Sample.demo_env Sample.good_batch
                      (snd (save_to_sql_server Sample.demo_env Sample.good_batch
                              (Sample.idle Sample.one_row_db))))))
    = [Sample.old_row] ++ rs1 ++ rs2
    /\ Forall (fun r => scraped_at r = 1700000000) rs1
    /\ Forall (fun r => scraped_at r = 1700000001) rs2.
Proof.
  destruct (saves_accumulate Sample.demo_env Sample.good_batch Sample.good_batch
              (Sample.idle Sample.one_row_db))
    as (rs1 & rs2 & Hrows & _ & _ & Hs1 & Hs2).
  - vm_compute. reflexivity.
  - vm_compute. reflexivity.
  - exists rs1, rs2. split; [exact Hrows|]. split; [exact Hs1|exact Hs2].
Defined.

(** ** From the page to the table *)

Section EndToEnd.

Variable E : env.

Lemma returns_only_parse_crypto_data (s : soup) :
  returns_only (fun data => data = [] \/ records_of_page s data)
    (parse_crypto_data s).
Proof.
  intros w data w' Hrun. destruct (find_cmc_table s) as [table|] eqn:Hfind.
  - pose proof (parse_crypto_data_run s table w Hfind) as H. rewrite Hrun in H.
    destruct H as (-> & _). right. exists table. auto.
  - unfold parse_crypto_data in Hrun. rewrite Hfind in Hrun. cbn in Hrun.
    injection Hrun as <- _. left. reflexivity.
Qed.

Lemma returns_only_get_chrome_driver {A} (P : A -> Prop) (body : M A) :
  returns_only P body -> returns_only P (get_chrome_driver E body).
Proof.
  intros Hbody w a w' Hrun. unfold get_chrome_driver in Hrun.
  destruct (webdriver_Chrome E w) as [driver w1].
  refine (returns_only_try_finally P _ _ _ w1 a w' Hrun).
  apply returns_only_try_except.
  - apply (returns_only_bind (fun _ => True)); [apply returns_only_any|intros _ _].
    apply (returns_only_bind (fun _ => True)); [apply returns_only_any|intros _ _].
    exact Hbody.
  - intros e hh Hh. destruct (is_Exception e); [|discriminate].
    injection Hh as <-.
    apply (returns_only_bind (fun _ => True)); [apply returns_only_any|intros _ _].
    apply returns_only_raise.
Qed.

(** What [scrape_coinmarketcap] returns is the empty list or the records
    of the document the browser shows after scrolling. *)
Lemma returns_only_scrape_coinmarketcap :
  returns_only
    (fun data => data = [] \/ records_of_page (page_source (chrome E)) data)
    (scrape_coinmarketcap E).
Proof.
  unfold scrape_coinmarketcap. apply returns_only_try_except.
  - apply (returns_only_bind
             (fun page => page = None \/ page = Some (page_source (chrome E)))).
    + apply returns_only_get_chrome_driver.
      apply (returns_only_bind (fun _ => True)); [apply returns_only_any|intros _ _].
      apply (returns_only_bind (fun _ => True)); [apply returns_only_any|intros _ _].
      apply (returns_only_bind (fun _ => True)); [apply returns_only_any|].
      intros [|] _.
      * apply returns_only_ret. left. reflexivity.
      * apply (returns_only_bind (fun _ => True)); [apply returns_only_any|].
        intros _ _. apply returns_only_ret. right. reflexivity.
    + intros page [->| ->].
      * apply returns_only_ret. left. reflexivity.
      * eapply returns_only_bind; [apply returns_only_parse_crypto_data|].
        intros data Hdata.
        apply (returns_only_bind (fun _ => True)); [apply returns_only_any|].
        intros _ _. apply returns_only_ret. exact Hdata.
  - intros e hh Hh. destruct (is_Exception e); [|discriminate].
    injection Hh as <-.
    apply (returns_only_bind (fun _ => True)); [apply returns_only_any|intros _ _].
    apply returns_only_ret. left. reflexivity.
Qed.

(** The table after [main]: as it was, or extended by the rows of the
    records of the page, stamped with the clock reading of the run; the
    last log record says which. *)
Lemma main_trace (w : world) :
  let T := TABLE_NAME E in
  let w' := snd (main E w) in
  (Sql.table_rows T (stored w') = Sql.table_rows T (stored w)
   /\ (logging_setup E = None ->
       exists entry,
         last (log w') = Some entry
         /\ msg entry
            <> "Successfully saved {len(crypto_data)} records to database"%string))
  \/ exists data rs,
       records_of_page (page_source (chrome E)) data
       /\ data <> []
       /\ make_rows (now E (clock_reads w)) data = Ok rs
       /\ Sql.table_rows T (stored w') = Sql.table_rows T (stored w) ++ rs
       /\ last (log w')
          = Some (Log INFO
                    "Successfully saved {len(crypto_data)} records to database"
                    [Z.of_nat (length data)]).
Proof.
  intros T w'. subst T w'. unfold main, setup_logging.
  destruct (logging_setup E) as [e0|];
    [left; split; [reflexivity|discriminate]|].
  change ((oracle None ;;
           try_except
             (logger INFO "Starting cryptocurrency scraping..." [] ;;
              crypto_data <- scrape_coinmarketcap E ;;
              match crypto_data with
              | [] => logger ERROR "Failed to scrape data" []
              | _ =>
                  logger INFO
                    "Successfully scraped {len(crypto_data)} cryptocurrencies"
                    [Z.of_nat (length crypto_data)] ;;
                  logger INFO "Saving data to SQL Server..." [] ;;
                  saved <- save_to_sql_server E crypto_data ;;
                  if saved : bool then
                    logger INFO
                      "Successfully saved {len(crypto_data)} records to database"
                      [Z.of_nat (length crypto_data)]
                  else
                    logger ERROR "Failed to save data to database" []
              end)
             (fun e =>
                match e with
                | KeyboardInterrupt =>
                    Some (logger INFO "Operation cancelled by user" [])
                | _ =>
                    if is_Exception e
                    then Some (logger ERROR "Application error" [])
                    else None
                end)) w)
    with (try_except
            (logger INFO "Starting cryptocurrency scraping..." [] ;;
             crypto_data <- scrape_coinmarketcap E ;;
             match crypto_data with
             | [] => logger ERROR "Failed to scrape data" []
             | _ =>
                 logger INFO
                   "Successfully scraped {len(crypto_data)} cryptocurrencies"
                   [Z.of_nat (length crypto_data)] ;;
                 logger INFO "Saving data to SQL Server..." [] ;;
                 saved <- save_to_sql_server E crypto_data ;;
                 if saved : bool then
                   logger INFO
                     "Successfully saved {len(crypto_data)} records to database"
                     [Z.of_nat (length crypto_data)]
                 else
                   logger ERROR "Failed to save data to database" []
             end)
            (fun e =>
               match e with
               | KeyboardInterrupt =>
                   Some (logger INFO "Operation cancelled by user" [])
               | _ =>
                   if is_Exception e
                   then Some (logger ERROR "Application error" [])
                   else None
               end) w).
  set (w1 := snd (logger INFO "Starting cryptocurrency scraping..." [] w)).
  rewrite try_except_bind.
  change (logger INFO "Starting cryptocurrency scraping..." [] w) with (Ok tt, w1).
  cbv iota. rewrite try_except_bind.
  pose proof (leaves_db_scrape_coinmarketcap E w1) as Hscrape.
  pose proof (returns_only_scrape_coinmarketcap w1) as Hret.
  destruct (scrape_coinmarketcap E w1) as [[data|e|] w2]; [| |contradiction].
  - specialize (Hret data w2 eq_refl).
    destruct Hscrape as (Hst & _ & Hck). cbn in Hst, Hck.
    destruct data as [|c rest].
    { left. cbn. split; [rewrite Hst; reflexivity|]. intros _.
      eexists. split; [apply last_snoc|discriminate]. }
    destruct Hret as [Hnil|Hpage]; [discriminate|].
    unfold try_except, bind, logger. cbn -[save_to_sql_server].
    match goal with
    | |- context [save_to_sql_server E ?d ?w3] =>
        pose proof (save_to_sql_server_trace E d w3) as Hsave;
          cbv zeta in Hsave;
          cbn -[save_to_sql_server make_rows Sql.table_rows] in Hsave;
          destruct (save_to_sql_server E d w3) as [[b|e|] w4]
    end; cbn [fst snd] in Hsave; rewrite Hst, Hck in Hsave.
    + destruct Hsave as [(Hb & Hne & _ & _ & rs & Hmk & _ & Hrows)|(Hb & _ & Hrows)];
        injection Hb as ->; cbn.
      * right. exists (c :: rest), rs.
        repeat (split; [assumption|]). apply last_snoc.
      * left. split; [exact Hrows|]. intros _.
        eexists. split; [apply last_snoc|discriminate].
    + destruct Hsave as [(Hb & _)|(Hb & _)]; discriminate.
    + destruct Hsave as [(Hb & _)|(Hb & _)]; discriminate.
  - destruct Hscrape as [(Hst & _) _]. cbn in Hst.
    rewrite try_except_raise.
    destruct e; cbn; left; (split; [rewrite Hst; reflexivity|]); intros _;
      (eexists; split; [apply last_snoc|discriminate]).
Qed.

End EndToEnd.

(** X18.  From the page to the table.  Whatever the browser and the
    server do, [main] leaves the table as it was or extends it, behind the
    rows it held, by the rows of the records extracted from the first
    [cmc-table] of the page the browser showed after scrolling: one row per
    data row of at least ten readable cells, in page order, all stamped
    with one clock reading.  It stores nothing else. *)
Theorem main_stores_page_records (E : env) (w : world) :
  let T := TABLE_NAME E in
  let w' := snd (main E w) in
  Sql.table_rows T (stored w') = Sql.table_rows T (stored w)
  \/ exists table rs,
       find_cmc_table (page_source (chrome E)) = Some table
       /\ make_rows (now E (clock_reads w)) (omap row_record (drop 1 (trs table)))
          = Ok rs
       /\ rs <> []
       /\ length rs = length (omap row_record (drop 1 (trs table)))
       /\ Forall (fun r => scraped_at r = now E (clock_reads w)) rs
       /\ Sql.table_rows T (stored w') = Sql.table_rows T (stored w) ++ rs.
Proof.
  intros T w'. subst T w'.
  destruct (main_trace E w)
    as [[Hsame _]|(data & rs & (table & Hfind & ->) & Hne & Hmk & Hrows & _)].
  - left. exact Hsame.
  - right. exists table, rs. split; [exact Hfind|]. split; [exact Hmk|].
    pose proof (make_rows_length _ _ _ Hmk) as Hlen.
    split; [|split; [exact Hlen|split; [exact (make_rows_scraped_at _ _ _ Hmk)|exact Hrows]]].
    intros ->. destruct (omap row_record (drop 1 (trs table))); [congruence|discriminate].
Qed.

(** ** Reading back *)

Section ReadFacts.

Variable E : env.

Lemma newer_or_same_transitive : Transitive SqlRead.newer_or_same.
Proof. unfold SqlRead.newer_or_same. intros x y z Hxy Hyz. lia. Qed.

Lemma newer_or_same_total : Total SqlRead.newer_or_same.
Proof. unfold SqlRead.newer_or_same. intros x y. lia. Qed.

Lemma order_by_sorted rs :
  StronglySorted SqlRead.newer_or_same (SqlRead.order_by_scraped_at_desc rs).
Proof.
  exact (@StronglySorted_merge_sort sqlrow SqlRead.newer_or_same _
           newer_or_same_transitive newer_or_same_total rs).
Qed.

Lemma order_by_permutation rs : SqlRead.order_by_scraped_at_desc rs ≡ₚ rs.
Proof. apply merge_sort_Permutation. Qed.

(** What [SELECT TOP (k) ... ORDER BY scraped_at DESC] returns. *)
Lemma select_top_spec n k d rs :
  SqlRead.select_top n k d = Some rs ->
  0 <= k
  /\ (exists t, Sql.lookup_object n d = Some (UserTable t))
  /\ length rs = Nat.min (Z.to_nat k) (length (Sql.table_rows n d))
  /\ StronglySorted SqlRead.newer_or_same rs
  /\ exists rest,
       rs ++ rest ≡ₚ Sql.table_rows n d
       /\ forall x y, x ∈ rs -> y ∈ rest -> scraped_at y <= scraped_at x.
Proof.
  unfold SqlRead.select_top, Sql.table_rows.
  destruct (Sql.lookup_object n d) as [[t|x]|]; try discriminate.
  destruct (Z.ltb_spec k 0) as [|Hk]; [discriminate|]. intros [= <-].
  pose proof (order_by_sorted (rows t)) as Hsorted.
  pose proof (order_by_permutation (rows t)) as Hperm.
  set (l := SqlRead.order_by_scraped_at_desc (rows t)) in *.
  rewrite <- (take_drop (Z.to_nat k) l) in Hsorted, Hperm.
  split; [exact Hk|]. split; [eauto|]. split; [|split].
  - rewrite length_take. f_equal.
    rewrite <- (take_drop (Z.to_nat k) l). apply Permutation_length, Hperm.
  - apply (StronglySorted_app_1_l _ _ _ Hsorted).
  - exists (drop (Z.to_nat k) l). split; [exact Hperm|].
    intros x y Hx Hy.
    apply (StronglySorted_app_1_elem_of _ _ _ _ _ Hsorted Hx Hy).
Qed.

Lemma read_block_db_code denied limit :
  db_code E (results <- execute_select_query E denied limit ;;
             cursor_close ;;
             ret (Some results)).
Proof.
  apply db_code_bind; [apply db_code_select_query|intros rs].
  apply db_code_bind; [apply db_code_ret|intros _; apply db_code_ret].
Qed.

(** [get_recent_data] returns what the query selects from the committed
    state, or [None], and changes nothing. *)
Lemma get_recent_data_trace (denied : bool) (limit : Z) (w : world) :
  fst (get_recent_data E denied limit w)
  = Ok (if connect_fails (sql E) || denied then None
        else SqlRead.select_top (TABLE_NAME E) limit (stored w))
  /\ stored (snd (get_recent_data E denied limit w)) = stored w
  /\ clock_reads (snd (get_recent_data E denied limit w)) = clock_reads w.
Proof.
  unfold get_recent_data, try_except.
  set (block := (results <- execute_select_query E denied limit ;;
                 cursor_close ;;
                 ret (Some results))).
  destruct (connect_fails (sql E)) eqn:Hc.
  - destruct (get_sql_connection_offline E block w Hc) as (Hr & _ & Hst & Hck & _).
    destruct (get_sql_connection E block w) as [[b|e|] w2]; cbn in Hr, Hst, Hck;
      try discriminate.
    injection Hr as ->. cbn. auto.
  - pose proof (get_sql_connection_run E block w
                  (fun w1 => db_code_finishes E block w1
                               (read_block_db_code denied limit))
                  Hc) as Hrun.
    cbv zeta in Hrun. destruct Hrun as (Hr & _ & Hst & Hck & _).
    set (g := get_sql_connection E block w) in *.
    unfold block, bind, execute_select_query, pending, cursor_close, ret
      in Hr, Hst, Hck.
    cbn in Hr, Hst, Hck. clearbody g.
    destruct denied;
      [|destruct (SqlRead.select_top (TABLE_NAME E) limit (stored w)) as [rs|]];
      cbn in Hr, Hst, Hck;
      destruct g as [[b|e|] w2]; cbn in Hr, Hst, Hck; try discriminate;
      injection Hr as ->; cbn; auto.
Qed.

Lemma filter_none {A} (P : A -> Prop) `{forall x, Decision (P x)} (l : list A) :
  Forall (fun x => ~ P x) l -> filter P l = [].
Proof.
  induction 1 as [|x l Hx _ IH]; [reflexivity|].
  rewrite filter_cons_False by exact Hx. exact IH.
Qed.

Lemma filter_all {A} (P : A -> Prop) `{forall x, Decision (P x)} (l : list A) :
  Forall P l -> filter P l = l.
Proof.
  induction 1 as [|x l Hx _ IH]; [reflexivity|].
  rewrite filter_cons_True by exact Hx. rewrite IH. reflexivity.
Qed.

(** In a list sorted newest first, the rows of the newest timestamp come
    first. *)
Lemma newest_first_split (t0 : Z) (l : list sqlrow) :
  StronglySorted SqlRead.newer_or_same l ->
  Forall (fun x => scraped_at x <= t0) l ->
  l = filter (fun x => scraped_at x = t0) l
      ++ filter (fun x => scraped_at x <> t0) l.
Proof.
  induction l as [|x l IH]; [reflexivity|].
  rewrite StronglySorted_cons. intros [Hx Hsorted] Hall.
  apply Forall_cons in Hall as [Hxt Hall].
  destruct (decide (scraped_at x = t0)) as [Heq|Hne].
  - rewrite filter_cons_True by exact Heq.
    rewrite filter_cons_False by (intros Hn; apply Hn, Heq).
    cbn. f_equal. apply IH; assumption.
  - rewrite filter_cons_False by exact Hne.
    rewrite filter_cons_True by exact Hne.
    assert (Hold : Forall (fun y => scraped_at y <> t0) l).
    { eapply Forall_impl; [exact Hx|]. unfold SqlRead.newer_or_same.
      intros y Hy. cbn in Hy. lia. }
    rewrite (filter_none (fun y => scraped_at y = t0) l).
    + rewrite (filter_all _ l Hold). reflexivity.
    + eapply Forall_impl; [exact Hold|]. auto.
Qed.

(** The [n] newest rows of a table to which [n] rows newer than all of its
    rows have been appended are those rows. *)
Lemma select_top_appended (n : string) (d : database) (old rs : list sqlrow) (t0 : Z) :
  Sql.table_rows n d = old ++ rs -> rs <> [] ->
  Forall (fun x => scraped_at x < t0) old ->
  Forall (fun x => scraped_at x = t0) rs ->
  exists got,
    SqlRead.select_top n (Z.of_nat (length rs)) d = Some got /\ got ≡ₚ rs.
Proof.
  intros Hrows Hne Hold Hnew. unfold SqlRead.select_top.
  unfold Sql.table_rows in Hrows.
  destruct (Sql.lookup_object n d) as [[t|x]|];
    try (destruct old, rs; discriminate || congruence).
  destruct (Z.ltb_spec (Z.of_nat (length rs)) 0) as [|_]; [lia|].
  rewrite Nat2Z.id. eexists. split; [reflexivity|].
  pose proof (order_by_sorted (rows t)) as Hsorted.
  pose proof (order_by_permutation (rows t)) as Hperm.
  set (l := SqlRead.order_by_scraped_at_desc (rows t)) in *.
  rewrite Hrows in Hperm.
  assert (Hall : Forall (fun x => scraped_at x <= t0) l).
  { rewrite Hperm. apply Forall_app. split.
    - eapply Forall_impl; [exact Hold|]. intros x Hx. cbn in Hx. lia.
    - eapply Forall_impl; [exact Hnew|]. intros x Hx. cbn in Hx. lia. }
  assert (Hnewest : filter (fun x => scraped_at x = t0) l ≡ₚ rs).
  { rewrite Hperm, filter_app.
    rewrite (filter_none (fun x => scraped_at x = t0) old).
    - rewrite (filter_all _ rs Hnew). reflexivity.
    - eapply Forall_impl; [exact Hold|]. intros x Hx. cbn in Hx. lia. }
  rewrite (newest_first_split t0 l Hsorted Hall).
  rewrite <- (Permutation_length Hnewest), take_app_length. exact Hnewest.
Qed.

End ReadFacts.

(** X19.  What [get_recent_data] reads.  It never raises and changes
    nothing in the database.  It returns [None] exactly when the
    connection fails, the query is refused, the limit is negative or the
    table does not exist; an empty table or a limit of 0 gives the empty
    list.  Otherwise the list has [min limit (number of rows)] rows of the
    table, newest first, and no row left out is newer than a row
    returned. *)
Theorem get_recent_data_reads (E : env) (select_denied : bool) (limit : Z)
    (w : world) :
  let T := TABLE_NAME E in
  let run := get_recent_data E select_denied limit w in
  stored (snd run) = stored w
  /\ (fst run = Ok None
      <-> connect_fails (sql E) = true \/ select_denied = true \/ limit < 0
          \/ forall t, Sql.lookup_object T (stored w) <> Some (UserTable t))
  /\ (fst run = Ok None
      \/ exists rs,
           fst run = Ok (Some rs)
           /\ length rs
              = Nat.min (Z.to_nat limit) (length (Sql.table_rows T (stored w)))
           /\ StronglySorted SqlRead.newer_or_same rs
           /\ exists rest,
                rs ++ rest ≡ₚ Sql.table_rows T (stored w)
                /\ forall x y, x ∈ rs -> y ∈ rest ->
                               scraped_at y <= scraped_at x).
Proof.
  intros T run. subst T run.
  destruct (get_recent_data_trace E select_denied limit w) as (Hr & Hst & _).
  split; [exact Hst|]. rewrite Hr. clear Hr Hst.
  destruct (connect_fails (sql E)).
  { split; [|left; reflexivity]. split; auto. }
  destruct select_denied.
  { split; [|left; reflexivity]. split; auto. }
  cbn [orb].
  destruct (SqlRead.select_top (TABLE_NAME E) limit (stored w)) as [rs|] eqn:Hsel.
  - destruct (select_top_spec _ _ _ _ Hsel) as (Hk & (t & Ht) & Hlen & Hsorted & Hrest).
    split.
    + split; [discriminate|]. intros [Hc|[Hd|[Hneg|Hnone]]];
        [discriminate|discriminate|lia|exfalso; exact (Hnone t Ht)].
    + right. exists rs. auto.
  - split; [|left; reflexivity]. split; [|reflexivity]. intros _. right. right.
    unfold SqlRead.select_top in Hsel.
    destruct (Sql.lookup_object (TABLE_NAME E) (stored w)) as [[t|x]|];
      [|right; intros t; discriminate|right; intros t; discriminate].
    destruct (Z.ltb_spec limit 0); [left; assumption|discriminate].
Qed.

(** X20.  A saved batch is read back.  When [save_to_sql_server] returns
    [True] and the clock reading of the save is later than every
    timestamp in the table, [get_recent_data] with the size of the batch
    as limit, if its query is not refused, returns the rows of that batch
    and no others. *)
Theorem saved_batch_is_read_back (E : env) (data : list crypto_dict) (w : world) :
  let T := TABLE_NAME E in
  let w1 := snd (save_to_sql_server E data w) in
  fst (save_to_sql_server E data w) = Ok true ->
  Forall (fun r => scraped_at r < now E (clock_reads w))
         (Sql.table_rows T (stored w)) ->
  exists rs got,
    make_rows (now E (clock_reads w)) data = Ok rs
    /\ fst (get_recent_data E false (Z.of_nat (length data)) w1) = Ok (Some got)
    /\ got ≡ₚ rs.
Proof.
  intros T w1 Hsaved Hold. subst T w1.
  destruct (save_to_sql_server_trace E data w)
    as [(_ & Hne & Hc & _ & rs & Hmk & _ & Hrows)|(Hr & _)];
    [|rewrite Hr in Hsaved; discriminate].
  destruct (get_recent_data_trace E false (Z.of_nat (length data))
              (snd (save_to_sql_server E data w))) as (Hget & _).
  rewrite Hc in Hget. cbn [orb] in Hget. rewrite Hget.
  pose proof (make_rows_length _ _ _ Hmk) as Hlen.
  destruct (select_top_appended (TABLE_NAME E)
              (stored (snd (save_to_sql_server E data w)))
              (Sql.table_rows (TABLE_NAME E) (stored w)) rs
              (now E (clock_reads w)) Hrows) as (got & Hsel & Hperm).
  - intros ->. destruct data; [congruence|discriminate].
  - exact Hold.
  - exact (make_rows_scraped_at _ _ _ Hmk).
  - exists rs, got. rewrite <- Hlen, Hsel. auto.
Qed.

Lemma saved_batch_is_read_back_witness :
  exists got,
    fst (get_recent_data Sample.demo_env false 2
           (snd (save_to_sql_server Sample.demo_env Sample.good_batch
                   (Sample.idle Sample.one_row_db)))) = Ok (Some got)
    /\ got ≡ₚ Sample.rows_of Sample.demo_env Sample.good_batch.
Proof.
  destruct (saved_batch_is_read_back Sample.demo_env Sample.good_batch
              (Sample.idle Sample.one_row_db)) as (rs & got & Hmk & Hget & Hperm).
  - vm_compute. reflexivity.
  - repeat constructor.
  - exists got. split; [exact Hget|].
    unfold Sample.rows_of.
    change (clock_reads (Sample.idle Sample.one_row_db)) with 0%nat in Hmk.
    rewrite Hmk. exact Hperm.
Defined.

(** ** The table outlives a failed insert *)

Section CreatedTable.

Variable E : env.

Lemma exists_user_table_updated n f d d' :
  Sql.update_table n f d = Some d' -> Sql.exists_user_table n d' = true.
Proof.
  revert d'. induction d as [|[m o] d IH]; intros d'; cbn; [discriminate|].
  destruct (String.eqb m n) eqn:Hm.
  - destruct o as [t|x]; [|discriminate]. intros [= <-]. cbn. rewrite Hm. reflexivity.
  - destruct (Sql.update_table n f d) as [d''|]; [|discriminate].
    intros [= <-]. cbn. rewrite Hm. cbn. apply IH. reflexivity.
Qed.

Lemma name_free_no_table n d :
  Sql.name_taken n d = false -> Sql.exists_user_table n d = false.
Proof.
  unfold Sql.name_taken, Sql.exists_user_table.
  induction d as [|[m o] d IH]; cbn; [reflexivity|].
  destruct (String.eqb m n); cbn; [discriminate|exact IH].
Qed.

Lemma keeps_table_refl w : keeps_table E w w.
Proof. intros d0 H. exact H. Qed.

Lemma keeps_table_trans w1 w2 w3 :
  keeps_table E w1 w2 -> keeps_table E w2 w3 -> keeps_table E w1 w3.
Proof. intros H1 H2 d0 H. apply H2, H1, H. Qed.

Lemma keeps_table_log w l : keeps_table E w (with_log l w).
Proof. intros d0 H. exact H. Qed.

#[local] Hint Resolve keeps_table_refl keeps_table_trans keeps_table_log : core.

Lemma kt_ret {A} (a : A) : respects (keeps_table E) (fun _ => True) (ret a).
Proof. apply respects_ret; auto. Qed.

Lemma kt_raise {A} e : respects (keeps_table E) (fun _ => True) (@raise A e).
Proof. apply respects_raise; auto. Qed.

Lemma kt_logger l m a : respects (keeps_table E) (fun _ => True) (logger l m a).
Proof. apply respects_logger; auto. Qed.

Lemma kt_bind {A B} (m : M A) (k : A -> M B) :
  respects (keeps_table E) (fun _ => True) m ->
  (forall a, respects (keeps_table E) (fun _ => True) (k a)) ->
  respects (keeps_table E) (fun _ => True) (bind m k).
Proof. apply respects_bind; eauto. Qed.

Lemma kt_try_except {A} (m : M A) (h : exn -> option (M A)) :
  respects (keeps_table E) (fun _ => True) m ->
  (forall e hh, h e = Some hh -> respects (keeps_table E) (fun _ => True) hh) ->
  respects (keeps_table E) (fun _ => True) (try_except m h).
Proof. apply respects_try_except; eauto. Qed.

Lemma kt_try_finally {A} (m : M A) (f : M unit) :
  respects (keeps_table E) (fun _ => True) m ->
  respects (keeps_table E) (fun _ => True) f ->
  respects (keeps_table E) (fun _ => True) (try_finally m f).
Proof. apply respects_try_finally; eauto. Qed.

Lemma kt_intro {A} (m : M A) :
  (forall w, fst (m w) <> OutOfFuel /\ keeps_table E w (snd (m w))) ->
  respects (keeps_table E) (fun _ => True) m.
Proof.
  intros H w. destruct (H w) as [Hfin Hinv].
  destruct (m w) as [[a|e|] w']; cbn in *; auto; contradiction.
Qed.

Lemma kt_commit : respects (keeps_table E) (fun _ => True) (connection_commit E).
Proof.
  apply kt_intro. intros w. unfold connection_commit, pending, bind.
  destruct (session w) as [d|] eqn:Hs; cbn; [|split; [discriminate|auto]].
  destruct (commit_refused (sql E) d); cbn; (split; [discriminate|]); auto.
  intros d0 [_ Hp]. split; cbn; [apply Hp, Hs|exact Hp].
Qed.

Lemma kt_rollback : respects (keeps_table E) (fun _ => True) connection_rollback.
Proof.
  apply kt_intro. intros w. unfold connection_rollback, pending, bind.
  destruct (session w) as [d|] eqn:Hs; cbn; (split; [discriminate|]); auto.
  intros d0 [Hc _]. split; cbn; [exact Hc|]. intros d' [= <-]. exact Hc.
Qed.

Lemma kt_now : respects (keeps_table E) (fun _ => True) (datetime_now E).
Proof.
  apply kt_intro. intros w. unfold datetime_now. cbn.
  split; [discriminate|]. intros d0 H. exact H.
Qed.

Lemma kt_insert r : respects (keeps_table E) (fun _ => True) (execute_insert E r).
Proof.
  apply kt_intro. intros w. unfold execute_insert, pending, bind, set_pending.
  destruct (session w) as [d|] eqn:Hs; cbn; [|split; [discriminate|auto]].
  destruct (rejects_row (sql E) r); cbn; [split; [discriminate|auto]|].
  destruct (Sql.insert_into (TABLE_NAME E) r d) as [d'|] eqn:Hins; cbn;
    (split; [discriminate|]); auto.
  intros d0 [Hc _]. split; cbn; [exact Hc|]. intros d'' [= <-]. right.
  exact (exists_user_table_updated _ _ _ _ Hins).
Qed.

Lemma kt_execute_each rs :
  respects (keeps_table E) (fun _ => True) (execute_each E rs).
Proof.
  induction rs as [|r rs IH]; simpl; [apply kt_ret|].
  apply kt_bind; [apply kt_insert|intros _; exact IH].
Qed.

Lemma kt_executemany rs :
  respects (keeps_table E) (fun _ => True) (cursor_executemany E rs).
Proof. destruct rs; [apply kt_raise|apply kt_execute_each]. Qed.

(** What [insert_crypto_data] does after the table is created and the
    creation committed. *)
Lemma kt_insert_rest (data : list crypto_dict) h :
  (forall e hh, h e = Some hh ->
     hh = (connection_rollback ;; logger ERROR "Error inserting data" [] ;; raise e)) ->
  respects (keeps_table E) (fun _ => True)
    (try_finally
       (try_except
          (current_time <- datetime_now E ;;
           rows_to_insert <- lift (make_rows current_time data) ;;
           cursor_executemany E rows_to_insert ;;
           connection_commit E ;;
           let rows_inserted := Z.of_nat (length rows_to_insert) in
           logger INFO "Successfully inserted {rows_inserted} records into database"
                  [rows_inserted] ;;
           ret rows_inserted)
          h)
       cursor_close).
Proof.
  intros Hh. apply kt_try_finally; [|apply kt_ret]. apply kt_try_except.
  - apply kt_bind; [apply kt_now|intros t].
    apply kt_bind.
    { apply respects_lift; auto.
      pose proof (make_rows_finishes t data) as Hfin.
      destruct (make_rows t data); cbn; auto. }
    intros rs. apply kt_bind; [apply kt_executemany|intros _].
    apply kt_bind; [apply kt_commit|intros _].
    apply kt_bind; [apply kt_logger|intros _; apply kt_ret].
  - intros e hh Heq. rewrite (Hh e hh Heq).
    apply kt_bind; [apply kt_rollback|intros _].
    apply kt_bind; [apply kt_logger|intros _; apply kt_raise].
Qed.

(** Once the creation of the table is committed, the table is there
    whatever the rest of [insert_crypto_data] does. *)
Lemma insert_crypto_data_created (data : list crypto_dict) (w : world) :
  session w = Some (stored w) ->
  Sql.name_taken (TABLE_NAME E) (stored w) = false ->
  create_denied (sql E) = false ->
  commit_refused (sql E)
    (stored w ++ [(TABLE_NAME E, UserTable Sql.empty_crypto_table)]) = false ->
  Sql.exists_user_table (TABLE_NAME E)
    (stored (snd (insert_crypto_data E data w))) = true.
Proof.
  intros Hs Hfree Hcreate Hcommit.
  unfold insert_crypto_data.
  rewrite guarded_bind, (create_run E w (stored w) Hs).
  rewrite (name_free_no_table _ _ Hfree), Hcreate, Hfree. cbn [orb].
  cbv iota.
  set (d1 := stored w ++ [(TABLE_NAME E, UserTable Sql.empty_crypto_table)]) in *.
  match goal with
  | |- context [try_finally _ _ ?w1] => set (w1' := w1)
  end.
  rewrite guarded_bind, (commit_run E w1' d1 eq_refl), Hcommit.
  match goal with
  | |- context [try_finally (try_except ?body ?h) ?f ?w2] =>
      pose proof (kt_insert_rest data h) as Hrest; set (w2' := w2) in *
  end.
  match type of Hrest with
  | ?P -> _ => assert (Hh : P)
  end.
  { intros e hh Heq. destruct (is_pyodbc_Error e); [|discriminate].
    injection Heq as <-. reflexivity. }
  specialize (Hrest Hh w2').
  assert (Hgood : table_or_nothing E d1 w2').
  { split; [left; reflexivity|]. intros d [= <-]. left. reflexivity. }
  assert (Hd1 : Sql.exists_user_table (TABLE_NAME E) d1 = true)
    by apply SqlFacts.exists_user_table_created.
  match goal with
  | |- context [try_finally ?m ?f w2'] =>
      destruct (try_finally m f w2') as [[n|e|] w3]
  end; cbn; [|destruct Hrest as [Hrest _]|contradiction];
    destruct (Hrest d1 Hgood) as [[->|Hex] _]; auto.
Qed.

End CreatedTable.

(** X21.  The creation of the table is not rolled back.  On a fresh
    connection to a database in which the table's name is free, if the
    server accepts the CREATE TABLE and its commit, then the table exists
    in the committed state after [insert_crypto_data], whatever happens to
    the batch; if the call raised, the table is there and empty.  A failed
    insert therefore leaves the row count as it was, but not always the
    catalogue. *)
Theorem table_creation_survives_failed_insert (E : env)
    (data : list crypto_dict) (w : world) :
  let T := TABLE_NAME E in
  let run := insert_crypto_data E data w in
  session w = Some (stored w) ->
  Sql.name_taken T (stored w) = false ->
  create_denied (sql E) = false ->
  commit_refused (sql E) (stored w ++ [(T, UserTable Sql.empty_crypto_table)])
  = false ->
  Sql.exists_user_table T (stored w) = false
  /\ Sql.exists_user_table T (stored (snd run)) = true
  /\ (forall e, fst run = Raise e -> Sql.table_rows T (stored (snd run)) = []).
Proof.
  intros T run Hs Hfree Hcreate Hcommit. subst T run.
  split; [exact (name_free_no_table _ _ Hfree)|].
  split; [exact (insert_crypto_data_created E data w Hs Hfree Hcreate Hcommit)|].
  intros e He. pose proof (insert_crypto_data_run E data w Hs) as Hout.
  rewrite He in Hout.
  inversion Hout as [e' w4 Hrows _ _ _ He' Hw|]. rewrite Hrows.
  unfold Sql.table_rows.
  rewrite (proj2 (SqlMore.lookup_object_none_fresh (TABLE_NAME E) (stored w)) Hfree).
  reflexivity.
Qed.

Lemma table_creation_survives_failed_insert_witness :
  let run := insert_crypto_data Sample.strict_env Sample.batch_with_long_name
               (Sample.connected []) in
  fst run = Raise PyodbcError
  /\ Sql.exists_user_table "CryptoCurrency" (stored (snd run)) = true
  /\ Sql.table_rows "CryptoCurrency" (stored (snd run)) = [].
Proof.
  cbv zeta.
  destruct (table_creation_survives_failed_insert Sample.strict_env
              Sample.batch_with_long_name (Sample.connected []))
    as (_ & Hex & Hrows); try reflexivity.
  assert (Hr : fst (insert_crypto_data Sample.strict_env
                      Sample.batch_with_long_name (Sample.connected []))
               = Raise PyodbcError) by (vm_compute; reflexivity).
  split; [exact Hr|]. split; [exact Hex|]. exact (Hrows _ Hr).
Defined.

(** X22.  What the log says about the save.  Once logging is set up,
    [main] ends with the record "Successfully saved ... records to
    database" exactly when it has extended the table, and the number in
    that record is the number of rows it appended. *)
Theorem main_reports_save_truthfully (E : env) (w : world) :
  logging_setup E = None ->
  let T := TABLE_NAME E in
  let w' := snd (main E w) in
  let saved n :=
    Log INFO "Successfully saved {len(crypto_data)} records to database" [n] in
  (forall n, last (log w') = Some (saved n) ->
     exists rs,
       Z.of_nat (length rs) = n /\ rs <> []
       /\ Sql.table_rows T (stored w') = Sql.table_rows T (stored w) ++ rs)
  /\ (Sql.table_rows T (stored w') <> Sql.table_rows T (stored w) ->
      exists n, last (log w') = Some (saved n)).
Proof.
  intros Hsetup T w' saved. subst T w' saved.
  destruct (main_trace E w)
    as [[Hsame Hlog]|(data & rs & _ & Hne & Hmk & Hrows & Hlast)].
  - destruct (Hlog Hsetup) as (entry & Hentry & Hmsg). split.
    + intros n Hn. rewrite Hn in Hentry. injection Hentry as <-.
      cbn in Hmsg. contradiction.
    + intros Hdiff. contradiction.
  - pose proof (make_rows_length _ _ _ Hmk) as Hlen. split.
    + intros n Hn. rewrite Hlast in Hn. injection Hn as <-.
      exists rs. split; [congruence|]. split; [|exact Hrows].
      intros ->. destruct data; [congruence|discriminate].
    + intros _. eauto.
Qed.

Lemma main_reports_save_truthfully_witness :
  exists rs,
    Z.of_nat (length rs) = 1 /\ rs <> []
    /\ Sql.table_rows "CryptoCurrency"
         (stored (snd (main Sample.demo_env (Sample.idle Sample.one_row_db))))
       = [Sample.old_row] ++ rs.
Proof.
  destruct (main_reports_save_truthfully Sample.demo_env
              (Sample.idle Sample.one_row_db) eq_refl) as [Hsaved _].
  apply (Hsaved 1). vm_compute. reflexivity.
Defined.

(** ** The empty batch *)

Section EmptyBatch.

Variable E : env.

Lemma insert_crypto_data_empty_returns :
  returns_only (fun _ => False) (insert_crypto_data E []).
Proof.
  unfold insert_crypto_data.
  apply returns_only_try_finally, returns_only_try_except.
  - apply (returns_only_bind (fun _ => True)); [apply returns_only_any|intros _ _].
    apply (returns_only_bind (fun _ => True)); [apply returns_only_any|intros _ _].
    apply (returns_only_bind (fun _ => True)); [apply returns_only_any|intros t _].
    eapply returns_only_bind; [apply returns_only_lift|].
    intros rs Hrs. cbn in Hrs. injection Hrs as <-.
    apply (returns_only_bind (fun _ => False)); [apply returns_only_raise|].
    intros _ [].
  - intros e hh Hh. destruct (is_pyodbc_Error e); [|discriminate].
    injection Hh as <-.
    apply (returns_only_bind (fun _ => True)); [apply returns_only_any|intros _ _].
    apply (returns_only_bind (fun _ => True)); [apply returns_only_any|intros _ _].
    apply returns_only_raise.
Qed.

End EmptyBatch.

(** X23.  The empty batch.  [insert_crypto_data] never returns 0: given an
    empty list on a fresh connection it raises [pyodbc.Error], because
    [executemany] refuses an empty parameter sequence, and the table holds
    the rows it held.  [save_to_sql_server] never gets there: for an empty
    list it returns [False] without opening a connection or reading the
    clock. *)
Theorem empty_batch_is_refused (E : env) (w : world) :
  session w = Some (stored w) ->
  (fst (insert_crypto_data E [] w) = Raise PyodbcError
   /\ Sql.table_rows (TABLE_NAME E) (stored (snd (insert_crypto_data E [] w)))
      = Sql.table_rows (TABLE_NAME E) (stored w))
  /\ (forall n data w0,
        fst (insert_crypto_data E data w0) = Ok n -> session w0 = Some (stored w0) ->
        0 < n)
  /\ (forall w0,
        fst (save_to_sql_server E [] w0) = Ok false
        /\ db_same w0 (snd (save_to_sql_server E [] w0))).
Proof.
  intros Hs. split; [|split].
  - pose proof (insert_crypto_data_run E [] w Hs) as Hout.
    pose proof (insert_crypto_data_empty_returns E w) as Hret.
    destruct (insert_crypto_data E [] w) as [[n|e|] w'] eqn:Hrun;
      cbn [fst snd] in *.
    + destruct (Hret n w' eq_refl).
    + inversion Hout as [e' w4 Hrows _ _ Hwhy He Hw|]. subst.
      destruct Hwhy as [->|Hmk]; [auto|discriminate].
    + inversion Hout.
  - intros n data w0 Hrun Hs0.
    pose proof (insert_crypto_data_run E data w0 Hs0) as Hout.
    rewrite Hrun in Hout.
    inversion Hout as [|rs w4 Hmk _ _ _ _ _ Hn Hw].
    destruct data as [|c rest].
    + pose proof (insert_crypto_data_empty_returns E w0) as Hret.
      destruct (insert_crypto_data E [] w0) as [[n'|e|] w'] eqn:Hrun';
        cbn in Hrun; try discriminate.
      destruct (Hret n' w' eq_refl).
    + apply make_rows_length in Hmk. cbn in Hmk. lia.
  - intros w0. cbn. unfold db_same. cbn. auto.
Qed.

Lemma empty_batch_is_refused_witness :
  fst (insert_crypto_data Sample.demo_env [] (Sample.connected Sample.one_row_db))
  = Raise PyodbcError.
Proof.
  apply (empty_batch_is_refused Sample.demo_env (Sample.connected Sample.one_row_db)).
  reflexivity.
Defined.
